(** * Nature Remo integration: the API client, the coordinator's refresh,
      the config flow and the sensor entities, embedded from the Python
      sources under [custom_components/nature_remo] and [const.py]. *)

From Stdlib Require Import ZArith List String Ascii Bool Lia QArith.
From Stdlib Require Import SpecFloat DecimalString.
Import ListNotations.

Local Open Scope string_scope.
Local Open Scope Z_scope.
Local Open Scope list_scope.
Set Warnings "-register-all".

(* ================================================================== *)
(** ** Python values *)
(* ================================================================== *)

Module Py.

(** What [json.loads] builds, which is everything the integration handles:
    [None], booleans, integers, IEEE doubles, strings, lists and dicts.
    A dict keeps its items in insertion order. *)
Inductive value : Type :=
| PyNone
| PyBool (b : bool)
| PyInt (n : Z)
| PyFloat (f : spec_float)
| PyStr (s : string)
| PyList (xs : list value)
| PyDict (items : list (value * value)).

(** The exceptions that travel through the modelled code. [OtherError] stands
    for what the environment raises (transport failures, undecodable
    bodies). *)
Inductive exn : Type :=
| KeyError (k : value)
| TypeError
| AttributeError
| IndexError
| StopIteration
| ClientResponseError (status : Z)
| Invalid
| InvalidAuth (cause : exn)
| OtherError (name : string).

Inductive result (A : Type) : Type :=
| Ok (a : A)
| Raise (e : exn).
Arguments Ok {A} a.
Arguments Raise {A} e.

Definition is_ok {A} (r : result A) : bool :=
  match r with Ok _ => true | Raise _ => false end.

(** *** Hashing and key equality

    Python hashes numbers by their exact value: [1], [1.0] and [True] are
    one dict key.  [key] is that exact value, so two hashable values are
    the same dict key exactly when their [key]s are equal.  Lists and
    dicts are unhashable.  All NaN produced by one [json] decoder are the
    same object, which a dict finds by identity. *)
Inductive key : Type :=
| KNone
| KNum (num : Z) (den : positive)
| KInf (negative : bool)
| KNaN
| KStr (s : string).

Definition signed (negative : bool) (m : positive) : Z :=
  if negative then Z.neg m else Z.pos m.

Definition key_of_float (f : spec_float) : key :=
  match f with
  | S754_zero _ => KNum 0 1
  | S754_infinity s => KInf s
  | S754_nan => KNaN
  | S754_finite s m e =>
      if 0 <=? e then KNum (signed s m * 2 ^ e) 1
      else let q := Qred (signed s m # Pos.pow 2 (Z.to_pos (- e))) in
           KNum (Qnum q) (Qden q)
  end.

Definition hash_key (v : value) : option key :=
  match v with
  | PyNone => Some KNone
  | PyBool b => Some (KNum (if b then 1 else 0) 1)
  | PyInt n => Some (KNum n 1)
  | PyFloat f => Some (key_of_float f)
  | PyStr s => Some (KStr s)
  | PyList _ | PyDict _ => None
  end.

Definition key_eqb (a b : key) : bool :=
  match a, b with
  | KNone, KNone => true
  | KNum n d, KNum n' d' => (n =? n') && (d =? d')%positive
  | KInf s, KInf s' => Bool.eqb s s'
  | KNaN, KNaN => true
  | KStr s, KStr s' => String.eqb s s'
  | _, _ => false
  end.

(** [v == n] for an integer literal [n], and [v == s] for a string literal. *)
Definition eq_int (v : value) (n : Z) : bool :=
  match hash_key v with
  | Some k => key_eqb k (KNum n 1)
  | None => false
  end.

Definition eq_str (v : value) (s : string) : bool :=
  match v with
  | PyStr t => String.eqb t s
  | _ => false
  end.

(** *** Dicts *)

Definition dict := list (value * value).

Definition has_key (k : key) (item : value * value) : bool :=
  match hash_key (fst item) with
  | Some k' => key_eqb k' k
  | None => false
  end.

Definition dict_find (k : key) (d : dict) : option value :=
  option_map snd (find (has_key k) d).

(** [d[k] = v] on a dict whose key [k] is hashable: an existing key keeps its
    place (and its first key object), a new one goes last. *)
Fixpoint dict_set (k : key) (kv : value) (v : value) (d : dict) : dict :=
  match d with
  | [] => [(kv, v)]
  | item :: rest =>
      if has_key k item then (fst item, v) :: rest
      else item :: dict_set k kv v rest
  end.

(** The keys of a dict, as hashed. *)
Definition dict_keys (d : dict) : list (option key) :=
  map (fun item => hash_key (fst item)) d.

(** Hashable, pairwise distinct keys: what every Python dict has. *)
Definition distinct_keys (d : dict) : Prop :=
  NoDup (dict_keys d) /\ Forall (fun o => o <> None) (dict_keys d).

Definition setitem (d : dict) (kv v : value) : result dict :=
  match hash_key kv with
  | Some k => Ok (dict_set k kv v d)
  | None => Raise TypeError
  end.

(** *** Subscription [c[k]] *)

Definition as_index (k : value) : option Z :=
  match k with
  | PyInt n => Some n
  | PyBool b => Some (if b then 1 else 0)
  | _ => None
  end.

Definition seq_index {A} (xs : list A) (i : Z) : option A :=
  let len := Z.of_nat (List.length xs) in
  let j := if i <? 0 then i + len else i in
  if (0 <=? j) && (j <? len) then nth_error xs (Z.to_nat j) else None.

Definition chars (s : string) : list value :=
  map (fun c => PyStr (String c EmptyString)) (list_ascii_of_string s).

Definition getitem (c k : value) : result value :=
  match c with
  | PyDict items =>
      match hash_key k with
      | None => Raise TypeError
      | Some h =>
          match dict_find h items with
          | Some v => Ok v
          | None => Raise (KeyError k)
          end
      end
  | PyList xs =>
      match as_index k with
      | None => Raise TypeError
      | Some i =>
          match seq_index xs i with
          | Some v => Ok v
          | None => Raise IndexError
          end
      end
  | PyStr s =>
      match as_index k with
      | None => Raise TypeError
      | Some i =>
          match seq_index (chars s) i with
          | Some v => Ok v
          | None => Raise IndexError
          end
      end
  | PyNone | PyBool _ | PyInt _ | PyFloat _ => Raise TypeError
  end.

(** [iter(v)]: the elements a [for] loop or a comprehension visits. *)
Definition iter (v : value) : result (list value) :=
  match v with
  | PyList xs => Ok xs
  | PyDict items => Ok (map fst items)
  | PyStr s => Ok (chars s)
  | PyNone | PyBool _ | PyInt _ | PyFloat _ => Raise TypeError
  end.

(** [v.values()], [v.keys()] and [v.get(k, default)]: dict methods. *)
Definition values (v : value) : result (list value) :=
  match v with
  | PyDict items => Ok (map snd items)
  | _ => Raise AttributeError
  end.

Definition keys (v : value) : result (list value) :=
  match v with
  | PyDict items => Ok (map fst items)
  | _ => Raise AttributeError
  end.

Definition get (v k default : value) : result value :=
  match v with
  | PyDict items =>
      match hash_key k with
      | None => Raise TypeError
      | Some h =>
          match dict_find h items with
          | Some x => Ok x
          | None => Ok default
          end
      end
  | _ => Raise AttributeError
  end.

(** [bool(v)], as [if not v] takes it. *)
Definition truthy (v : value) : bool :=
  match v with
  | PyNone => false
  | PyBool b => b
  | PyInt n => negb (n =? 0)
  | PyFloat (S754_zero _) => false
  | PyFloat _ => true
  | PyStr s => negb (String.eqb s "")
  | PyList xs => match xs with [] => false | _ => true end
  | PyDict items => match items with [] => false | _ => true end
  end.

(** [str(n)], [min(xs)] and [max(xs)] for integers. *)
Definition str_of_int (n : Z) : string := NilZero.string_of_int (Z.to_int n).

Definition min_of (xs : list Z) : Z := fold_right Z.min (hd 0 xs) xs.

Definition max_of (xs : list Z) : Z := fold_right Z.max (hd 0 xs) xs.

(** [v + s] for a string literal [s]. *)
Definition add_str (v : value) (s : string) : result value :=
  match v with
  | PyStr t => Ok (PyStr (t ++ s)%string)
  | _ => Raise TypeError
  end.

(** [x in xs] for a list of integer literals. *)
Definition in_ints (v : value) (xs : list Z) : bool :=
  existsb (eq_int v) xs.

End Py.
Export Py.

(* ================================================================== *)
(** ** Effects: exceptions over a mutable state *)
(* ================================================================== *)

Module Effects.

(** A computation reads and writes a state [S] and either returns or
    raises.  What was written before an exception stays written, as in
    Python. *)
Definition M (S A : Type) : Type := S -> result A * S.

Definition ret {S A} (a : A) : M S A := fun s => (Ok a, s).

Definition raise {S A} (e : exn) : M S A := fun s => (Raise e, s).

Definition lift {S A} (r : result A) : M S A := fun s => (r, s).

Definition bind {S A B} (m : M S A) (f : A -> M S B) : M S B :=
  fun s =>
    match m s with
    | (Ok a, s') => f a s'
    | (Raise e, s') => (Raise e, s')
    end.

(** [try: body except Exception as err: handler err]. *)
Definition try_except {S A} (body : M S A) (handler : exn -> M S A) : M S A :=
  fun s =>
    match body s with
    | (Ok a, s') => (Ok a, s')
    | (Raise e, s') => handler e s'
    end.

Definition gets {S A} (f : S -> A) : M S A := fun s => (Ok (f s), s).

Definition modify {S} (f : S -> S) : M S unit := fun s => (Ok tt, f s).

End Effects.
Export Effects.

Declare Scope py_scope.
Delimit Scope py_scope with py.
Notation "x <- m ;; k" := (bind m (fun x => k))
  (at level 61, m at next level, right associativity) : py_scope.
Notation "m ;;; k" := (bind m (fun _ => k))
  (at level 61, right associativity) : py_scope.
Local Open Scope py_scope.

(* ================================================================== *)
(** ** const.py *)
(* ================================================================== *)

Module Const.

Definition DOMAIN : string := "nature_remo".

Definition _CONF_UPDATE_INTERVAL : string := "update_interval".

(** Internal constants for climate control. *)
Definition _CONF_COOL_TEMP : string := "cool_temperature".

Definition _CONF_HEAT_TEMP : string := "heat_temperature".

Definition _DEFAULT_COOL_TEMP : Z := 28.

Definition _DEFAULT_HEAT_TEMP : Z := 20.

(** A [datetime.timedelta] of less than a day, by its [seconds]. *)
Record timedelta : Type := {
  seconds : Z
}.

Definition _DEFAULT_UPDATE_INTERVAL : timedelta := {| seconds := 60 |}.

Definition UPDATE_INTERVAL_OPTIONS : list Z := [10; 15; 30; 45; 60; 90; 120].

Definition _RESOURCE : string := "https://api.nature.global/1/".

(** [homeassistant.const.CONF_ACCESS_TOKEN]. *)
Definition CONF_ACCESS_TOKEN : string := "access_token".

End Const.
Export Const.

(* ================================================================== *)
(** ** The host: aiohttp's session and Home Assistant's config entries *)
(* ================================================================== *)

(** [homeassistant.config_entries.ConfigEntry], the fields the code reads. *)
Module ConfigEntry.

Inductive ConfigEntryState : Type :=
| LOADED
| SETUP_ERROR
| MIGRATION_ERROR
| SETUP_RETRY
| NOT_LOADED
| FAILED_UNLOAD
| SETUP_IN_PROGRESS.

Record t : Type := {
  entry_id : string;
  version : Z;
  state : ConfigEntryState;
  data : dict
}.

Definition in_error_state (e : t) : bool :=
  match state e with
  | MIGRATION_ERROR | SETUP_ERROR => true
  | _ => false
  end.

End ConfigEntry.

(** The [hass] object as far as the integration touches it: the shared
    aiohttp session and the stored config entries. *)
Module HomeAssistant.

(** A GET request: the URL and the token of its [Authorization: Bearer]
    header (the f-string that renders the header is kept as its argument). *)
Record request : Type := {
  url : string;
  bearer : value
}.

(** A response object: its status and what [await response.json()] gives. *)
Record response : Type := {
  status : Z;
  json : result value
}.

(** What comes of reloading an entry: whether the call raises, the state
    the host leaves the entry in, and the requests the entry's setup
    issued. *)
Record reload_outcome : Type := {
  raised : option exn;
  state_after : ConfigEntry.ConfigEntryState;
  requests : list request
}.

(** [respond] is the remote end: given the requests sent so far and the
    next one, [session.get] either raises (a transport failure) or returns
    a response.  [reload] is what the host makes of reloading an entry: the
    unload and the new setup are Home Assistant's and run code outside the
    config flow, so the environment fixes their outcome.  [sent] is the log
    of requests issued. *)
Record t : Type := {
  respond : list request -> request -> result response;
  reload : ConfigEntry.t -> reload_outcome;
  sent : list request;
  config_entries : list ConfigEntry.t
}.

Definition with_sent (h : t) (l : list request) : t :=
  {| respond := respond h; reload := reload h;
     sent := l; config_entries := config_entries h |}.

Definition with_config_entries (h : t) (l : list ConfigEntry.t) : t :=
  {| respond := respond h; reload := reload h;
     sent := sent h; config_entries := l |}.

(** The status codes aiohttp's [ClientResponse.raise_for_status] raises
    for: it raises when [not self.ok], and [ok] is [400 > self.status]. *)
Definition bad_status (status : Z) : bool := 400 <=? status.

(** [await session.get(url, headers=headers)]. *)
Definition session_get (u : string) (token : value) : M t response :=
  fun h =>
    let req := {| url := u; bearer := token |} in
    (respond h (sent h) req, with_sent h (sent h ++ [req])).

(** [response.raise_for_status()]. *)
Definition raise_for_status (r : response) : M t unit :=
  fun h =>
    if bad_status (status r)
    then (Raise (ClientResponseError (status r)), h)
    else (Ok tt, h).

(** [await response.json()]. *)
Definition response_json (r : response) : M t value := lift (json r).

(** [hass.config_entries.async_get_entry(entry_id)]. *)
Definition async_get_entry (id : string) : M t (option ConfigEntry.t) :=
  gets (fun h =>
    find (fun e => String.eqb (ConfigEntry.entry_id e) id) (config_entries h)).

(** [hass.config_entries.async_remove(entry_id)]: unknown ids raise. *)
Definition async_remove (id : string) : M t unit :=
  fun h =>
    if existsb (fun e => String.eqb (ConfigEntry.entry_id e) id)
               (config_entries h)
    then (Ok tt,
          with_config_entries h
            (filter (fun e => negb (String.eqb (ConfigEntry.entry_id e) id))
                    (config_entries h)))
    else (Raise (OtherError "UnknownEntry"), h).

(** [hass.config_entries.async_update_entry(entry, data=, version=, state=)],
    the call as the integration writes it; an omitted keyword is [None]
    here.  Home Assistant's method takes the entry and the keyword-only
    fields [data], [version], [title], [options] and the like, and has no
    [state] parameter: a call that passes [state=] raises [TypeError] before
    anything is stored.  Otherwise the host stores the fields it is given in
    the live entry and leaves the others. *)
Definition async_update_entry (entry : ConfigEntry.t)
    (data : option dict) (version : option Z)
    (state : option ConfigEntry.ConfigEntryState) : M t unit :=
  match state with
  | Some _ => raise TypeError
  | None =>
      modify (fun h =>
        with_config_entries h
          (map (fun e =>
                  if String.eqb (ConfigEntry.entry_id e)
                                (ConfigEntry.entry_id entry)
                  then {| ConfigEntry.entry_id := ConfigEntry.entry_id e;
                          ConfigEntry.version :=
                            match version with
                            | Some v => v
                            | None => ConfigEntry.version e
                            end;
                          ConfigEntry.state := ConfigEntry.state e;
                          ConfigEntry.data :=
                            match data with
                            | Some d => d
                            | None => ConfigEntry.data e
                            end |}
                  else e)
               (config_entries h)))
  end.

(** [await hass.config_entries.async_reload(entry_id)]: the host unloads
    the entry and sets it up again.  An id the host does not know raises
    [UnknownEntry].  For a stored entry the outcome is [reload]'s: the call
    can raise (Home Assistant raises [OperationNotAllowed] for an entry in a
    state it cannot unload from, such as [FAILED_UNLOAD] or
    [SETUP_IN_PROGRESS]), the setup sends its requests through the shared
    session, and the entry is left in the state the host gives it; its data
    and version stay. *)
Definition async_reload (id : string) : M t unit :=
  fun h =>
    match find (fun e => String.eqb (ConfigEntry.entry_id e) id)
               (config_entries h) with
    | None => (Raise (OtherError "UnknownEntry"), h)
    | Some entry =>
        let outcome := reload h entry in
        (match raised outcome with
         | Some e => Raise e
         | None => Ok tt
         end,
         {| respond := respond h; reload := reload h;
            sent := sent h ++ requests outcome;
            config_entries :=
              map (fun e =>
                     if String.eqb (ConfigEntry.entry_id e) id
                     then {| ConfigEntry.entry_id := ConfigEntry.entry_id e;
                             ConfigEntry.version := ConfigEntry.version e;
                             ConfigEntry.state := state_after outcome;
                             ConfigEntry.data := ConfigEntry.data e |}
                     else e)
                  (config_entries h) |})
    end.

End HomeAssistant.

(* ================================================================== *)
(** ** voluptuous schemas, as the config flow writes them *)
(* ================================================================== *)

Module Vol.

(** The value validators the flow uses: the type [str] and [vol.In(list)]. *)
Inductive validator : Type :=
| Str
| In (container : list Z).

(** [vol.Required(key): validator] and
    [vol.Required(key, default=d): validator]. *)
Record Required : Type := {
  key_name : string;
  default : option value;
  check : validator
}.

Definition Schema := list Required.

(** [validator(v)]: returns [v] itself or raises [Invalid]. *)
Definition validate_value (c : validator) (v : value) : result value :=
  match c with
  | Str =>
      match v with
      | PyStr _ => Ok v
      | _ => Raise Invalid
      end
  | In container =>
      if in_ints v container then Ok v else Raise Invalid
  end.

Definition field_for (s : Schema) (k : value) : option Required :=
  find (fun f => eq_str k (key_name f)) s.

Definition present (name : string) (items : dict) : bool :=
  match dict_find (KStr name) items with
  | Some _ => true
  | None => false
  end.

(** Missing keys that have a default get it, after the submitted items. *)
Fixpoint add_defaults (s : Schema) (items : dict) : dict :=
  match s with
  | [] => items
  | f :: rest =>
      match default f with
      | Some d =>
          if present (key_name f) items then add_defaults rest items
          else add_defaults rest (items ++ [(PyStr (key_name f), d)])
      | None => add_defaults rest items
      end
  end.

(** Each item must match a schema key (extra keys are not allowed) and its
    value must pass that key's validator. *)
Fixpoint validate_items (s : Schema) (items : dict) : result dict :=
  match items with
  | [] => Ok []
  | (k, v) :: rest =>
      match field_for s k with
      | None => Raise Invalid
      | Some f =>
          match validate_value (check f) v with
          | Raise e => Raise e
          | Ok v' =>
              match validate_items s rest with
              | Raise e => Raise e
              | Ok rest' => Ok ((k, v') :: rest')
              end
          end
      end
  end.

(** [schema(data)]: the validated dict, or [Invalid]. *)
Definition validate (s : Schema) (input : value) : result value :=
  match input with
  | PyDict items =>
      let items := add_defaults s items in
      if forallb (fun f => present (key_name f) items) s
      then match validate_items s items with
           | Ok out => Ok (PyDict out)
           | Raise e => Raise e
           end
      else Raise Invalid
  | _ => Raise Invalid
  end.

End Vol.

(* ================================================================== *)
(** ** custom_components/nature_remo/__init__.py *)
(* ================================================================== *)

Module Init.

Import HomeAssistant.

(** Calls to [log_debug] and [log_error] only write to the logger; they are
    left out, except where evaluating their arguments can raise. *)

(** An f-string or a string expression over a JSON value, kept unevaluated
    ([str] of a float has no place in any property below). *)
Inductive text : Type :=
| Lit (s : string)
| Format (v : value)
| Concat (a b : text)
| Strip (a : text).

Module NatureRemoAPI.

Record t : Type := {
  _access_token : value
}.

(** [{x["id"]: x for x in data}], over the elements still to visit. *)
Fixpoint by_id (xs : list value) (acc : dict) : result dict :=
  match xs with
  | [] => Ok acc
  | x :: rest =>
      match getitem x (PyStr "id") with
      | Raise e => Raise e
      | Ok k =>
          match setitem acc k x with
          | Raise e => Raise e
          | Ok acc' => by_id rest acc'
          end
      end
  end.

Definition dict_by_id (data : value) : result dict :=
  match iter data with
  | Raise e => Raise e
  | Ok xs => by_id xs []
  end.

(** [async def get(self)]. *)
Definition get (self : t) : M HomeAssistant.t value :=
  appliances <-
    try_except
      (response <- session_get (_RESOURCE ++ "/appliances")%string
                               (_access_token self) ;;
       raise_for_status response ;;;
       appliances_data <- response_json response ;;
       lift (dict_by_id appliances_data))
      (fun err => raise err) ;;
  devices <-
    try_except
      (response <- session_get (_RESOURCE ++ "/devices")%string
                               (_access_token self) ;;
       raise_for_status response ;;;
       devices_data <- response_json response ;;
       lift (dict_by_id devices_data))
      (fun err => raise err) ;;
  ret (PyDict [(PyStr "appliances", PyDict appliances);
               (PyStr "devices", PyDict devices)]).

End NatureRemoAPI.

(** [async_update_data], the closure [async_setup_entry] hands to the
    coordinator as its [update_method]. *)
Definition async_update_data (api : NatureRemoAPI.t) : M HomeAssistant.t value :=
  try_except
    (data <- NatureRemoAPI.get api ;;
     ret data)
    (fun err => raise err).

Module DataUpdateCoordinator.

(** Modelled from the spec: the coordinator class is Home Assistant's
    [DataUpdateCoordinator], which the repository instantiates but does
    not contain.  Section 4.2 gives its state ([currentSnapshot], here
    [data] as the code reads it; [lastOutcome], here the three [last_*]
    fields; the refresh interval; the listeners) and its operations.
    [notified] records, for each listener call, the snapshot the listener
    was shown. *)
Record t : Type := {
  update_method : M HomeAssistant.t value;
  update_interval : Z;
  data : value;
  last_update_success : bool;
  last_exception : option exn;
  last_update_time : option Z;
  listeners : list string;
  notified : list (string * value)
}.

(** Modelled from the spec: the snapshot is created empty at startup. *)
Definition empty_snapshot : value :=
  PyDict [(PyStr "appliances", PyDict []); (PyStr "devices", PyDict [])].

(** Modelled from the spec: [DataUpdateCoordinator(hass, logger, name=,
    update_method=, update_interval=)]. *)
Definition create (method : M HomeAssistant.t value) (interval : Z) : t :=
  {| update_method := method;
     update_interval := interval;
     data := empty_snapshot;
     last_update_success := true;
     last_exception := None;
     last_update_time := None;
     listeners := [];
     notified := [] |}.

(** Modelled from the spec: [refresh()].  "On success, atomically swaps
    currentSnapshot, sets lastOutcome = {success:true, time:now}, and
    notifies every registered listener.  On failure, leaves currentSnapshot
    untouched, sets lastOutcome = {success:false, error, time:now}, and
    re-raises." *)
Definition async_refresh (now : Z) : M (t * HomeAssistant.t) unit :=
  fun '(c, h) =>
    match update_method c h with
    | (Ok snapshot, h') =>
        (Ok tt,
         ({| update_method := update_method c;
             update_interval := update_interval c;
             data := snapshot;
             last_update_success := true;
             last_exception := None;
             last_update_time := Some now;
             listeners := listeners c;
             notified :=
               notified c ++ map (fun l => (l, snapshot)) (listeners c) |},
          h'))
    | (Raise e, h') =>
        (Raise e,
         ({| update_method := update_method c;
             update_interval := update_interval c;
             data := data c;
             last_update_success := false;
             last_exception := Some e;
             last_update_time := Some now;
             listeners := listeners c;
             notified := notified c |},
          h'))
    end.

(** Modelled from the spec: [addListener(cb)] and [removeListener(cb)]. *)
Definition async_add_listener (cb : string) (c : t) : t :=
  {| update_method := update_method c;
     update_interval := update_interval c;
     data := data c;
     last_update_success := last_update_success c;
     last_exception := last_exception c;
     last_update_time := last_update_time c;
     listeners := listeners c ++ [cb];
     notified := notified c |}.

Definition async_remove_listener (cb : string) (c : t) : t :=
  {| update_method := update_method c;
     update_interval := update_interval c;
     data := data c;
     last_update_success := last_update_success c;
     last_exception := last_exception c;
     last_update_time := last_update_time c;
     listeners := filter (fun l => negb (String.eqb l cb)) (listeners c);
     notified := notified c |}.

End DataUpdateCoordinator.

(** The timer driver and manual triggers: one [async_refresh] per tick; a
    failed refresh does not stop the next.  Each call is recorded with its
    outcome and the snapshot [coordinator.data] a consumer reads after it. *)
Fixpoint refresh_each (ticks : list Z)
    (s : DataUpdateCoordinator.t * HomeAssistant.t)
    : list (result unit * value) *
      (DataUpdateCoordinator.t * HomeAssistant.t) :=
  match ticks with
  | [] => ([], s)
  | now :: rest =>
      let '(r, s') := DataUpdateCoordinator.async_refresh now s in
      let '(rs, s'') := refresh_each rest s' in
      ((r, DataUpdateCoordinator.data (fst s')) :: rs, s'')
  end.

(** [class NatureRemoBase(Entity)]. *)
Module NatureRemoBase.

Record t : Type := {
  _name : text;
  _appliance_id : value;
  _device : value
}.

Definition __init__ (appliance : value) : result t :=
  match getitem appliance (PyStr "nickname") with
  | Raise e => Raise e
  | Ok nickname =>
      match getitem appliance (PyStr "id") with
      | Raise e => Raise e
      | Ok id =>
          match getitem appliance (PyStr "device") with
          | Raise e => Raise e
          | Ok device =>
              Ok {| _name := Concat (Lit "Nature Remo ") (Format nickname);
                    _appliance_id := id;
                    _device := device |}
          end
      end
  end.

Definition name (self : t) : text := _name self.

Definition unique_id (self : t) : value := _appliance_id self.

Definition should_poll (self : t) : bool := false.

End NatureRemoBase.

(** [class NatureRemoDeviceBase(Entity)]. *)
Module NatureRemoDeviceBase.

Record t : Type := {
  _device : value;
  _name : text;
  _device_id : value
}.

Definition __init__ (device : value) : result t :=
  match getitem device (PyStr "name") with
  | Raise e => Raise e
  | Ok name =>
      match getitem device (PyStr "id") with
      | Raise e => Raise e
      | Ok id =>
          Ok {| _device := device;
                _name := Concat (Lit "Nature Remo ") (Format name);
                _device_id := id |}
      end
  end.

Definition name (self : t) : text := _name self.

Definition unique_id (self : t) : value := _device_id self.

Definition should_poll (self : t) : bool := false.

End NatureRemoDeviceBase.

End Init.

(* ================================================================== *)
(** ** custom_components/nature_remo/config_flow.py *)
(* ================================================================== *)

Module NatureRemoConfigFlow.

Import HomeAssistant.
Import Init.

(** What a step hands back to the flow manager. *)
Inductive FlowResult : Type :=
| async_abort (reason : string)
| async_create_entry (title : string) (data : dict)
| async_show_form (step_id : string) (data_schema : Vol.Schema)
    (errors : list (string * string))
    (description_placeholders : list (string * string)).

Definition VERSION : Z := 2.

(** [{**d, k: v}]: the items of the dict [d] are copied (its keys are
    distinct), then [k] is set. *)
Definition dict_with (d : dict) (k : string) (v : value) : dict :=
  dict_set (KStr k) (PyStr k) v d.

(** [async_migrate_entry(hass, entry)]. *)
Definition async_migrate_entry (entry : ConfigEntry.t) : M HomeAssistant.t bool :=
  try_except
    (if ConfigEntry.version entry =? 1 then
       let new_data :=
         dict_with (ConfigEntry.data entry) _CONF_UPDATE_INTERVAL
                   (PyInt (seconds _DEFAULT_UPDATE_INTERVAL)) in
       async_update_entry entry (Some new_data) (Some 2)
                          (Some ConfigEntry.NOT_LOADED) ;;;
       ret true
     else ret false)
    (fun err =>
       try_except
         (async_update_entry entry None None (Some ConfigEntry.SETUP_ERROR))
         (fun update_err => ret tt) ;;;
       ret false).

(** [self._validate_token(access_token)]. *)
Definition _validate_token (access_token : value) : M HomeAssistant.t unit :=
  let api := {| NatureRemoAPI._access_token := access_token |} in
  try_except
    (NatureRemoAPI.get api ;;;
     ret tt)
    (fun err => raise (InvalidAuth err)).

Definition description_placeholders : list (string * string) :=
  [("url", "https://home.nature.global");
   ("min_interval", str_of_int (min_of UPDATE_INTERVAL_OPTIONS));
   ("max_interval", str_of_int (max_of UPDATE_INTERVAL_OPTIONS))].

(** The [data_schema] of the user step's form. *)
Definition user_data_schema : Vol.Schema :=
  [ {| Vol.key_name := CONF_ACCESS_TOKEN;
       Vol.default := None;
       Vol.check := Vol.Str |};
    {| Vol.key_name := _CONF_UPDATE_INTERVAL;
       Vol.default := Some (PyInt (seconds _DEFAULT_UPDATE_INTERVAL));
       Vol.check := Vol.In UPDATE_INTERVAL_OPTIONS |} ].

(** [entry.data.get(k, default)]. *)
Definition data_get (entry : ConfigEntry.t) (k : string) (default : value) : value :=
  match dict_find (KStr k) (ConfigEntry.data entry) with
  | Some v => v
  | None => default
  end.

(** The [data_schema] of the reconfigure step's form. *)
Definition reconfigure_data_schema (entry : ConfigEntry.t) : Vol.Schema :=
  [ {| Vol.key_name := CONF_ACCESS_TOKEN;
       Vol.default := Some (data_get entry CONF_ACCESS_TOKEN (PyStr ""));
       Vol.check := Vol.Str |};
    {| Vol.key_name := _CONF_UPDATE_INTERVAL;
       Vol.default :=
         Some (data_get entry _CONF_UPDATE_INTERVAL
                        (PyInt (seconds _DEFAULT_UPDATE_INTERVAL)));
       Vol.check := Vol.In UPDATE_INTERVAL_OPTIONS |} ].

(** [errors = {}; errors["base"] = reason]. *)
Definition base_error (err : exn) : list (string * string) :=
  match err with
  | InvalidAuth _ => [("base", "invalid_auth")]
  | _ => [("base", "unknown")]
  end.

(** [async_step_user(self, user_input=None)].  The [try] block either
    returns the created entry or leaves [errors] for the form. *)
Definition async_step_user (user_input : option value)
    : M HomeAssistant.t FlowResult :=
  current_entries <- gets config_entries ;;
  proceed <-
    match current_entries with
    | [] => ret true
    | _ :: _ =>
        match find ConfigEntry.in_error_state current_entries with
        | Some entry =>
            try_except
              (async_remove (ConfigEntry.entry_id entry))
              (fun err => ret tt) ;;;
            ret true
        | None => ret false
        end
    end ;;
  if negb proceed then ret (async_abort "already_configured")
  else
    outcome <-
      match user_input with
      | Some user_input =>
          try_except
            (token <- lift (getitem user_input (PyStr CONF_ACCESS_TOKEN)) ;;
             _validate_token token ;;;
             token' <- lift (getitem user_input (PyStr CONF_ACCESS_TOKEN)) ;;
             interval <- lift (getitem user_input (PyStr _CONF_UPDATE_INTERVAL)) ;;
             ret (inl (async_create_entry "Nature Remo"
                         [(PyStr CONF_ACCESS_TOKEN, token');
                          (PyStr _CONF_UPDATE_INTERVAL, interval)])))
            (fun err => ret (inr (base_error err)))
      | None => ret (inr [])
      end ;;
    match outcome with
    | inl created => ret created
    | inr errors =>
        ret (async_show_form "user" user_data_schema errors
                             description_placeholders)
    end.

(** [async_step_import(self, import_info)]. *)
Definition async_step_import (import_info : value)
    : M HomeAssistant.t FlowResult :=
  current_entries <- gets config_entries ;;
  match current_entries with
  | _ :: _ => ret (async_abort "already_configured")
  | [] =>
      access_token <- lift (Py.get import_info (PyStr CONF_ACCESS_TOKEN) PyNone) ;;
      if negb (truthy access_token) then ret (async_abort "invalid_yaml_config")
      else
        try_except
          (_validate_token access_token ;;;
           ret (async_create_entry "Nature Remo"
                  [(PyStr CONF_ACCESS_TOKEN, access_token);
                   (PyStr _CONF_UPDATE_INTERVAL,
                    PyInt (seconds _DEFAULT_UPDATE_INTERVAL))]))
          (fun err =>
             match err with
             | InvalidAuth _ => ret (async_abort "invalid_auth")
             | _ => ret (async_abort "unknown")
             end)
  end.

(** [async_step_reconfigure(self, user_input=None)], for the flow whose
    [context["entry_id"]] is [context_entry_id]. *)
Definition async_step_reconfigure (context_entry_id : string)
    (user_input : option value) : M HomeAssistant.t FlowResult :=
  found <- async_get_entry context_entry_id ;;
  match found with
  | None => ret (async_abort "not_found")
  | Some entry =>
      if ConfigEntry.in_error_state entry then
        try_except
          (async_remove (ConfigEntry.entry_id entry))
          (fun err => ret tt) ;;;
        async_step_user user_input
      else
        outcome <-
          match user_input with
          | Some user_input =>
              try_except
                (token <- lift (getitem user_input (PyStr CONF_ACCESS_TOKEN)) ;;
                 _validate_token token ;;;
                 token' <- lift (getitem user_input (PyStr CONF_ACCESS_TOKEN)) ;;
                 interval <- lift (getitem user_input (PyStr _CONF_UPDATE_INTERVAL)) ;;
                 async_update_entry entry
                   (Some [(PyStr CONF_ACCESS_TOKEN, token');
                          (PyStr _CONF_UPDATE_INTERVAL, interval)])
                   None None ;;;
                 async_reload (ConfigEntry.entry_id entry) ;;;
                 ret (inl (async_abort "reconfigure_successful")))
                (fun err => ret (inr (base_error err)))
          | None => ret (inr [])
          end ;;
        match outcome with
        | inl done => ret done
        | inr errors =>
            ret (async_show_form "reconfigure" (reconfigure_data_schema entry)
                                 errors description_placeholders)
        end
  end.

(** Home Assistant's flow manager, when the user submits the form a step
    has shown: the form's [data_schema] is run on the input, and the step
    is called with the validated input only if the schema accepts it. *)
Definition async_configure (cur_step : FlowResult)
    (step : option value -> M HomeAssistant.t FlowResult)
    (user_input : option value) : M HomeAssistant.t FlowResult :=
  match cur_step, user_input with
  | async_show_form _ data_schema _ _, Some input =>
      validated <- lift (Vol.validate data_schema input) ;;
      step (Some validated)
  | async_show_form _ _ _ _, None => step None
  | _, _ => raise (OtherError "UnknownStep")
  end.

End NatureRemoConfigFlow.

(* ================================================================== *)
(** ** custom_components/nature_remo/sensor.py *)
(* ================================================================== *)

Module Sensor.

Import Init.

(** An entity keeps a reference to the coordinator and reads
    [self._coordinator.data] afresh on every access: the properties below
    take the coordinator as it is when they are read. *)

(** [class NatureRemoE(NatureRemoBase)]. *)
Module NatureRemoE.

Definition t : Type := NatureRemoBase.t.

Definition __init__ (appliance : value) : result t :=
  NatureRemoBase.__init__ appliance.

(** [next(value["val"] for value in props if value["epc"] == 231)], over
    the elements the generator has still to visit. *)
Fixpoint next_measured (props : list value) : result value :=
  match props with
  | [] => Raise StopIteration
  | value :: rest =>
      match getitem value (PyStr "epc") with
      | Raise e => Raise e
      | Ok epc =>
          if eq_int epc 231 then getitem value (PyStr "val")
          else next_measured rest
      end
  end.

(** The [state] property. *)
Definition state (coordinator : DataUpdateCoordinator.t) (self : t)
    : result value :=
  match getitem (DataUpdateCoordinator.data coordinator) (PyStr "appliances") with
  | Raise e => Raise e
  | Ok appliances =>
  match getitem appliances (NatureRemoBase._appliance_id self) with
  | Raise e => Raise e
  | Ok appliance =>
  match getitem appliance (PyStr "smart_meter") with
  | Raise e => Raise e
  | Ok smart_meter =>
  match getitem smart_meter (PyStr "echonetlite_properties") with
  | Raise e => Raise e
  | Ok echonetlite_properties =>
  match iter echonetlite_properties with
  | Raise e => Raise e
  | Ok props => next_measured props
  end end end end end.

End NatureRemoE.

(** [device = self._coordinator.data["devices"][self._device["id"]]] and
    then [device["newest_events"][kind]["val"]]: the body the three device
    sensors share, up to the literal [kind]. *)
Definition newest_event_val (kind : string)
    (coordinator : DataUpdateCoordinator.t) (self : NatureRemoDeviceBase.t)
    : result value :=
  match getitem (DataUpdateCoordinator.data coordinator) (PyStr "devices") with
  | Raise e => Raise e
  | Ok devices =>
  match getitem (NatureRemoDeviceBase._device self) (PyStr "id") with
  | Raise e => Raise e
  | Ok id =>
  match getitem devices id with
  | Raise e => Raise e
  | Ok device =>
  match getitem device (PyStr "newest_events") with
  | Raise e => Raise e
  | Ok newest_events =>
  match getitem newest_events (PyStr kind) with
  | Raise e => Raise e
  | Ok event => getitem event (PyStr "val")
  end end end end end.

(** [self._name = self._name.strip() + suffix], in the sensors' [__init__]. *)
Definition renamed (suffix : string) (base : NatureRemoDeviceBase.t)
    : NatureRemoDeviceBase.t :=
  {| NatureRemoDeviceBase._device := NatureRemoDeviceBase._device base;
     NatureRemoDeviceBase._name :=
       Concat (Strip (NatureRemoDeviceBase._name base)) (Lit suffix);
     NatureRemoDeviceBase._device_id := NatureRemoDeviceBase._device_id base |}.

Definition init_renamed (suffix : string) (device : value)
    : result NatureRemoDeviceBase.t :=
  match NatureRemoDeviceBase.__init__ device with
  | Raise e => Raise e
  | Ok base => Ok (renamed suffix base)
  end.

(** [class NatureRemoTemperatureSensor(NatureRemoDeviceBase)]. *)
Module NatureRemoTemperatureSensor.

Definition t : Type := NatureRemoDeviceBase.t.

Definition __init__ (device : value) : result t :=
  init_renamed " Temperature" device.

(** The [unique_id] property, overriding the base class's. *)
Definition unique_id (self : t) : result value :=
  match getitem (NatureRemoDeviceBase._device self) (PyStr "id") with
  | Raise e => Raise e
  | Ok id => add_str id "-te"
  end.

(** The [state] property. *)
Definition state (coordinator : DataUpdateCoordinator.t) (self : t)
    : result value :=
  newest_event_val "te" coordinator self.

End NatureRemoTemperatureSensor.

(** [class NatureRemoHumiditySensor(NatureRemoDeviceBase)]. *)
Module NatureRemoHumiditySensor.

Definition t : Type := NatureRemoDeviceBase.t.

Definition __init__ (device : value) : result t :=
  init_renamed " Humidity" device.

(** The [unique_id] property, overriding the base class's. *)
Definition unique_id (self : t) : result value :=
  match getitem (NatureRemoDeviceBase._device self) (PyStr "id") with
  | Raise e => Raise e
  | Ok id => add_str id "-hu"
  end.

(** The [state] property. *)
Definition state (coordinator : DataUpdateCoordinator.t) (self : t)
    : result value :=
  newest_event_val "hu" coordinator self.

End NatureRemoHumiditySensor.

(** [class NatureRemoIlluminanceSensor(NatureRemoDeviceBase)]. *)
Module NatureRemoIlluminanceSensor.

Definition t : Type := NatureRemoDeviceBase.t.

Definition __init__ (device : value) : result t :=
  init_renamed " Illuminance" device.

(** The [unique_id] property, overriding the base class's. *)
Definition unique_id (self : t) : result value :=
  match getitem (NatureRemoDeviceBase._device self) (PyStr "id") with
  | Raise e => Raise e
  | Ok id => add_str id "-il"
  end.

(** The [state] property. *)
Definition state (coordinator : DataUpdateCoordinator.t) (self : t)
    : result value :=
  newest_event_val "il" coordinator self.

End NatureRemoIlluminanceSensor.

(** The objects handed to [async_add_entities], by class. *)
Inductive entity : Type :=
| E (e : NatureRemoE.t)
| Temperature (e : NatureRemoTemperatureSensor.t)
| Humidity (e : NatureRemoHumiditySensor.t)
| Illuminance (e : NatureRemoIlluminanceSensor.t).

(** The [state] of any of them. *)
Definition state (coordinator : DataUpdateCoordinator.t) (x : entity)
    : result value :=
  match x with
  | E e => NatureRemoE.state coordinator e
  | Temperature e => NatureRemoTemperatureSensor.state coordinator e
  | Humidity e => NatureRemoHumiditySensor.state coordinator e
  | Illuminance e => NatureRemoIlluminanceSensor.state coordinator e
  end.

(** [[NatureRemoE(coordinator, appliance) for appliance in ...
      if appliance["type"] == "EL_SMART_METER"]]. *)
Fixpoint smart_meters (appliances : list value) : result (list entity) :=
  match appliances with
  | [] => Ok []
  | appliance :: rest =>
      match getitem appliance (PyStr "type") with
      | Raise e => Raise e
      | Ok type =>
          if eq_str type "EL_SMART_METER" then
            match NatureRemoE.__init__ appliance with
            | Raise e => Raise e
            | Ok x =>
                match smart_meters rest with
                | Raise e => Raise e
                | Ok xs => Ok (E x :: xs)
                end
            end
          else smart_meters rest
      end
  end.

(** [for sensor in device["newest_events"].keys(): ...], appending to
    [entities]. *)
Fixpoint device_sensors (device : value) (sensors : list value)
    (entities : list entity) : result (list entity) :=
  match sensors with
  | [] => Ok entities
  | sensor :: rest =>
      if eq_str sensor "te" then
        match NatureRemoTemperatureSensor.__init__ device with
        | Raise e => Raise e
        | Ok x => device_sensors device rest (entities ++ [Temperature x])
        end
      else if eq_str sensor "hu" then
        match NatureRemoHumiditySensor.__init__ device with
        | Raise e => Raise e
        | Ok x => device_sensors device rest (entities ++ [Humidity x])
        end
      else if eq_str sensor "il" then
        match NatureRemoIlluminanceSensor.__init__ device with
        | Raise e => Raise e
        | Ok x => device_sensors device rest (entities ++ [Illuminance x])
        end
      else device_sensors device rest entities
  end.

(** [for device in devices.values(): ...].  The [log_debug] call at the
    head of the body evaluates [device["name"]] and
    [device["newest_events"]]. *)
Fixpoint all_device_sensors (devices : list value) (entities : list entity)
    : result (list entity) :=
  match devices with
  | [] => Ok entities
  | device :: rest =>
      match getitem device (PyStr "name") with
      | Raise e => Raise e
      | Ok _ =>
      match getitem device (PyStr "newest_events") with
      | Raise e => Raise e
      | Ok _ =>
      match getitem device (PyStr "newest_events") with
      | Raise e => Raise e
      | Ok newest_events =>
      match keys newest_events with
      | Raise e => Raise e
      | Ok sensors =>
      match device_sensors device sensors entities with
      | Raise e => Raise e
      | Ok entities' => all_device_sensors rest entities'
      end end end end end
  end.

(** [async_setup_entry(hass, entry, async_add_entities)], for the
    coordinator stored under the entry: the list it passes to
    [async_add_entities]. *)
Definition async_setup_entry (coordinator : DataUpdateCoordinator.t)
    : result (list entity) :=
  match getitem (DataUpdateCoordinator.data coordinator) (PyStr "appliances") with
  | Raise e => Raise e
  | Ok appliances =>
  match getitem (DataUpdateCoordinator.data coordinator) (PyStr "devices") with
  | Raise e => Raise e
  | Ok devices =>
  match values appliances with
  | Raise e => Raise e
  | Ok appliance_values =>
  match smart_meters appliance_values with
  | Raise e => Raise e
  | Ok entities =>
  match values devices with
  | Raise e => Raise e
  | Ok device_values => all_device_sensors device_values entities
  end end end end end.

End Sensor.

(* ================================================================== *)
(** ** The specification's vocabulary *)
(* ================================================================== *)

Module Spec.

Import HomeAssistant.
Import Init.

(** *** The API client (section 4.1) *)

(** The two GET requests of one fetch. *)
Definition appliances_request (api : NatureRemoAPI.t) : request :=
  {| url := "https://api.nature.global/1//appliances";
     bearer := NatureRemoAPI._access_token api |}.

Definition devices_request (api : NatureRemoAPI.t) : request :=
  {| url := "https://api.nature.global/1//devices";
     bearer := NatureRemoAPI._access_token api |}.

(** A GET fails when the transport raises or the status is one
    [raise_for_status] rejects, 400 or above. *)
Definition request_fails (h : HomeAssistant.t) (req : request) : bool :=
  match respond h (sent h) req with
  | Raise _ => true
  | Ok r => bad_status (status r)
  end.

(** The state once a request has been issued. *)
Definition after_request (h : HomeAssistant.t) (req : request) : HomeAssistant.t :=
  with_sent h (sent h ++ [req]).

(** What one GET block of [get] yields in state [h]: the keyed mapping, or
    the exception of the first step that raises. *)
Definition fetched (h : HomeAssistant.t) (req : request) : result dict :=
  match respond h (sent h) req with
  | Raise e => Raise e
  | Ok r =>
      if bad_status (status r) then Raise (ClientResponseError (status r))
      else match json r with
           | Raise e => Raise e
           | Ok data => NatureRemoAPI.dict_by_id data
           end
  end.

(** The snapshot dict [get] returns. *)
Definition snapshot (appliances devices : dict) : value :=
  PyDict [(PyStr "appliances", PyDict appliances);
          (PyStr "devices", PyDict devices)].

(** The element's [id] field as a dict key, when it has a hashable one. *)
Definition id_key (x : value) : option key :=
  match getitem x (PyStr "id") with
  | Ok i => hash_key i
  | Raise _ => None
  end.

Definition has_id (k : key) (x : value) : bool :=
  match id_key x with
  | Some k' => key_eqb k' k
  | None => false
  end.

(** The last element of the array whose id is [k]. *)
Definition last_with_id (k : key) (xs : list value) : option value :=
  find (has_id k) (rev xs).

(** "The mapping contains exactly the elements of the array keyed by each
    element's id; duplicate ids resolve to the last occurrence": looking a
    key up gives the last element with that id (and nothing when there is
    none), every stored item is such an element under its id, and no key
    is stored twice. *)
Definition keyed_by_id (d : dict) (xs : list value) : Prop :=
  (forall k, dict_find k d = last_with_id k xs) /\
  (forall kv v, In (kv, v) d ->
     exists k, hash_key kv = Some k /\ last_with_id k xs = Some v) /\
  NoDup (dict_keys d).

(** *** The coordinator (section 4.2) *)

(** The outcomes of [n] consecutive fetches from the state [h], oldest
    first, and the state they leave. *)
Fixpoint fetches (api : NatureRemoAPI.t) (n : nat) (h : HomeAssistant.t)
    : list (result value) * HomeAssistant.t :=
  match n with
  | O => ([], h)
  | S n' =>
      let '(r, h') := NatureRemoAPI.get api h in
      let '(rs, h'') := fetches api n' h' in
      (r :: rs, h'')
  end.

(** The payload of the most recent successful fetch among [rs], or
    [initial] when none succeeded. *)
Definition last_ok (initial : value) (rs : list (result value)) : value :=
  fold_left (fun current r =>
               match r with
               | Ok payload => payload
               | Raise _ => current
               end)
            rs initial.

(** What the caller of a refresh sees of a fetch: its completion or the
    error it raised. *)
Definition outcome_of (r : result value) : result unit :=
  match r with
  | Ok _ => Ok tt
  | Raise e => Raise e
  end.

(** *** Configuration (section 6) *)

(** The old configuration with one key added, the refresh interval at its
    default of 60 seconds, under version 2 (and in the state [NOT_LOADED]
    the code asks the host to reset the entry to). *)
Definition migrated (entry : ConfigEntry.t) : ConfigEntry.t :=
  {| ConfigEntry.entry_id := ConfigEntry.entry_id entry;
     ConfigEntry.version := 2;
     ConfigEntry.state := ConfigEntry.NOT_LOADED;
     ConfigEntry.data :=
       ConfigEntry.data entry ++ [(PyStr "update_interval", PyInt 60)] |}.

(** The refresh interval is outside the allow-list: equal to none of
    10, 15, 30, 45, 60, 90, 120. *)
Definition outside_allow_list (interval : value) : bool :=
  negb (existsb (eq_int interval) [10; 15; 30; 45; 60; 90; 120]).

(** *** The derived entities (section 4.3) *)

Import Sensor.

Definition has_field (v : value) (k : string) : bool :=
  is_ok (getitem v (PyStr k)).

(** The property entry carries the code [n]. *)
Definition has_epc (n : Z) (entry : value) : bool :=
  match getitem entry (PyStr "epc") with
  | Ok epc => eq_int epc n
  | Raise _ => false
  end.

(** The appliance an energy entity is bound to, as the snapshot has it. *)
Definition appliance_of (c : DataUpdateCoordinator.t) (self : NatureRemoE.t)
    : result value :=
  match getitem (DataUpdateCoordinator.data c) (PyStr "appliances") with
  | Raise e => Raise e
  | Ok appliances => getitem appliances (NatureRemoBase._appliance_id self)
  end.

(** The device a device entity is bound to, as the snapshot has it. *)
Definition device_of (c : DataUpdateCoordinator.t)
    (self : NatureRemoDeviceBase.t) : result value :=
  match getitem (DataUpdateCoordinator.data c) (PyStr "devices") with
  | Raise e => Raise e
  | Ok devices =>
      match getitem (NatureRemoDeviceBase._device self) (PyStr "id") with
      | Raise e => Raise e
      | Ok id => getitem devices id
      end
  end.

(** The smart-meter property list of an appliance. *)
Definition properties_of (appliance : value) : result value :=
  match getitem appliance (PyStr "smart_meter") with
  | Raise e => Raise e
  | Ok smart_meter => getitem smart_meter (PyStr "echonetlite_properties")
  end.

(** The appliance's [type] tag is the energy meter's. *)
Definition is_smart_meter (appliance : value) : bool :=
  match getitem appliance (PyStr "type") with
  | Ok type => eq_str type "EL_SMART_METER"
  | Raise _ => false
  end.

(** An appliance of the data model: a [type] tag, and for an energy meter
    the identity fields (id, nickname, owning device). *)
Definition appliance_ok (appliance : value) : bool :=
  has_field appliance "type" &&
  (if is_smart_meter appliance
   then has_field appliance "nickname" && has_field appliance "id" &&
        has_field appliance "device"
   else true).

(** A device of the data model: identity (id, name) and the mapping of
    sensor kinds to their latest event. *)
Definition device_ok (device : value) : bool :=
  has_field device "name" && has_field device "id" &&
  match getitem device (PyStr "newest_events") with
  | Ok (PyDict _) => true
  | _ => false
  end.

Definition is_kind (sensor : value) : bool :=
  eq_str sensor "te" || eq_str sensor "hu" || eq_str sensor "il".

(** The keys among "te", "hu", "il" present in the device's newest events. *)
Definition kinds_of (device : value) : list value :=
  match getitem device (PyStr "newest_events") with
  | Ok (PyDict events) => filter is_kind (map fst events)
  | _ => []
  end.

(** [x] is the energy entity of [appliance]. *)
Definition energy_for (appliance : value) (x : entity) : Prop :=
  exists e, NatureRemoE.__init__ appliance = Ok e /\ x = E e.

(** [x] is the entity of the kind [fst dk] for the device [snd dk]. *)
Definition sensor_for (dk : value * value) (x : entity) : Prop :=
  (eq_str (snd dk) "te" = true /\
   exists e, NatureRemoTemperatureSensor.__init__ (fst dk) = Ok e /\
             x = Temperature e) \/
  (eq_str (snd dk) "hu" = true /\
   exists e, NatureRemoHumiditySensor.__init__ (fst dk) = Ok e /\
             x = Humidity e) \/
  (eq_str (snd dk) "il" = true /\
   exists e, NatureRemoIlluminanceSensor.__init__ (fst dk) = Ok e /\
             x = Illuminance e).

(** Every device paired with each of its present kinds, in order. *)
Definition device_kinds (devices : list value) : list (value * value) :=
  flat_map (fun d => map (pair d) (kinds_of d)) devices.

End Spec.

(* ================================================================== *)
(** ** Concrete snapshots and environments *)
(* ================================================================== *)

Module Examples.

Import HomeAssistant.
Import Init.

(** A JSON object with string keys. *)
Definition obj (fields : list (string * value)) : value :=
  PyDict (map (fun f => (PyStr (fst f), snd f)) fields).

(** The double 21.5, that is 6051711999279104 * 2^-48. *)
Definition float_21_5 : spec_float := S754_finite false 6051711999279104 (-48).

(** The double 231.0, that is 8127589952520192 * 2^-45. *)
Definition float_231 : spec_float := S754_finite false 8127589952520192 (-45).

(** A Remo device reporting temperature and humidity, no illuminance. *)
Definition remo : value :=
  obj [("id", PyStr "d1");
       ("name", PyStr "Living room");
       ("serial_number", PyStr "1W000000000000");
       ("firmware_version", PyStr "Remo/1.0.0");
       ("newest_events",
        obj [("te", obj [("val", PyFloat float_21_5)]);
             ("hu", obj [("val", PyInt 60)])])].

(** A smart meter whose instantaneous power (code 231) reads [watts]. *)
Definition meter (watts : Z) : value :=
  obj [("id", PyStr "a1");
       ("nickname", PyStr "Smart meter");
       ("type", PyStr "EL_SMART_METER");
       ("device", remo);
       ("smart_meter",
        obj [("echonetlite_properties",
              PyList [obj [("epc", PyInt 225); ("val", PyInt 10)];
                      obj [("epc", PyInt 231); ("val", PyInt watts)]])])].

(** A smart meter that reports no property 231. *)
Definition meter_without_231 : value :=
  obj [("id", PyStr "a1");
       ("nickname", PyStr "Smart meter");
       ("type", PyStr "EL_SMART_METER");
       ("device", remo);
       ("smart_meter",
        obj [("echonetlite_properties",
              PyList [obj [("epc", PyInt 225); ("val", PyInt 10)]])])].

(** An air conditioner: no smart-meter block. *)
Definition aircon : value :=
  obj [("id", PyStr "a2");
       ("nickname", PyStr "Aircon");
       ("type", PyStr "AC");
       ("device", remo)].

(** A status outside 200..299. *)
Definition non_2xx (s : Z) : bool := negb ((200 <=? s) && (s <? 300)).

Definition json_response (body : value) : result response :=
  Ok {| status := 200; json := Ok body |}.

(** A cloud that always answers: two appliances (the meter listed twice,
    an older reading first) and one device. *)
Definition cloud (history : list request) (req : request) : result response :=
  if String.eqb (url req) "https://api.nature.global/1//appliances"
  then json_response (PyList [meter 300; aircon; meter 450])
  else if String.eqb (url req) "https://api.nature.global/1//devices"
  then json_response (PyList [remo])
  else Ok {| status := 404; json := Raise (OtherError "ContentTypeError") |}.

(** A cloud whose devices endpoint answers 500. *)
Definition cloud_devices_down (history : list request) (req : request)
    : result response :=
  if String.eqb (url req) "https://api.nature.global/1//appliances"
  then json_response (PyList [meter 450; aircon])
  else Ok {| status := 500; json := Ok (PyList []) |}.

(** A cloud whose appliances endpoint answers 300 (Multiple Choices), the
    JSON array in the body. *)
Definition cloud_multiple_choices (history : list request) (req : request)
    : result response :=
  if String.eqb (url req) "https://api.nature.global/1//appliances"
  then Ok {| status := 300; json := Ok (PyList [meter 450]) |}
  else json_response (PyList [remo]).

(** A cloud that cannot be reached. *)
Definition unreachable (history : list request) (req : request)
    : result response :=
  Raise (OtherError "ClientConnectorError").

(** A cloud on which every other fetch fails: the appliances request is
    refused whenever the number of requests so far is 2 modulo 3, and the
    meter reading grows with the number of requests. *)
Definition flaky (history : list request) (req : request) : result response :=
  let n := Z.of_nat (List.length history) in
  if String.eqb (url req) "https://api.nature.global/1//appliances"
  then if n mod 3 =? 2 then Raise (OtherError "ClientConnectorError")
       else json_response (PyList [meter (450 + n)])
  else json_response (PyList [remo]).

(** The states Home Assistant unloads an entry from. *)
Definition recoverable (s : ConfigEntry.ConfigEntryState) : bool :=
  match s with
  | ConfigEntry.MIGRATION_ERROR
  | ConfigEntry.FAILED_UNLOAD
  | ConfigEntry.SETUP_IN_PROGRESS => false
  | _ => true
  end.

(** A host on which every setup goes through: the reload of an entry in a
    state it cannot be unloaded from is refused with [OperationNotAllowed];
    any other entry is set up again, its first refresh fetching with the
    stored token, and ends loaded. *)
Definition reloading (entry : ConfigEntry.t) : reload_outcome :=
  if recoverable (ConfigEntry.state entry) then
    let token :=
      match dict_find (KStr "access_token") (ConfigEntry.data entry) with
      | Some v => v
      | None => PyNone
      end in
    {| raised := None;
       state_after := ConfigEntry.LOADED;
       requests :=
         [ {| url := "https://api.nature.global/1//appliances";
              bearer := token |};
           {| url := "https://api.nature.global/1//devices";
              bearer := token |} ] |}
  else
    {| raised := Some (OtherError "OperationNotAllowed");
       state_after := ConfigEntry.state entry;
       requests := [] |}.

Definition hass_with (remote : list request -> request -> result response)
    : HomeAssistant.t :=
  {| respond := remote; reload := reloading; sent := [];
     config_entries := [] |}.

Definition api : NatureRemoAPI.t :=
  {| NatureRemoAPI._access_token := PyStr "secret" |}.

Definition coordinator : DataUpdateCoordinator.t :=
  DataUpdateCoordinator.create (async_update_data api) 60.

(** The coordinator holding a given snapshot. *)
Definition coordinator_with (snapshot : value) : DataUpdateCoordinator.t :=
  {| DataUpdateCoordinator.update_method := async_update_data api;
     DataUpdateCoordinator.update_interval := 60;
     DataUpdateCoordinator.data := snapshot;
     DataUpdateCoordinator.last_update_success := true;
     DataUpdateCoordinator.last_exception := None;
     DataUpdateCoordinator.last_update_time := Some 0;
     DataUpdateCoordinator.listeners := [];
     DataUpdateCoordinator.notified := [] |}.

(** The snapshot of a home with the Remo, an air conditioner and a first
    appliance [a1]. *)
Definition home_with (a1 : value) : value :=
  PyDict [(PyStr "appliances",
           PyDict [(PyStr "a1", a1); (PyStr "a2", aircon)]);
          (PyStr "devices", PyDict [(PyStr "d1", remo)])].

Definition home : value := home_with (meter 450).

(** The same home, the meter reporting no property 231. *)
Definition home_without_231 : value := home_with meter_without_231.

(** The same home, the appliance "a1" coming without a smart-meter block. *)
Definition home_without_block : value := home_with aircon.

(** The entities bound to the meter and to the Remo. *)
Definition meter_entity : NatureRemoBase.t :=
  {| NatureRemoBase._name :=
       Concat (Lit "Nature Remo ") (Format (PyStr "Smart meter"));
     NatureRemoBase._appliance_id := PyStr "a1";
     NatureRemoBase._device := remo |}.

Definition remo_entity (suffix : string) : NatureRemoDeviceBase.t :=
  {| NatureRemoDeviceBase._device := remo;
     NatureRemoDeviceBase._name :=
       Concat (Strip (Concat (Lit "Nature Remo ") (Format (PyStr "Living room"))))
              (Lit suffix);
     NatureRemoDeviceBase._device_id := PyStr "d1" |}.

(** A stored version-1 entry: the access token only. *)
Definition entry_v1 : ConfigEntry.t :=
  {| ConfigEntry.entry_id := "01J0";
     ConfigEntry.version := 1;
     ConfigEntry.state := ConfigEntry.NOT_LOADED;
     ConfigEntry.data := [(PyStr "access_token", PyStr "secret")] |}.

(** A stored version-2 entry, refreshing every 30 seconds. *)
Definition entry_v2 : ConfigEntry.t :=
  {| ConfigEntry.entry_id := "01J1";
     ConfigEntry.version := 2;
     ConfigEntry.state := ConfigEntry.LOADED;
     ConfigEntry.data := [(PyStr "access_token", PyStr "secret");
                          (PyStr "update_interval", PyInt 30)] |}.

Definition hass_storing (entries : list ConfigEntry.t) : HomeAssistant.t :=
  {| respond := cloud; reload := reloading; sent := [];
     config_entries := entries |}.

(** What the user submits: a token and an interval in seconds. *)
Definition user_input (interval : value) : value :=
  obj [("access_token", PyStr "secret"); ("update_interval", interval)].

(** The user step's form, as first shown. *)
Definition user_form : NatureRemoConfigFlow.FlowResult :=
  NatureRemoConfigFlow.async_show_form "user" NatureRemoConfigFlow.user_data_schema []
    NatureRemoConfigFlow.description_placeholders.

End Examples.

(* ================================================================== *)
(** ** Further vocabulary: the API client's bodies and requests *)
(* ================================================================== *)

Module ApiSpec.

Import HomeAssistant.
Import Init.
Import Spec.

(** The element has an [id] field that can be a dict key. *)
Definition has_id_key (x : value) : bool :=
  match id_key x with
  | Some _ => true
  | None => false
  end.

(** What indexing the element with ["id"] and using the result as a key
    raises, when it raises. *)
Definition id_error (x : value) : exn :=
  match getitem x (PyStr "id") with
  | Raise e => e
  | Ok _ => TypeError
  end.

(** A JSON object: its keys are strings. *)
Definition string_keyed (items : dict) : bool :=
  forallb (fun item => match fst item with PyStr _ => true | _ => false end)
          items.

(** A decoded body that is not an array: a scalar, a string or an object. *)
Definition not_array (body : value) : bool :=
  match body with
  | PyList _ => false
  | PyDict items => string_keyed items
  | _ => true
  end.

(** The empty string and the empty object. *)
Definition empty_body (body : value) : bool :=
  match body with
  | PyStr s => String.eqb s ""
  | PyDict items => match items with [] => true | _ => false end
  | _ => false
  end.

(** The requests one [get] adds to the log: the appliances request, and the
    devices request when the appliances block went through. *)
Definition requests_of_get (api : NatureRemoAPI.t) (h : HomeAssistant.t)
    : list request :=
  appliances_request api ::
  (if is_ok (fetched h (appliances_request api))
   then [devices_request api] else []).

(** Every element stored in the mapping is found under its own [id]. *)
Definition found_under_own_id (d : dict) : Prop :=
  forall kv x, List.In (kv, x) d ->
    exists i, getitem x (PyStr "id") = Ok i /\ getitem (PyDict d) i = Ok x.

End ApiSpec.

(* ================================================================== *)
(** ** Further vocabulary: the config flow's steps *)
(* ================================================================== *)

Module FlowSpec.

Import HomeAssistant.
Import Init.
Import NatureRemoConfigFlow.

(** The stored entries without those of the id [id]. *)
Definition without (id : string) (entries : list ConfigEntry.t)
    : list ConfigEntry.t :=
  filter (fun e => negb (String.eqb (ConfigEntry.entry_id e) id)) entries.

Definition removing (id : string) (h : HomeAssistant.t) : HomeAssistant.t :=
  with_config_entries h (without id (config_entries h)).

(** The API client a step validates a token with. *)
Definition client (token : value) : NatureRemoAPI.t :=
  {| NatureRemoAPI._access_token := token |}.

(** The user step's form with the given errors. *)
Definition user_form_with (errors : list (string * string)) : FlowResult :=
  async_show_form "user" user_data_schema errors description_placeholders.

(** The reconfigure step's form for [entry] with the given errors. *)
Definition reconfigure_form_with (entry : ConfigEntry.t)
    (errors : list (string * string)) : FlowResult :=
  async_show_form "reconfigure" (reconfigure_data_schema entry) errors
                  description_placeholders.

(** The data both steps build from the submitted input. *)
Definition entry_data (token interval : value) : dict :=
  [(PyStr "access_token", token); (PyStr "update_interval", interval)].

(** The user step once it has got past the stored entries: the form
    without input, else the token is read and checked by a fetch, the
    interval read, and the entry created; every exception on the way ends
    as the form's base error. *)
Definition user_submit (input : option value) : M HomeAssistant.t FlowResult :=
  fun h =>
    match input with
    | None => (Ok (user_form_with []), h)
    | Some user_input =>
        match getitem user_input (PyStr "access_token") with
        | Raise e => (Ok (user_form_with (base_error e)), h)
        | Ok token =>
            match NatureRemoAPI.get (client token) h with
            | (Raise e, h1) =>
                (Ok (user_form_with [("base", "invalid_auth")]), h1)
            | (Ok _, h1) =>
                match getitem user_input (PyStr "update_interval") with
                | Raise e => (Ok (user_form_with (base_error e)), h1)
                | Ok interval =>
                    (Ok (async_create_entry "Nature Remo"
                           (entry_data token interval)), h1)
                end
            end
        end
    end.

(** The stored entries, the data of those with the id of [entry]
    replaced. *)
Definition with_data (entry : ConfigEntry.t) (d : dict)
    (entries : list ConfigEntry.t) : list ConfigEntry.t :=
  map (fun e =>
         if String.eqb (ConfigEntry.entry_id e) (ConfigEntry.entry_id entry)
         then {| ConfigEntry.entry_id := ConfigEntry.entry_id e;
                 ConfigEntry.version := ConfigEntry.version e;
                 ConfigEntry.state := ConfigEntry.state e;
                 ConfigEntry.data := d |}
         else e)
      entries.

(** The reconfigure step for a stored entry that is not in an error state. *)
Definition reconfigure_submit (entry : ConfigEntry.t) (input : option value)
    : M HomeAssistant.t FlowResult :=
  fun h =>
    match input with
    | None => (Ok (reconfigure_form_with entry []), h)
    | Some user_input =>
        match getitem user_input (PyStr "access_token") with
        | Raise e => (Ok (reconfigure_form_with entry (base_error e)), h)
        | Ok token =>
            match NatureRemoAPI.get (client token) h with
            | (Raise e, h1) =>
                (Ok (reconfigure_form_with entry [("base", "invalid_auth")]), h1)
            | (Ok _, h1) =>
                match getitem user_input (PyStr "update_interval") with
                | Raise e =>
                    (Ok (reconfigure_form_with entry (base_error e)), h1)
                | Ok interval =>
                    match async_reload (ConfigEntry.entry_id entry)
                            (with_config_entries h1
                               (with_data entry (entry_data token interval)
                                          (config_entries h1))) with
                    | (Ok _, h2) =>
                        (Ok (async_abort "reconfigure_successful"), h2)
                    | (Raise e, h2) =>
                        (Ok (reconfigure_form_with entry (base_error e)), h2)
                    end
                end
            end
        end
    end.

(** The entry the reconfigure step's [async_get_entry] finds. *)
Definition entry_with_id (id : string) (h : HomeAssistant.t)
    : option ConfigEntry.t :=
  find (fun e => String.eqb (ConfigEntry.entry_id e) id) (config_entries h).

(** An item the user form accepts: the access token with a string, or the
    refresh interval with a value of the allow-list; no other key. *)
Definition allowed_item (item : value * value) : bool :=
  if eq_str (fst item) "access_token" then
    match snd item with
    | PyStr _ => true
    | _ => false
    end
  else if eq_str (fst item) "update_interval" then
    in_ints (snd item) UPDATE_INTERVAL_OPTIONS
  else false.




End FlowSpec.

(* ================================================================== *)
(** ** Further concrete stores and inputs *)
(* ================================================================== *)

Module FlowExamples.

Import HomeAssistant.
Import Examples.

(** A stored entry whose setup failed. *)
Definition entry_failed : ConfigEntry.t :=
  {| ConfigEntry.entry_id := "01J2";
     ConfigEntry.version := 2;
     ConfigEntry.state := ConfigEntry.SETUP_ERROR;
     ConfigEntry.data := [(PyStr "access_token", PyStr "expired");
                          (PyStr "update_interval", PyInt 60)] |}.

(** A stored entry whose unload failed: the host does not unload it
    again. *)
Definition entry_stuck : ConfigEntry.t :=
  {| ConfigEntry.entry_id := "01J3";
     ConfigEntry.version := 2;
     ConfigEntry.state := ConfigEntry.FAILED_UNLOAD;
     ConfigEntry.data := [(PyStr "access_token", PyStr "secret");
                          (PyStr "update_interval", PyInt 60)] |}.

(** The YAML section of the integration, an interval written into it. *)
Definition yaml : value :=
  obj [("access_token", PyStr "secret"); ("update_interval", PyInt 10)].

(** A YAML section with an empty token. *)
Definition yaml_empty_token : value := obj [("access_token", PyStr "")].

(** The reconfigure form shown for [entry_v2]. *)
Definition reconfigure_form : NatureRemoConfigFlow.FlowResult :=
  FlowSpec.reconfigure_form_with entry_v2 [].

End FlowExamples.

(* ================================================================== *)
(** ** Further vocabulary: entities and the snapshot *)
(* ================================================================== *)

Module EntitySpec.

Import Init.
Import Sensor.
Import Spec.

(** The id an entity looks its appliance or device up with. *)
Definition bound_id (x : entity) : result value :=
  match x with
  | E e => Ok (NatureRemoBase._appliance_id e)
  | Temperature e | Humidity e | Illuminance e =>
      getitem (NatureRemoDeviceBase._device e) (PyStr "id")
  end.

(** The mapping of the snapshot an entity looks into. *)
Definition mapping_of (x : entity) (appliances devices : dict) : dict :=
  match x with
  | E _ => appliances
  | Temperature _ | Humidity _ | Illuminance _ => devices
  end.

(** The device sensor of a kind, and the key of that kind. *)
Definition kind_key (x : entity) : option string :=
  match x with
  | E _ => None
  | Temperature _ => Some "te"
  | Humidity _ => Some "hu"
  | Illuminance _ => Some "il"
  end.

Definition device_dict (x : entity) : value :=
  match x with
  | E e => NatureRemoBase._device e
  | Temperature e | Humidity e | Illuminance e =>
      NatureRemoDeviceBase._device e
  end.

(** The [unique_id] of a device sensor. *)
Definition sensor_unique_id (x : entity) : result value :=
  match x with
  | E e => Ok (NatureRemoBase.unique_id e)
  | Temperature e => NatureRemoTemperatureSensor.unique_id e
  | Humidity e => NatureRemoHumiditySensor.unique_id e
  | Illuminance e => NatureRemoIlluminanceSensor.unique_id e
  end.

(** An appliance or device the setup cannot go through: an appliance
    without a [type], a device without a [name] or its [newest_events]. *)
Definition broken_appliance (appliance : value) : bool :=
  negb (has_field appliance "type").

Definition broken_device (device : value) : bool :=
  negb (has_field device "name" && has_field device "newest_events").

(** An entity of the kind of a listed key, bound to the device [d]. *)
Definition made_of (d : value) (ks : list value) (x : entity) : Prop :=
  exists kd, kind_key x = Some kd /\ List.In (PyStr kd) ks /\ device_dict x = d.

End EntitySpec.

Module EntityExamples.

Import Examples.

(** The example home after the meter was taken out of the account. *)
Definition home_without_meter : value :=
  PyDict [(PyStr "appliances", PyDict [(PyStr "a2", aircon)]);
          (PyStr "devices", PyDict [(PyStr "d1", remo)])].

(** The example home, its first appliance coming without a type. *)
Definition home_with_untyped : value :=
  home_with (obj [("id", PyStr "a1"); ("nickname", PyStr "Fan")]).

End EntityExamples.

(* ================================================================== *)
(** ** custom_components/nature_remo/__init__.py: [async_setup] *)
(* ================================================================== *)

Module InitSetup.

(** The notification state file [.nature_remo_notification_state.json], as
    reading it goes: it does not exist, or opening, reading or decoding it
    raises, or it decodes to a JSON value. *)
Inductive file_state : Type :=
| Missing
| Unreadable (e : exn)
| Holds (content : value).

(** How writing the file goes: it is written, or opening it for writing
    raises (the file stays), or the write raises after the file was
    truncated. *)
Inductive write_outcome : Type :=
| Written
| OpenFails (e : exn)
| WriteFails (e : exn).

(** What [async_setup] asks of the host. *)
Inductive action : Type :=
| CreateNotification (notification_id : string)
| ListenToAllEvents
| KeepRemoveListener
| StartAutoAcknowledge
| StartImportFlow (data : value).

(** The file, how the next write will go, whether the
    [persistent_notification.create] service call raises, and the host
    actions so far. *)
Record world : Type := {
  file : file_state;
  on_write : write_outcome;
  service_error : option exn;
  done : list action
}.

Definition with_file (w : world) (f : file_state) : world :=
  {| file := f; on_write := on_write w;
     service_error := service_error w; done := done w |}.

Definition doing (a : action) : M world unit :=
  fun w => (Ok tt,
            {| file := file w; on_write := on_write w;
               service_error := service_error w; done := done w ++ [a] |}).

(** An event of the bus: its type, and [str(event.data)] as Python renders
    it. *)
Record event : Type := {
  event_type : string;
  data_str : string
}.

(** [s.lower()], for ASCII letters. *)
Definition lower_ascii (c : ascii) : ascii :=
  let n := nat_of_ascii c in
  if ((65 <=? n) && (n <=? 90))%nat then ascii_of_nat (n + 32) else c.

Fixpoint lower (s : string) : string :=
  match s with
  | EmptyString => EmptyString
  | String c rest => String (lower_ascii c) (lower rest)
  end.

(** [needle in hay], for strings. *)
Fixpoint contains (needle hay : string) : bool :=
  String.prefix needle hay ||
  match hay with
  | EmptyString => false
  | String _ rest => contains needle rest
  end.

(** [f"{DOMAIN}_config_imported"]. *)
Definition notification_id : string := "nature_remo_config_imported".

(** What [json.dumps({"acknowledged": True})] decodes to when read back. *)
Definition acknowledged : value := PyDict [(PyStr "acknowledged", PyBool true)].

(** [async with aiofiles.open(storage_file, 'w') as f:
       await f.write(json.dumps({"acknowledged": True}))]. *)
Definition write_acknowledged : M world unit :=
  fun w =>
    match on_write w with
    | Written => (Ok tt, with_file w (Holds acknowledged))
    | OpenFails e => (Raise e, w)
    | WriteFails e => (Raise e, with_file w (Unreadable (OtherError "JSONDecodeError")))
    end.

(** [data = json.loads(await f.read())] under [os.path.exists]; [None] when
    the file does not exist. *)
Definition read_file : M world (option value) :=
  fun w =>
    match file w with
    | Missing => (Ok None, w)
    | Unreadable e => (Raise e, w)
    | Holds content => (Ok (Some content), w)
    end.

(** The closure [log_all_events(event)]. *)
Definition log_all_events (ev : event) : M world unit :=
  if contains "notification" (lower (event_type ev)) then
    let event_data_str := data_str ev in
    if contains notification_id event_data_str then
      try_except write_acknowledged (fun ex => ret tt)
    else ret tt
  else ret tt.

(** The closure [auto_acknowledge()], from the end of its
    [asyncio.sleep(300)] on. *)
Definition auto_acknowledge : M world unit :=
  try_except
    (found <- read_file ;;
     already <-
       match found with
       | Some data =>
           flag <- lift (Py.get data (PyStr "acknowledged") (PyBool false)) ;;
           ret (truthy flag)
       | None => ret false
       end ;;
     if already then ret tt
     else write_acknowledged)
    (fun ex => ret tt).

(** [async_setup(hass, config)]. *)
Definition async_setup (config : dict) : M world bool :=
  notification_shown <-
    try_except
      (found <- read_file ;;
       match found with
       | Some data =>
           lift (Py.get data (PyStr "acknowledged") (PyBool false))
       | None => ret (PyBool false)
       end)
      (fun ex => ret (PyBool false)) ;;
  match dict_find (KStr DOMAIN) config with
  | Some section =>
      (if negb (truthy notification_shown) then
         (fun w =>
            match service_error w with
            | Some e => (Raise e, w)
            | None => doing (CreateNotification notification_id) w
            end) ;;;
         doing ListenToAllEvents ;;;
         doing KeepRemoveListener ;;;
         doing StartAutoAcknowledge
       else ret tt) ;;;
      doing (StartImportFlow section) ;;;
      ret true
  | None => ret true
  end.

(** The notification is among the actions. *)
Definition notifies (actions : list action) : bool :=
  existsb (fun a => match a with CreateNotification _ => true | _ => false end)
          actions.

(** A state file [auto_acknowledge] and [async_setup] cannot read the flag
    from: unreadable, or holding something that is not a JSON object. *)
Definition corrupt (f : file_state) : bool :=
  match f with
  | Missing => false
  | Unreadable _ => true
  | Holds (PyDict _) => false
  | Holds _ => true
  end.

(** The file holds a truthy [acknowledged] flag. *)
Definition acknowledged_in (f : file_state) : bool :=
  match f with
  | Holds data =>
      match Py.get data (PyStr "acknowledged") (PyBool false) with
      | Ok flag => truthy flag
      | Raise _ => false
      end
  | _ => false
  end.

(** The import of the YAML section [async_setup] starts, if any. *)
Definition import_of (config : dict) : list action :=
  match dict_find (KStr "nature_remo") config with
  | Some section => [StartImportFlow section]
  | None => []
  end.

(** A world in which nothing was asked of the host yet. *)
Definition fresh (f : file_state) (o : write_outcome) : world :=
  {| file := f; on_write := o; service_error := None; done := [] |}.

End InitSetup.

Module NoticeExamples.

Import InitSetup.

(** A [configuration.yaml] with a section of the integration. *)
Definition configured : dict := [(PyStr "nature_remo", FlowExamples.yaml)].

(** The event the host fires when the notification is dismissed. *)
Definition dismissed : event :=
  {| event_type := "Persistent_Notifications_Updated";
     data_str := "{'type': 'removed', 'notifications': {'nature_remo_config_imported': {}}}" |}.

(** The state of a host that showed the notification once: no state file
    yet, and the four actions of the first setup done. *)
Definition shown_once : world :=
  {| file := Missing; on_write := Written; service_error := None;
     done := [CreateNotification notification_id; ListenToAllEvents;
              KeepRemoveListener; StartAutoAcknowledge;
              StartImportFlow FlowExamples.yaml] |}.


(** A state file with the flag still false, on a disk that takes writes. *)
Definition not_yet : world :=
  fresh (Holds (PyDict [(PyStr "acknowledged", PyBool false)])) Written.

End NoticeExamples.

(* ================================================================== *)
(** * Properties *)
(* ================================================================== *)

(** ** Dict keys and dict updates *)

Section DictFacts.

Lemma key_eqb_eq (a b : key) : key_eqb a b = true <-> a = b.
Proof.
  destruct a, b; simpl; split; intro H; try discriminate; try reflexivity.
  - apply andb_true_iff in H as [Hn Hd].
    apply Z.eqb_eq in Hn. apply Pos.eqb_eq in Hd. now subst.
  - injection H as -> ->. now rewrite Z.eqb_refl, Pos.eqb_refl.
  - apply Bool.eqb_prop in H. now subst.
  - injection H as ->. apply Bool.eqb_reflx.
  - apply String.eqb_eq in H. now subst.
  - injection H as ->. apply String.eqb_refl.
Qed.

Lemma key_eqb_refl (a : key) : key_eqb a a = true.
Proof. now apply key_eqb_eq. Qed.

Lemma key_eqb_neq (a b : key) : key_eqb a b = false <-> a <> b.
Proof.
  split.
  - intros H ->. rewrite key_eqb_refl in H. discriminate.
  - intro H. destruct (key_eqb a b) eqn:E; [|reflexivity].
    apply key_eqb_eq in E. contradiction.
Qed.

Lemma has_key_true (k : key) (item : value * value) :
  has_key k item = true <-> hash_key (fst item) = Some k.
Proof.
  unfold has_key. destruct (hash_key (fst item)) as [k'|].
  - rewrite key_eqb_eq. split; congruence.
  - split; discriminate.
Qed.

(** Reading back the key just written. *)
Lemma dict_find_set_same (k : key) (kv v : value) (d : dict) :
  hash_key kv = Some k ->
  dict_find k (dict_set k kv v d) = Some v.
Proof.
  intro Hk. unfold dict_find. induction d as [|item rest IH]; simpl.
  - assert (H : has_key k (kv, v) = true) by now apply has_key_true.
    now rewrite H.
  - destruct (has_key k item) eqn:E; simpl.
    + assert (H : has_key k (fst item, v) = true).
      { apply has_key_true. simpl. now apply has_key_true. }
      now rewrite H.
    + rewrite E. exact IH.
Qed.

(** Every other key reads as before. *)
Lemma dict_find_set_other (k k' : key) (kv v : value) (d : dict) :
  hash_key kv = Some k ->
  k' <> k ->
  dict_find k' (dict_set k kv v d) = dict_find k' d.
Proof.
  intros Hk Hne. unfold dict_find. induction d as [|item rest IH]; simpl.
  - assert (H : has_key k' (kv, v) = false).
    { unfold has_key. simpl. rewrite Hk. now apply key_eqb_neq. }
    now rewrite H.
  - destruct (has_key k item) eqn:E; simpl.
    + apply has_key_true in E.
      assert (H : has_key k' item = false).
      { unfold has_key. rewrite E. now apply key_eqb_neq. }
      assert (H' : has_key k' (fst item, v) = false).
      { unfold has_key. simpl. rewrite E. now apply key_eqb_neq. }
      now rewrite H, H'.
    + destruct (has_key k' item); [reflexivity | exact IH].
Qed.

(** Setting a key that is absent appends the item. *)
Lemma dict_set_absent (k : key) (kv v : value) (d : dict) :
  dict_find k d = None ->
  dict_set k kv v d = d ++ [(kv, v)].
Proof.
  unfold dict_find. induction d as [|item rest IH]; simpl; intro H.
  - reflexivity.
  - destruct (has_key k item) eqn:E; [discriminate|].
    now rewrite IH.
Qed.

Lemma dict_keys_set (k : key) (kv v : value) (d : dict) :
  hash_key kv = Some k ->
  dict_keys (dict_set k kv v d) =
    if existsb (has_key k) d then dict_keys d else dict_keys d ++ [Some k].
Proof.
  intro Hk. induction d as [|item rest IH]; simpl.
  - now rewrite Hk.
  - destruct (has_key k item) eqn:E; simpl; [reflexivity|].
    rewrite IH. now destruct (existsb (has_key k) rest).
Qed.

(** [231.0 == 231] and [21.5 != 231]; [True], [1] and [1.0] are one key. *)
Example eq_int_float :
  eq_int (PyFloat Examples.float_231) 231 = true /\
  eq_int (PyFloat Examples.float_21_5) 231 = false /\
  eq_int (PyStr "231") 231 = false /\
  eq_int (PyBool true) 231 = false.
Proof. repeat split. Qed.

Example one_is_one_key :
  setitem [(PyInt 1, PyStr "a")] (PyBool true) (PyStr "b") =
    Ok [(PyInt 1, PyStr "b")] /\
  getitem (PyDict [(PyInt 1, PyStr "a")])
          (PyFloat (S754_finite false 4503599627370496 (-52))) =
    Ok (PyStr "a").
Proof. repeat split. Qed.

End DictFacts.

(** ** The API client's fetch *)

Section ApiFacts.

Import HomeAssistant Init Spec.

Lemma find_app {A} (f : A -> bool) (xs ys : list A) :
  find f (xs ++ ys) = match find f xs with Some x => Some x | None => find f ys end.
Proof.
  induction xs as [|x xs IH]; simpl; [reflexivity|].
  now destruct (f x).
Qed.

Lemma last_with_id_cons (k : key) (x : value) (xs : list value) :
  last_with_id k (x :: xs) =
    match last_with_id k xs with
    | Some y => Some y
    | None => if has_id k x then Some x else None
    end.
Proof. unfold last_with_id. simpl. now rewrite find_app. Qed.

Lemma existsb_has_key_keys (k : key) (d : dict) :
  existsb (has_key k) d = true <-> List.In (Some k) (dict_keys d).
Proof.
  induction d as [|item rest IH]; simpl.
  - split; [discriminate | tauto].
  - rewrite orb_true_iff, IH, has_key_true. tauto.
Qed.

(** Keys stay hashable and distinct under [dict_set]. *)
Lemma distinct_keys_set (k : key) (kv v : value) (d : dict) :
  hash_key kv = Some k ->
  distinct_keys d ->
  distinct_keys (dict_set k kv v d).
Proof.
  intros Hk [Hnd Hall]. unfold distinct_keys.
  rewrite (dict_keys_set k kv v d Hk).
  destruct (existsb (has_key k) d) eqn:E; [now split|].
  split.
  - apply NoDup_app; [assumption | repeat constructor; simpl; tauto |].
    intros o Ho [<-|[]].
    apply existsb_has_key_keys in Ho. congruence.
  - apply Forall_app. split; [assumption|].
    repeat constructor. discriminate.
Qed.

(** With distinct keys, an item is what its key finds. *)
Lemma dict_find_item (k : key) (kv v : value) (d : dict) :
  NoDup (dict_keys d) ->
  List.In (kv, v) d ->
  hash_key kv = Some k ->
  dict_find k d = Some v.
Proof.
  unfold dict_find. induction d as [|item rest IH]; simpl; intros Hnd Hin Hk.
  - contradiction.
  - inversion Hnd as [|o os Hnot Hnd']; subst.
    destruct Hin as [->|Hin].
    + assert (H : has_key k (kv, v) = true) by now apply has_key_true.
      now rewrite H.
    + destruct (has_key k item) eqn:E.
      * exfalso. apply Hnot. apply has_key_true in E. rewrite E, <- Hk.
        change (hash_key kv) with ((fun it => hash_key (fst it)) (kv, v)).
        now apply in_map.
      * now apply IH.
Qed.

Lemma dict_find_in (k : key) (v : value) (d : dict) :
  dict_find k d = Some v ->
  exists kv, List.In (kv, v) d /\ hash_key kv = Some k.
Proof.
  unfold dict_find. intro H.
  destruct (find (has_key k) d) as [[kv v']|] eqn:E; [|discriminate].
  injection H as ->. apply find_some in E as [Hin Hk].
  exists kv. split; [assumption | now apply has_key_true in Hk].
Qed.

(** The comprehension, started from the dict [acc]: a key reads as the last
    element with that id, or as it read in [acc] when there is none. *)
Lemma by_id_lookup (xs : list value) : forall (acc d : dict),
  NatureRemoAPI.by_id xs acc = Ok d ->
  forall k, dict_find k d =
    match last_with_id k xs with
    | Some x => Some x
    | None => dict_find k acc
    end.
Proof.
  induction xs as [|x rest IH]; simpl; intros acc d H k.
  - injection H as ->. reflexivity.
  - rewrite last_with_id_cons.
    unfold has_id, id_key.
    destruct (getitem x (PyStr "id")) as [i|e]; [|discriminate].
    unfold setitem in H.
    destruct (hash_key i) as [k0|] eqn:Hi; [|discriminate].
    rewrite (IH _ _ H k).
    destruct (last_with_id k rest); [reflexivity|].
    destruct (key_eqb k0 k) eqn:E.
    + apply key_eqb_eq in E. subst k0. now apply dict_find_set_same.
    + apply key_eqb_neq in E. apply dict_find_set_other; congruence.
Qed.

Lemma by_id_distinct (xs : list value) : forall (acc d : dict),
  NatureRemoAPI.by_id xs acc = Ok d ->
  distinct_keys acc ->
  distinct_keys d.
Proof.
  induction xs as [|x rest IH]; simpl; intros acc d H Hacc.
  - now injection H as <-.
  - destruct (getitem x (PyStr "id")) as [i|e]; [|discriminate].
    unfold setitem in H.
    destruct (hash_key i) as [k0|] eqn:Hi; [|discriminate].
    apply (IH _ _ H). now apply distinct_keys_set.
Qed.

(** The comprehension keys the array by id, last occurrence winning. *)
Lemma dict_by_id_keyed (xs : list value) (d : dict) :
  NatureRemoAPI.dict_by_id (PyList xs) = Ok d ->
  keyed_by_id d xs.
Proof.
  unfold NatureRemoAPI.dict_by_id. simpl. intro H.
  assert (Hlook : forall k, dict_find k d = last_with_id k xs).
  { intro k. rewrite (by_id_lookup xs _ _ H k).
    now destruct (last_with_id k xs). }
  assert (Hd : distinct_keys d).
  { apply (by_id_distinct xs _ _ H). split; constructor. }
  destruct Hd as [Hnd Hall].
  repeat split; [exact Hlook | | exact Hnd].
  intros kv v Hin.
  assert (Hsome : hash_key kv <> None).
  { rewrite Forall_forall in Hall. apply Hall.
    change (hash_key kv) with ((fun it => hash_key (fst it)) (kv, v)).
    now apply in_map. }
  destruct (hash_key kv) as [k|] eqn:Hk; [|contradiction].
  exists k. split; [reflexivity|].
  rewrite <- Hlook. now apply dict_find_item with (kv := kv).
Qed.

(** [get] is the appliances block followed by the devices block; the
    first block that raises ends it, after its request was sent. *)
Lemma get_eq (api : NatureRemoAPI.t) (h : HomeAssistant.t) :
  NatureRemoAPI.get api h =
    let h1 := after_request h (appliances_request api) in
    match fetched h (appliances_request api) with
    | Raise e => (Raise e, h1)
    | Ok appliances =>
        let h2 := after_request h1 (devices_request api) in
        match fetched h1 (devices_request api) with
        | Raise e => (Raise e, h2)
        | Ok devices => (Ok (snapshot appliances devices), h2)
        end
    end.
Proof.
  unfold NatureRemoAPI.get, fetched, bind, try_except, session_get,
    raise_for_status, response_json, lift, raise, ret, after_request,
    appliances_request, devices_request.
  simpl.
  destruct (respond h (sent h) _) as [r1|e1]; [|reflexivity].
  destruct (bad_status (status r1)); [reflexivity|].
  destruct (json r1) as [a|e]; [|reflexivity].
  destruct (NatureRemoAPI.dict_by_id a) as [A|e]; [|reflexivity].
  simpl.
  destruct (respond h _ _) as [r2|e2]; [|reflexivity].
  simpl.
  destruct (bad_status (status r2)); [reflexivity|].
  destruct (json r2) as [b|e]; [|reflexivity].
  destruct (NatureRemoAPI.dict_by_id b) as [D|e]; reflexivity.
Qed.

End ApiFacts.

Section FetchClaims.

Import HomeAssistant Init Spec.

(** The update method re-raises whatever the fetch raised and returns
    whatever it returned. *)
Lemma async_update_data_eq (api : NatureRemoAPI.t) (h : HomeAssistant.t) :
  async_update_data api h = NatureRemoAPI.get api h.
Proof.
  unfold async_update_data, try_except, bind, ret, raise.
  destruct (NatureRemoAPI.get api h) as [[v|e] h']; reflexivity.
Qed.

(** C4: when the two endpoints return the JSON arrays [apps] and [devs], a
    successful fetch returns the dict with the two keys "appliances" and
    "devices", each mapping holding exactly the elements of its array keyed
    by their id, the last occurrence of an id winning. *)
Theorem get_keys_each_array_by_id
    (api : NatureRemoAPI.t) (h h' : HomeAssistant.t)
    (r1 r2 : response) (apps devs : list value) (snap : value) :
  respond h (sent h) (appliances_request api) = Ok r1 ->
  json r1 = Ok (PyList apps) ->
  respond h (sent h ++ [appliances_request api]) (devices_request api) = Ok r2 ->
  json r2 = Ok (PyList devs) ->
  NatureRemoAPI.get api h = (Ok snap, h') ->
  exists appliances devices,
    snap = PyDict [(PyStr "appliances", PyDict appliances);
                   (PyStr "devices", PyDict devices)] /\
    keyed_by_id appliances apps /\
    keyed_by_id devices devs.
Proof.
  intros H1 J1 H2 J2 Hget.
  rewrite get_eq in Hget. unfold fetched in Hget. simpl in Hget.
  rewrite H1, J1, H2, J2 in Hget.
  destruct (bad_status (status r1)); [discriminate|].
  destruct (NatureRemoAPI.dict_by_id (PyList apps)) as [A|e] eqn:EA;
    [|discriminate].
  destruct (bad_status (status r2)); [discriminate|].
  destruct (NatureRemoAPI.dict_by_id (PyList devs)) as [D|e] eqn:ED;
    [|discriminate].
  injection Hget as <- _.
  exists A, D. split; [reflexivity|].
  split; now apply dict_by_id_keyed.
Qed.

(** C3, as amended: when either GET fails, the transport raising or the
    status being 400 or above (the statuses [raise_for_status] rejects),
    [get] raises: it returns no value at all, neither half alone, and a
    coordinator refreshing through it keeps the snapshot it had. *)
Theorem get_fails_as_a_whole
    (api : NatureRemoAPI.t) (h : HomeAssistant.t) :
  request_fails h (appliances_request api) = true \/
  request_fails (after_request h (appliances_request api))
                (devices_request api) = true ->
  (exists e, fst (NatureRemoAPI.get api h) = Raise e) /\
  (forall v, fst (NatureRemoAPI.get api h) <> Ok v) /\
  (forall c now,
     DataUpdateCoordinator.update_method c = async_update_data api ->
     DataUpdateCoordinator.data
       (fst (snd (DataUpdateCoordinator.async_refresh now (c, h)))) =
     DataUpdateCoordinator.data c).
Proof.
  intro Hfail.
  assert (He : exists e, fst (NatureRemoAPI.get api h) = Raise e).
  { rewrite get_eq. unfold request_fails in Hfail. unfold fetched. simpl.
    destruct Hfail as [H1|H2].
    - destruct (respond h (sent h) (appliances_request api)) as [r1|e1];
        [|now exists e1].
      simpl in H1. rewrite H1. now eexists.
    - destruct (respond h (sent h) (appliances_request api)) as [r1|e1];
        [|now exists e1].
      destruct (bad_status (status r1)); [now eexists|].
      destruct (json r1) as [a|e]; [|now exists e].
      destruct (NatureRemoAPI.dict_by_id a) as [A|e]; [|now exists e].
      simpl in H2.
      destruct (respond h (sent h ++ [appliances_request api])
                        (devices_request api)) as [r2|e2]; [|now exists e2].
      simpl in H2. rewrite H2. now eexists. }
  destruct He as [e He].
  split; [now exists e|].
  split; [intros v Hv; congruence|].
  intros c now Hc. unfold DataUpdateCoordinator.async_refresh.
  rewrite Hc, async_update_data_eq.
  destruct (NatureRemoAPI.get api h) as [[v|e'] h']; [discriminate|].
  reflexivity.
Qed.

End FetchClaims.

Section FetchExamples.

Import HomeAssistant Init Spec Examples.

(** The fetch against the example cloud: the meter listed twice is stored
    once, under its first place and with its last reading. *)
Example get_cloud :
  fst (NatureRemoAPI.get api (hass_with cloud)) =
    Ok (PyDict [(PyStr "appliances",
                 PyDict [(PyStr "a1", meter 450); (PyStr "a2", aircon)]);
                (PyStr "devices", PyDict [(PyStr "d1", remo)])]).
Proof. reflexivity. Qed.

Example get_cloud_requests :
  sent (snd (NatureRemoAPI.get api (hass_with cloud))) =
    [appliances_request api; devices_request api].
Proof. reflexivity. Qed.

Lemma get_keys_each_array_by_id_witness :
  exists appliances devices,
    PyDict [(PyStr "appliances",
             PyDict [(PyStr "a1", meter 450); (PyStr "a2", aircon)]);
            (PyStr "devices", PyDict [(PyStr "d1", remo)])] =
    PyDict [(PyStr "appliances", PyDict appliances);
            (PyStr "devices", PyDict devices)] /\
    keyed_by_id appliances [meter 300; aircon; meter 450] /\
    keyed_by_id devices [remo].
Proof.
  eapply (get_keys_each_array_by_id api (hass_with cloud)); reflexivity.
Defined.

(** With the devices endpoint answering 500 the appliances that were
    fetched are dropped with it. *)
Example get_devices_down :
  fst (NatureRemoAPI.get api (hass_with cloud_devices_down)) =
    Raise (ClientResponseError 500).
Proof. reflexivity. Qed.

Lemma get_fails_as_a_whole_witness :
  (exists e, fst (NatureRemoAPI.get api (hass_with cloud_devices_down)) = Raise e) /\
  (forall v, fst (NatureRemoAPI.get api (hass_with cloud_devices_down)) <> Ok v) /\
  (forall c now,
     DataUpdateCoordinator.update_method c = async_update_data api ->
     DataUpdateCoordinator.data
       (fst (snd (DataUpdateCoordinator.async_refresh now
                    (c, hass_with cloud_devices_down)))) =
     DataUpdateCoordinator.data c).
Proof.
  apply (get_fails_as_a_whole api (hass_with cloud_devices_down)).
  right. vm_compute. reflexivity.
Defined.

(** C3, as stated, fails: 300 is a non-2xx status, but [raise_for_status]
    lets it pass, so the fetch against a cloud whose appliances endpoint
    answers 300 with the array in the body returns a snapshot, the appliances
    of that answer in it. *)
Lemma get_returns_on_a_3xx_status :
  respond (hass_with cloud_multiple_choices) [] (appliances_request api) =
    Ok {| status := 300; json := Ok (PyList [meter 450]) |} /\
  non_2xx 300 = true /\
  request_fails (hass_with cloud_multiple_choices) (appliances_request api) =
    false /\
  fst (NatureRemoAPI.get api (hass_with cloud_multiple_choices)) =
    Ok (snapshot [(PyStr "a1", meter 450)] [(PyStr "d1", remo)]).
Proof. split; [|split; [|split]]; reflexivity. Qed.

End FetchExamples.

(** ** The derived entities *)

Section EntityClaims.

Import Init Sensor Spec.

(** The energy entity's [state], in the vocabulary above. *)
Lemma NatureRemoE_state_eq (c : DataUpdateCoordinator.t) (self : NatureRemoE.t) :
  NatureRemoE.state c self =
    match appliance_of c self with
    | Raise e => Raise e
    | Ok appliance =>
        match properties_of appliance with
        | Raise e => Raise e
        | Ok properties =>
            match iter properties with
            | Raise e => Raise e
            | Ok props => NatureRemoE.next_measured props
            end
        end
    end.
Proof.
  unfold NatureRemoE.state, appliance_of, properties_of.
  destruct (getitem (DataUpdateCoordinator.data c) (PyStr "appliances"));
    [|reflexivity].
  destruct (getitem a (NatureRemoBase._appliance_id self)); [|reflexivity].
  destruct (getitem a0 (PyStr "smart_meter")); reflexivity.
Qed.

(** A device sensor's [state], in the vocabulary above. *)
Lemma newest_event_val_eq (kind : string) (c : DataUpdateCoordinator.t)
    (self : NatureRemoDeviceBase.t) :
  newest_event_val kind c self =
    match device_of c self with
    | Raise e => Raise e
    | Ok device =>
        match getitem device (PyStr "newest_events") with
        | Raise e => Raise e
        | Ok newest_events =>
            match getitem newest_events (PyStr kind) with
            | Raise e => Raise e
            | Ok event => getitem event (PyStr "val")
            end
        end
    end.
Proof.
  unfold newest_event_val, device_of.
  destruct (getitem (DataUpdateCoordinator.data c) (PyStr "devices"));
    [|reflexivity].
  destruct (getitem (NatureRemoDeviceBase._device self) (PyStr "id"));
    reflexivity.
Qed.

(** The generator stops at the first entry with code 231 and yields its
    [val], provided the entries before it carry a code at all. *)
Lemma next_measured_first (props : list value) (entry : value) :
  Forall (fun p => has_field p "epc" = true) props ->
  find (has_epc 231) props = Some entry ->
  NatureRemoE.next_measured props = getitem entry (PyStr "val").
Proof.
  induction props as [|p rest IH]; simpl; intros Hwf Hfind; [discriminate|].
  inversion Hwf as [|p' rest' Hp Hrest]; subst.
  unfold has_epc in Hfind. unfold has_field in Hp.
  destruct (getitem p (PyStr "epc")) as [epc|e]; [|discriminate].
  destruct (eq_int epc 231).
  - now injection Hfind as ->.
  - now apply IH.
Qed.

(** Without an entry of code 231 the generator is exhausted, or an entry
    without a code stops it earlier: [next] raises either way. *)
Lemma next_measured_none (props : list value) :
  existsb (has_epc 231) props = false ->
  (exists e, NatureRemoE.next_measured props = Raise e) /\
  (Forall (fun p => has_field p "epc" = true) props ->
   NatureRemoE.next_measured props = Raise StopIteration).
Proof.
  induction props as [|p rest IH]; simpl; intro H.
  - split; [now exists StopIteration | reflexivity].
  - apply orb_false_iff in H as [Hp Hrest].
    specialize (IH Hrest) as [IH1 IH2].
    unfold has_epc in Hp.
    destruct (getitem p (PyStr "epc")) as [epc|e] eqn:E.
    + rewrite Hp. split; [exact IH1|].
      intro Hwf. inversion Hwf; subst. now apply IH2.
    + split; [now exists e|].
      intro Hwf. inversion Hwf as [|p' rest' Hp' Hrest']; subst.
      unfold has_field in Hp'. rewrite E in Hp'. discriminate.
Qed.

(** C5: when the snapshot holds the energy entity's appliance with a
    smart-meter property list that contains an entry of code 231, the
    entity's [state] is the [val] of that entry (the first such entry of the
    list). *)
Theorem energy_state_is_val_of_231
    (c : DataUpdateCoordinator.t) (self : NatureRemoE.t)
    (appliance : value) (props : list value) (entry v : value) :
  appliance_of c self = Ok appliance ->
  properties_of appliance = Ok (PyList props) ->
  Forall (fun p => has_field p "epc" = true) props ->
  find (has_epc 231) props = Some entry ->
  getitem entry (PyStr "val") = Ok v ->
  NatureRemoE.state c self = Ok v.
Proof.
  intros Ha Hp Hwf Hfind Hval.
  rewrite NatureRemoE_state_eq, Ha, Hp. simpl.
  now rewrite (next_measured_first props entry Hwf Hfind).
Qed.

(** C6: when the snapshot holds the entity's device and the device's
    [newest_events] has the entity's kind key, the entity's [state] is
    [newest_events[kind]["val"]], for the temperature ("te"), humidity
    ("hu") and illuminance ("il") entities alike. *)
Theorem sensor_state_is_newest_event_val
    (c : DataUpdateCoordinator.t) (self : NatureRemoDeviceBase.t)
    (kind : string) (device newest_events event v : value) :
  device_of c self = Ok device ->
  getitem device (PyStr "newest_events") = Ok newest_events ->
  getitem newest_events (PyStr kind) = Ok event ->
  getitem event (PyStr "val") = Ok v ->
  (kind = "te" -> Sensor.state c (Temperature self) = Ok v) /\
  (kind = "hu" -> Sensor.state c (Humidity self) = Ok v) /\
  (kind = "il" -> Sensor.state c (Illuminance self) = Ok v).
Proof.
  intros Hd Hn He Hv.
  repeat split; intros ->; simpl;
    unfold NatureRemoTemperatureSensor.state, NatureRemoHumiditySensor.state,
      NatureRemoIlluminanceSensor.state;
    now rewrite newest_event_val_eq, Hd, Hn, He.
Qed.

(** C2, as the code has it: reading the [state] of an entity whose expected
    field is absent raises.  An appliance dict without a "smart_meter" key
    raises [KeyError]; a property list without an entry of code 231 raises
    ([StopIteration] when every entry carries a code); a [newest_events]
    dict without the entity's kind key raises [KeyError]. *)
Theorem state_raises_when_field_absent (c : DataUpdateCoordinator.t) :
  (forall self fields,
     appliance_of c self = Ok (PyDict fields) ->
     dict_find (KStr "smart_meter") fields = None ->
     Sensor.state c (E self) = Raise (KeyError (PyStr "smart_meter"))) /\
  (forall self appliance props,
     appliance_of c self = Ok appliance ->
     properties_of appliance = Ok (PyList props) ->
     existsb (has_epc 231) props = false ->
     (exists e, Sensor.state c (E self) = Raise e) /\
     (Forall (fun p => has_field p "epc" = true) props ->
      Sensor.state c (E self) = Raise StopIteration)) /\
  (forall self device events,
     device_of c self = Ok device ->
     getitem device (PyStr "newest_events") = Ok (PyDict events) ->
     (dict_find (KStr "te") events = None ->
      Sensor.state c (Temperature self) = Raise (KeyError (PyStr "te"))) /\
     (dict_find (KStr "hu") events = None ->
      Sensor.state c (Humidity self) = Raise (KeyError (PyStr "hu"))) /\
     (dict_find (KStr "il") events = None ->
      Sensor.state c (Illuminance self) = Raise (KeyError (PyStr "il")))).
Proof.
  split; [|split].
  - intros self fields Ha Hnone. simpl.
    rewrite NatureRemoE_state_eq, Ha. unfold properties_of. simpl.
    now rewrite Hnone.
  - intros self appliance props Ha Hp Hnone. simpl.
    rewrite NatureRemoE_state_eq, Ha, Hp. simpl.
    now apply next_measured_none.
  - intros self device events Hd Hn.
    repeat split; intro Hnone; simpl;
      unfold NatureRemoTemperatureSensor.state, NatureRemoHumiditySensor.state,
        NatureRemoIlluminanceSensor.state;
      rewrite newest_event_val_eq, Hd, Hn; simpl; now rewrite Hnone.
Qed.

End EntityClaims.

Section EntityExamples.

Import Init Sensor Spec Examples.

Example meter_entity_init : NatureRemoE.__init__ (meter 450) = Ok meter_entity.
Proof. reflexivity. Qed.

Example remo_entity_init :
  NatureRemoTemperatureSensor.__init__ remo = Ok (remo_entity " Temperature") /\
  NatureRemoHumiditySensor.__init__ remo = Ok (remo_entity " Humidity") /\
  NatureRemoIlluminanceSensor.__init__ remo = Ok (remo_entity " Illuminance").
Proof. repeat split. Qed.

(** The property list [{epc:225,val:10},{epc:231,val:450}] reads 450. *)
Lemma energy_state_is_val_of_231_witness :
  NatureRemoE.state (coordinator_with home) meter_entity = Ok (PyInt 450).
Proof.
  eapply (energy_state_is_val_of_231 (coordinator_with home) meter_entity
            (meter 450)).
  - reflexivity.
  - reflexivity.
  - repeat constructor.
  - reflexivity.
  - reflexivity.
Defined.

(** With [newest_events = {te:{val:21.5}, hu:{val:60}}] the temperature
    entity reads 21.5 and the humidity entity reads 60. *)
Lemma sensor_state_is_newest_event_val_witness :
  Sensor.state (coordinator_with home) (Temperature (remo_entity " Temperature"))
    = Ok (PyFloat float_21_5) /\
  Sensor.state (coordinator_with home) (Humidity (remo_entity " Humidity"))
    = Ok (PyInt 60).
Proof.
  split.
  - eapply (sensor_state_is_newest_event_val (coordinator_with home)
              (remo_entity " Temperature") "te" remo);
      reflexivity.
  - eapply (sensor_state_is_newest_event_val (coordinator_with home)
              (remo_entity " Humidity") "hu" remo);
      reflexivity.
Defined.

(** C2, as stated, fails: the illuminance entity of a device whose newest
    events have no "il" key raises [KeyError] instead of reporting a value;
    so does the energy entity of an appliance without a smart-meter block,
    and without a property 231 it raises [StopIteration]. *)
Lemma state_of_absent_field_raises :
  Sensor.state (coordinator_with home) (Illuminance (remo_entity " Illuminance"))
    = Raise (KeyError (PyStr "il")) /\
  Sensor.state (coordinator_with home_without_block) (E meter_entity)
    = Raise (KeyError (PyStr "smart_meter")) /\
  Sensor.state (coordinator_with home_without_231) (E meter_entity)
    = Raise StopIteration.
Proof. repeat split. Qed.

Lemma state_raises_when_field_absent_witness :
  Sensor.state (coordinator_with home_without_block) (E meter_entity)
    = Raise (KeyError (PyStr "smart_meter")) /\
  Sensor.state (coordinator_with home_without_231) (E meter_entity)
    = Raise StopIteration /\
  Sensor.state (coordinator_with home) (Illuminance (remo_entity " Illuminance"))
    = Raise (KeyError (PyStr "il")).
Proof.
  split; [|split].
  - eapply (proj1 (state_raises_when_field_absent
                     (coordinator_with home_without_block)));
      reflexivity.
  - eapply (proj2 (proj1 (proj2 (state_raises_when_field_absent
                                   (coordinator_with home_without_231)))
                     meter_entity meter_without_231 _
                     eq_refl eq_refl eq_refl)).
    repeat constructor.
  - eapply (proj2 (proj2 (proj2 (proj2 (state_raises_when_field_absent
                                   (coordinator_with home)))
                     (remo_entity " Illuminance") remo _ eq_refl eq_refl)));
      reflexivity.
Defined.

End EntityExamples.

(** ** Sensor platform setup *)

Section SetupClaims.

Import Init Sensor Spec.

Lemma has_field_ok (v : value) (k : string) :
  has_field v k = true -> exists x, getitem v (PyStr k) = Ok x.
Proof.
  unfold has_field. destruct (getitem v (PyStr k)) as [x|e]; simpl.
  - intros _. now exists x.
  - discriminate.
Qed.

(** The comprehension yields one energy entity per smart-meter appliance,
    in the order of the appliances. *)
Lemma smart_meters_spec (appliances : list value) :
  Forall (fun a => appliance_ok a = true) appliances ->
  exists es,
    smart_meters appliances = Ok es /\
    Forall2 energy_for (filter is_smart_meter appliances) es.
Proof.
  induction appliances as [|a rest IH]; intro Hwf.
  - exists []. split; [reflexivity | constructor].
  - inversion Hwf as [|a' rest' Ha Hrest]; subst.
    destruct (IH Hrest) as (es & Hes & Hall).
    unfold appliance_ok in Ha. apply andb_true_iff in Ha as [Htype Hmeter].
    apply has_field_ok in Htype as [type Htype].
    simpl. unfold is_smart_meter in *. rewrite Htype in *.
    destruct (eq_str type "EL_SMART_METER").
    + apply andb_true_iff in Hmeter as [Hmeter Hdev].
      apply andb_true_iff in Hmeter as [Hnick Hid].
      apply has_field_ok in Hnick as [nick Hnick].
      apply has_field_ok in Hid as [id Hid].
      apply has_field_ok in Hdev as [dev Hdev].
      unfold NatureRemoE.__init__, NatureRemoBase.__init__.
      rewrite Hnick, Hid, Hdev, Hes.
      eexists. split; [reflexivity|].
      constructor; [|exact Hall].
      eexists. split; [|reflexivity].
      unfold NatureRemoE.__init__, NatureRemoBase.__init__.
      now rewrite Hnick, Hid, Hdev.
    + exists es. now split.
Qed.

(** The inner loop appends one entity per key among "te", "hu", "il". *)
Lemma device_sensors_spec (device : value) (sensors : list value) :
  has_field device "name" = true ->
  has_field device "id" = true ->
  forall entities,
  exists ds,
    device_sensors device sensors entities = Ok (entities ++ ds) /\
    Forall2 sensor_for (map (pair device) (filter is_kind sensors)) ds.
Proof.
  intros Hname Hid.
  apply has_field_ok in Hname as [name Hname].
  apply has_field_ok in Hid as [id Hid].
  assert (Hinit : forall suffix, exists e, init_renamed suffix device = Ok e).
  { intro suffix. unfold init_renamed, NatureRemoDeviceBase.__init__.
    rewrite Hname, Hid. now eexists. }
  induction sensors as [|sensor rest IH]; intro entities.
  - exists []. split; [simpl; now rewrite app_nil_r | constructor].
  - simpl. unfold is_kind.
    destruct (eq_str sensor "te") eqn:Ete; simpl.
    { destruct (Hinit " Temperature") as [e He].
      unfold NatureRemoTemperatureSensor.__init__. rewrite He.
      destruct (IH (entities ++ [Temperature e])) as (ds & Hds & Hall).
      exists (Temperature e :: ds). rewrite Hds, <- app_assoc.
      split; [reflexivity|]. constructor; [|exact Hall].
      left. split; [exact Ete|]. now exists e. }
    destruct (eq_str sensor "hu") eqn:Ehu; simpl.
    { destruct (Hinit " Humidity") as [e He].
      unfold NatureRemoHumiditySensor.__init__. rewrite He.
      destruct (IH (entities ++ [Humidity e])) as (ds & Hds & Hall).
      exists (Humidity e :: ds). rewrite Hds, <- app_assoc.
      split; [reflexivity|]. constructor; [|exact Hall].
      right. left. split; [exact Ehu|]. now exists e. }
    destruct (eq_str sensor "il") eqn:Eil; simpl.
    { destruct (Hinit " Illuminance") as [e He].
      unfold NatureRemoIlluminanceSensor.__init__. rewrite He.
      destruct (IH (entities ++ [Illuminance e])) as (ds & Hds & Hall).
      exists (Illuminance e :: ds). rewrite Hds, <- app_assoc.
      split; [reflexivity|]. constructor; [|exact Hall].
      right. right. split; [exact Eil|]. now exists e. }
    apply IH.
Qed.

(** The outer loop does so for every device, in the order of the devices. *)
Lemma all_device_sensors_spec (devices : list value) :
  Forall (fun d => device_ok d = true) devices ->
  forall entities,
  exists ds,
    all_device_sensors devices entities = Ok (entities ++ ds) /\
    Forall2 sensor_for (device_kinds devices) ds.
Proof.
  induction devices as [|d rest IH]; intros Hwf entities.
  - exists []. split; [simpl; now rewrite app_nil_r | constructor].
  - inversion Hwf as [|d' rest' Hd Hrest]; subst.
    unfold device_ok in Hd. apply andb_true_iff in Hd as [Hd Hev].
    apply andb_true_iff in Hd as [Hname Hid].
    destruct (getitem d (PyStr "newest_events")) as [ev|] eqn:Eev;
      [|discriminate].
    destruct ev as [| | | | | |events]; try discriminate.
    destruct (device_sensors_spec d (map fst events) Hname Hid entities)
      as (ds1 & Hds1 & Hall1).
    destruct (IH Hrest (entities ++ ds1)) as (ds2 & Hds2 & Hall2).
    exists (ds1 ++ ds2). split.
    + simpl. destruct (has_field_ok _ _ Hname) as [name ->].
      rewrite Eev. simpl. rewrite Hds1, Hds2. now rewrite app_assoc.
    + unfold device_kinds. simpl. apply Forall2_app; [|exact Hall2].
      unfold kinds_of. now rewrite Eev.
Qed.

(** C10: for a snapshot whose appliances and devices are those of the data
    model, the entities set up are, in order, one energy entity for each
    appliance whose type is "EL_SMART_METER", then for each device one
    temperature, humidity or illuminance entity for each of the keys "te",
    "hu", "il" present in its newest events, and nothing else. *)
Theorem setup_creates_exactly_the_listed_entities
    (c : DataUpdateCoordinator.t) (appliances devices : dict) :
  DataUpdateCoordinator.data c = snapshot appliances devices ->
  Forall (fun a => appliance_ok a = true) (map snd appliances) ->
  Forall (fun d => device_ok d = true) (map snd devices) ->
  exists es ds,
    Sensor.async_setup_entry c = Ok (es ++ ds) /\
    Forall2 energy_for (filter is_smart_meter (map snd appliances)) es /\
    Forall2 sensor_for (device_kinds (map snd devices)) ds.
Proof.
  intros Hdata Happ Hdev.
  destruct (smart_meters_spec _ Happ) as (es & Hes & Hall1).
  destruct (all_device_sensors_spec _ Hdev es) as (ds & Hds & Hall2).
  exists es, ds. unfold Sensor.async_setup_entry. rewrite Hdata. simpl.
  rewrite Hes, Hds. now repeat split.
Qed.

End SetupClaims.

Section SetupExamples.

Import Init Sensor Spec Examples.

(** The example home: the meter's energy entity, then the Remo's
    temperature and humidity entities; nothing for the air conditioner, no
    illuminance entity. *)
Example setup_home :
  Sensor.async_setup_entry (coordinator_with home) =
    Ok [E meter_entity;
        Temperature (remo_entity " Temperature");
        Humidity (remo_entity " Humidity")].
Proof. reflexivity. Qed.

Lemma setup_creates_exactly_the_listed_entities_witness :
  exists es ds,
    Sensor.async_setup_entry (coordinator_with home) = Ok (es ++ ds) /\
    Forall2 energy_for [meter 450] es /\
    Forall2 sensor_for [(remo, PyStr "te"); (remo, PyStr "hu")] ds.
Proof.
  apply (setup_creates_exactly_the_listed_entities (coordinator_with home)
           [(PyStr "a1", meter 450); (PyStr "a2", aircon)]
           [(PyStr "d1", remo)]).
  - reflexivity.
  - repeat constructor.
  - repeat constructor.
Defined.

End SetupExamples.

(** ** The coordinator's refresh *)

Section RefreshClaims.

Import HomeAssistant Init Spec.

(** One refresh: the stored snapshot becomes the payload of a successful
    fetch and stays as it was after a failed one, whose error is re-raised;
    the update method is kept. *)
Lemma async_refresh_step (api : NatureRemoAPI.t) (now : Z)
    (c : DataUpdateCoordinator.t) (h : HomeAssistant.t) :
  DataUpdateCoordinator.update_method c = async_update_data api ->
  let fetch := NatureRemoAPI.get api h in
  let run := DataUpdateCoordinator.async_refresh now (c, h) in
  fst run = outcome_of (fst fetch) /\
  DataUpdateCoordinator.data (fst (snd run)) =
    last_ok (DataUpdateCoordinator.data c) [fst fetch] /\
  DataUpdateCoordinator.update_method (fst (snd run)) = async_update_data api /\
  snd (snd run) = snd fetch.
Proof.
  intro Hm. unfold DataUpdateCoordinator.async_refresh.
  rewrite Hm, async_update_data_eq.
  destruct (NatureRemoAPI.get api h) as [[payload|e] h']; simpl; auto.
Qed.

Lemma last_ok_cons (initial : value) (r : result value) (rs : list (result value)) :
  last_ok initial (r :: rs) = last_ok (last_ok initial [r]) rs.
Proof. reflexivity. Qed.

(** C1: over any sequence of refresh calls, whatever the pattern of
    successes and failures of the fetch, each call completes or re-raises
    the error of its fetch, and the snapshot read after each call is the
    payload of the most recent successful fetch up to that call (the
    snapshot held before the calls, when none has succeeded yet): a failed
    refresh leaves it unchanged. *)
Theorem snapshot_is_last_successful_fetch
    (api : NatureRemoAPI.t) (ticks : list Z) :
  forall (c : DataUpdateCoordinator.t) (h : HomeAssistant.t),
  DataUpdateCoordinator.update_method c = async_update_data api ->
  let run := refresh_each ticks (c, h) in
  let fetched := fetches api (List.length ticks) h in
  map fst (fst run) = map outcome_of (fst fetched) /\
  (forall i, (i < List.length ticks)%nat ->
     nth_error (map snd (fst run)) i =
       Some (last_ok (DataUpdateCoordinator.data c)
                     (firstn (S i) (fst fetched)))) /\
  DataUpdateCoordinator.data (fst (snd run)) =
    last_ok (DataUpdateCoordinator.data c) (fst fetched) /\
  snd (snd run) = snd fetched.
Proof.
  induction ticks as [|now rest IH]; intros c h Hm.
  - simpl. repeat split; auto. intros i Hi. inversion Hi.
  - pose proof (async_refresh_step api now c h Hm) as Hstep.
    cbv zeta in Hstep |- *.
    cbn [refresh_each fetches List.length].
    destruct (DataUpdateCoordinator.async_refresh now (c, h)) as [r [c1 h1]].
    destruct (NatureRemoAPI.get api h) as [r0 h0].
    cbn [fst snd] in Hstep.
    destruct Hstep as (Hout & Hdata & Hm' & Hh). subst h1.
    specialize (IH c1 h0 Hm'). cbv zeta in IH.
    destruct (refresh_each rest (c1, h0)) as [rs [c2 h2]].
    destruct (fetches api (List.length rest) h0) as [fs hf].
    cbn [fst snd map] in *. destruct IH as (IH1 & IH2 & IH3 & IH4).
    repeat split.
    + now rewrite Hout, IH1.
    + intros [|i] Hi.
      * cbn [nth_error firstn]. now rewrite Hdata.
      * cbn [nth_error]. rewrite IH2 by (simpl in Hi; lia).
        change (firstn (S (S i)) (r0 :: fs)) with (r0 :: firstn (S i) fs).
        now rewrite last_ok_cons, Hdata.
    + now rewrite IH3, last_ok_cons, Hdata.
    + exact IH4.
Qed.

(** What an entity reads depends on the coordinator through its snapshot
    only: consumers of two coordinators holding one snapshot read alike. *)
Lemma state_reads_the_snapshot (c c' : DataUpdateCoordinator.t) (x : Sensor.entity) :
  DataUpdateCoordinator.data c = DataUpdateCoordinator.data c' ->
  Sensor.state c x = Sensor.state c' x.
Proof.
  intro H. destruct x; simpl;
    unfold Sensor.NatureRemoE.state, Sensor.NatureRemoTemperatureSensor.state,
      Sensor.NatureRemoHumiditySensor.state,
      Sensor.NatureRemoIlluminanceSensor.state, Sensor.newest_event_val;
    now rewrite H.
Qed.

End RefreshClaims.

Section RefreshExamples.

Import HomeAssistant Init Spec Examples.

(** Four ticks against the flaky cloud: the fetch succeeds, fails,
    succeeds, fails; after the second call the first payload is still
    read, after the fourth the third. *)
Example refresh_flaky :
  let home n := PyDict [(PyStr "appliances", PyDict [(PyStr "a1", meter n)]);
                        (PyStr "devices", PyDict [(PyStr "d1", remo)])] in
  let run := refresh_each [10; 20; 30; 40] (coordinator, hass_with flaky) in
  fst run = [(Ok tt, home 450);
             (Raise (OtherError "ClientConnectorError"), home 450);
             (Ok tt, home 453);
             (Raise (OtherError "ClientConnectorError"), home 453)] /\
  DataUpdateCoordinator.data (fst (snd run)) = home 453 /\
  DataUpdateCoordinator.last_update_success (fst (snd run)) = false /\
  DataUpdateCoordinator.last_exception (fst (snd run)) =
    Some (OtherError "ClientConnectorError").
Proof. repeat split. Qed.

Lemma snapshot_is_last_successful_fetch_witness :
  let run := refresh_each [10; 20; 30; 40] (coordinator, hass_with flaky) in
  let fetched := fetches api 4 (hass_with flaky) in
  map fst (fst run) = map outcome_of (fst fetched) /\
  (forall i, (i < 4)%nat ->
     nth_error (map snd (fst run)) i =
       Some (last_ok (DataUpdateCoordinator.data coordinator)
                     (firstn (S i) (fst fetched)))) /\
  DataUpdateCoordinator.data (fst (snd run)) =
    last_ok (DataUpdateCoordinator.data coordinator) (fst fetched) /\
  snd (snd run) = snd fetched.
Proof.
  apply (snapshot_is_last_successful_fetch api [10; 20; 30; 40] coordinator
           (hass_with flaky)).
  reflexivity.
Defined.

End RefreshExamples.

(** ** The config flow *)

Section MigrationClaims.

Import HomeAssistant NatureRemoConfigFlow Spec.

(** The host refuses a [state=] keyword before it stores anything. *)
Lemma update_entry_refuses_state
    (entry : ConfigEntry.t) (data : option dict) (version : option Z)
    (state : ConfigEntry.ConfigEntryState) (h : HomeAssistant.t) :
  async_update_entry entry data version (Some state) h = (Raise TypeError, h).
Proof. reflexivity. Qed.

(** C9: the migration stores nothing and returns false, for a version-1
    entry as for any other.  For version 1 the new data are built, but the
    call that should store them passes [state=] to the host's
    [async_update_entry], which raises [TypeError]; the handler's own call
    passes [state=] too, its [TypeError] is swallowed, and [False] is
    returned. *)
Theorem migration_stores_nothing
    (entry : ConfigEntry.t) (h : HomeAssistant.t) :
  async_migrate_entry entry h = (Ok false, h).
Proof.
  unfold async_migrate_entry.
  destruct (ConfigEntry.version entry =? 1).
  - unfold try_except at 1. unfold bind at 1.
    rewrite update_entry_refuses_state.
    unfold bind, try_except.
    now rewrite update_entry_refuses_state.
  - reflexivity.
Qed.

End MigrationClaims.

Section MigrationExamples.

Import HomeAssistant NatureRemoConfigFlow Spec Examples.

(** The version-1 entry of the examples stays as it is: the interval is not
    added and the version is not raised. *)
Example migrate_v1 :
  async_migrate_entry entry_v1 (hass_storing [entry_v1; entry_v2]) =
    (Ok false, hass_storing [entry_v1; entry_v2]) /\
  ~ List.In (migrated entry_v1)
            (config_entries
               (snd (async_migrate_entry entry_v1
                       (hass_storing [entry_v1; entry_v2])))).
Proof.
  split; [reflexivity|].
  simpl. intros [H|[H|[]]]; discriminate.
Qed.

End MigrationExamples.

Section ValidationClaims.

Import HomeAssistant Init NatureRemoConfigFlow Spec.

(** Whatever the validation fetch raises, [_validate_token] raises
    [InvalidAuth] from it. *)
Lemma validate_token_wraps_every_failure
    (token : value) (h : HomeAssistant.t) (e : exn) :
  fst (NatureRemoAPI.get {| NatureRemoAPI._access_token := token |} h) = Raise e ->
  fst (_validate_token token h) = Raise (InvalidAuth e).
Proof.
  unfold _validate_token, try_except, bind, ret, raise.
  destruct (NatureRemoAPI.get _ h) as [[v|e'] h']; simpl; intro H.
  - discriminate.
  - now injection H as ->.
Qed.

(** So the user step, with no entry configured yet, shows "invalid_auth"
    for every failure of the validation fetch, and "unknown" for none. *)
Lemma step_user_fetch_failure_is_invalid_auth
    (input token : value) (h : HomeAssistant.t) (e : exn) :
  config_entries h = [] ->
  getitem input (PyStr "access_token") = Ok token ->
  fst (NatureRemoAPI.get {| NatureRemoAPI._access_token := token |} h) = Raise e ->
  fst (async_step_user (Some input) h) =
    Ok (async_show_form "user" user_data_schema [("base", "invalid_auth")]
                        description_placeholders).
Proof.
  intros Hnone Htoken Hfetch.
  pose proof (validate_token_wraps_every_failure token h e Hfetch) as Hv.
  unfold async_step_user, bind, gets, try_except, lift, ret.
  rewrite Hnone. simpl.
  unfold CONF_ACCESS_TOKEN. rewrite Htoken.
  destruct (_validate_token token h) as [[u|e'] h']; simpl in Hv.
  - discriminate.
  - injection Hv as ->. reflexivity.
Qed.

End ValidationClaims.

Section ValidationExamples.

Import HomeAssistant Init NatureRemoConfigFlow Spec Examples.

(** C7, at the failing input: the cloud cannot be reached, a transport
    failure and no matter of authentication, and the user step shows the
    form with "invalid_auth", not "unknown"; the import step aborts with
    "invalid_auth" likewise. *)
Theorem transport_failure_is_reported_as_invalid_auth :
  fst (NatureRemoAPI.get api (hass_with unreachable)) =
    Raise (OtherError "ClientConnectorError") /\
  fst (_validate_token (PyStr "secret") (hass_with unreachable)) =
    Raise (InvalidAuth (OtherError "ClientConnectorError")) /\
  fst (async_step_user (Some (user_input (PyInt 60))) (hass_with unreachable)) =
    Ok (async_show_form "user" user_data_schema [("base", "invalid_auth")]
                        description_placeholders) /\
  fst (async_step_import (user_input (PyInt 60)) (hass_with unreachable)) =
    Ok (async_abort "invalid_auth").
Proof. repeat split. Qed.

(** A server error on the devices endpoint is "invalid_auth" too. *)
Example server_error_is_reported_as_invalid_auth :
  fst (async_step_user (Some (user_input (PyInt 60)))
                       (hass_with cloud_devices_down)) =
    Ok (async_show_form "user" user_data_schema [("base", "invalid_auth")]
                        description_placeholders).
Proof. reflexivity. Qed.

(** "unknown" is what an exception from outside the fetch gives: here the
    submitted input has no access token. *)
Example missing_token_is_unknown :
  fst (async_step_user (Some (obj [("update_interval", PyInt 60)]))
                       (hass_with cloud)) =
    Ok (async_show_form "user" user_data_schema [("base", "unknown")]
                        description_placeholders).
Proof. reflexivity. Qed.

(** A reachable cloud: the entry is created with the submitted values. *)
Example step_user_creates_entry :
  fst (async_step_user (Some (user_input (PyInt 30))) (hass_with cloud)) =
    Ok (async_create_entry "Nature Remo"
          [(PyStr "access_token", PyStr "secret");
           (PyStr "update_interval", PyInt 30)]).
Proof. reflexivity. Qed.

Example placeholders :
  description_placeholders =
    [("url", "https://home.nature.global");
     ("min_interval", "10"); ("max_interval", "120")].
Proof. reflexivity. Qed.

End ValidationExamples.

Section IntervalClaims.

Import HomeAssistant Init NatureRemoConfigFlow Spec.

Lemma validate_value_raises (c : Vol.validator) (v : value) (e : exn) :
  Vol.validate_value c v = Raise e -> e = Invalid.
Proof.
  destruct c; simpl.
  - destruct v; intro H; now inversion H.
  - destruct (in_ints v container); intro H; now inversion H.
Qed.

(** The validators hand back the value they were given. *)
Lemma validate_value_ok (c : Vol.validator) (v v' : value) :
  Vol.validate_value c v = Ok v' -> v' = v.
Proof.
  destruct c; simpl.
  - destruct v; intro H; now inversion H.
  - destruct (in_ints v container); intro H; now inversion H.
Qed.

Lemma validate_items_raises (s : Vol.Schema) (items : dict) (e : exn) :
  Vol.validate_items s items = Raise e -> e = Invalid.
Proof.
  induction items as [|[k v] rest IH]; simpl; [discriminate|].
  destruct (Vol.field_for s k) as [f|]; [|intro H; now inversion H].
  destruct (Vol.validate_value (Vol.check f) v) as [v'|e'] eqn:E.
  - destruct (Vol.validate_items s rest) as [out|e'']; [discriminate|].
    intro H. injection H as <-. now apply IH.
  - intro H. injection H as <-. now apply validate_value_raises in E.
Qed.

Lemma validate_items_ok (s : Vol.Schema) (items out : dict) :
  Vol.validate_items s items = Ok out -> out = items.
Proof.
  revert out. induction items as [|[k v] rest IH]; simpl; intros out H.
  - now injection H as <-.
  - destruct (Vol.field_for s k) as [f|]; [|discriminate].
    destruct (Vol.validate_value (Vol.check f) v) as [v'|e'] eqn:E;
      [|discriminate].
    destruct (Vol.validate_items s rest) as [rest'|e'']; [|discriminate].
    injection H as <-. apply validate_value_ok in E. subst v'.
    now rewrite (IH rest' eq_refl).
Qed.

Lemma hash_key_str (k : value) (s : string) :
  hash_key k = Some (KStr s) -> k = PyStr s.
Proof.
  destruct k as [|b|n|f|t|xs|items]; simpl; try discriminate.
  - destruct f as [sg|sg| |sg m e]; simpl; try discriminate.
    destruct (0 <=? e); discriminate.
  - intro H. now injection H as ->.
Qed.

(** An item whose key has an [In] validator and whose value is not in the
    container makes the items invalid. *)
Lemma validate_items_rejects (s : Vol.Schema) (f : Vol.Required)
    (name : string) (opts : list Z) (items : dict) (v : value) :
  Vol.field_for s (PyStr name) = Some f ->
  Vol.check f = Vol.In opts ->
  dict_find (KStr name) items = Some v ->
  in_ints v opts = false ->
  Vol.validate_items s items = Raise Invalid.
Proof.
  intros Hf Hc Hfind Hbad. unfold dict_find in Hfind.
  induction items as [|[k v0] rest IH]; simpl in *; [discriminate|].
  destruct (Vol.field_for s k) as [f0|] eqn:Ef; [|reflexivity].
  destruct (has_key (KStr name) (k, v0)) eqn:Ek.
  - simpl in Hfind. injection Hfind as ->.
    apply has_key_true in Ek. simpl in Ek. apply hash_key_str in Ek. subst k.
    rewrite Hf in Ef. injection Ef as <-.
    rewrite Hc. simpl. now rewrite Hbad.
  - specialize (IH Hfind). rewrite IH.
    destruct (Vol.validate_value (Vol.check f0) v0) as [v'|e] eqn:E;
      [reflexivity|].
    now rewrite (validate_value_raises _ _ _ E).
Qed.

Lemma dict_find_app (k : key) (items more : dict) (v : value) :
  dict_find k items = Some v -> dict_find k (items ++ more) = Some v.
Proof.
  unfold dict_find. rewrite find_app.
  now destruct (find (has_key k) items).
Qed.

Lemma dict_find_add_defaults (s : Vol.Schema) (k : key) (v : value) :
  forall items,
  dict_find k items = Some v -> dict_find k (Vol.add_defaults s items) = Some v.
Proof.
  induction s as [|f rest IH]; simpl; intros items H; [exact H|].
  destruct (Vol.default f) as [d|]; [|now apply IH].
  destruct (Vol.present (Vol.key_name f) items); apply IH; [exact H|].
  now apply dict_find_app.
Qed.

(** A schema with an [In] validator on a key rejects every input whose
    value for that key is not in the container. *)
Lemma validate_rejects (s : Vol.Schema) (f : Vol.Required)
    (name : string) (opts : list Z) (input v : value) :
  Vol.field_for s (PyStr name) = Some f ->
  Vol.check f = Vol.In opts ->
  getitem input (PyStr name) = Ok v ->
  in_ints v opts = false ->
  Vol.validate s input = Raise Invalid.
Proof.
  intros Hf Hc Hget Hbad.
  destruct input as [| | | | | |items]; try discriminate.
  simpl in Hget.
  destruct (dict_find (KStr name) items) as [v'|] eqn:Hfind; [|discriminate].
  injection Hget as ->.
  unfold Vol.validate.
  destruct (forallb _ s); [|reflexivity].
  rewrite (validate_items_rejects s f name opts _ v Hf Hc); auto.
  now apply dict_find_add_defaults.
Qed.

Lemma outside_allow_list_not_in (interval : value) :
  outside_allow_list interval = true ->
  in_ints interval UPDATE_INTERVAL_OPTIONS = false.
Proof.
  unfold outside_allow_list, in_ints, UPDATE_INTERVAL_OPTIONS.
  now rewrite negb_true_iff.
Qed.

Lemma validate_accepts_in (s : Vol.Schema) (f : Vol.Required)
    (name : string) (opts : list Z) (input out v : value) :
  Vol.field_for s (PyStr name) = Some f ->
  Vol.check f = Vol.In opts ->
  Vol.validate s input = Ok out ->
  getitem out (PyStr name) = Ok v ->
  in_ints v opts = true.
Proof.
  intros Hf Hc Hval Hget. unfold Vol.validate in Hval.
  destruct input as [| | | | | |items]; try discriminate.
  destruct (forallb _ s); [|discriminate].
  destruct (Vol.validate_items s (Vol.add_defaults s items)) as [o|e] eqn:E;
    [|discriminate].
  injection Hval as <-. simpl in Hget.
  destruct (dict_find (KStr name) o) as [v'|] eqn:Hfind; [|discriminate].
  injection Hget as ->.
  destruct (in_ints v opts) eqn:Hin; [reflexivity|].
  rewrite (validate_items_ok _ _ _ E) in Hfind.
  rewrite (validate_items_rejects s f name opts _ v Hf Hc Hfind Hin) in E.
  discriminate.
Qed.

Ltac split_matches :=
  repeat match goal with
         | H : context [match ?x with _ => _ end] |- _ =>
             destruct x eqn:?; simpl in H; try discriminate H
         | H : context [if ?x then _ else _] |- _ =>
             destruct x eqn:?; simpl in H; try discriminate H
         end.

(** The user step creates an entry only out of its [try] block, with the
    token and the interval it read from the input. *)
Lemma step_user_created (input : value) (h h' : HomeAssistant.t)
    (title : string) (data : dict) :
  async_step_user (Some input) h = (Ok (async_create_entry title data), h') ->
  exists token interval,
    getitem input (PyStr "access_token") = Ok token /\
    getitem input (PyStr "update_interval") = Ok interval /\
    data = [(PyStr "access_token", token); (PyStr "update_interval", interval)].
Proof.
  unfold async_step_user, bind, gets, ret, try_except, lift.
  unfold CONF_ACCESS_TOKEN, _CONF_UPDATE_INTERVAL.
  intro H. split_matches.
  all: repeat match goal with
       | H : (_, _) = (_, _) |- _ => injection H as ? ?; subst
       | H : Ok _ = Ok _ |- _ => injection H as ?; subst
       | H : inl _ = inl _ |- _ => injection H as ?; subst
       end; try discriminate; eauto.
Qed.

(** C8: a submitted refresh interval outside the allow-list fails the
    validation of the form it was submitted to, for the user step and for
    the reconfigure step; the flow manager raises without calling the step,
    so nothing is created, stored or requested.  An input the schema accepts
    comes back as submitted (with defaults for missing keys): no value is
    replaced by an allowed one.  An entry the submitted user form creates
    carries an interval of the allow-list. *)
Theorem interval_outside_allow_list_is_rejected
    (input interval : value) (h : HomeAssistant.t) :
  getitem input (PyStr "update_interval") = Ok interval ->
  outside_allow_list interval = true ->
  Vol.validate user_data_schema input = Raise Invalid /\
  (forall entry, Vol.validate (reconfigure_data_schema entry) input = Raise Invalid) /\
  (forall errors,
     async_configure
       (async_show_form "user" user_data_schema errors description_placeholders)
       async_step_user (Some input) h = (Raise Invalid, h)) /\
  (forall entry errors,
     async_configure
       (async_show_form "reconfigure" (reconfigure_data_schema entry) errors
                        description_placeholders)
       (async_step_reconfigure (ConfigEntry.entry_id entry)) (Some input) h =
     (Raise Invalid, h)) /\
  (forall accepted out,
     Vol.validate user_data_schema accepted = Ok out ->
     exists items,
       accepted = PyDict items /\
       out = PyDict (Vol.add_defaults user_data_schema items)) /\
  (forall accepted errors title data h',
     async_configure
       (async_show_form "user" user_data_schema errors description_placeholders)
       async_step_user (Some accepted) h =
     (Ok (async_create_entry title data), h') ->
     exists v,
       dict_find (KStr "update_interval") data = Some v /\
       outside_allow_list v = false).
Proof.
  intros Hget Hout. apply outside_allow_list_not_in in Hout.
  assert (Huser : Vol.validate user_data_schema input = Raise Invalid).
  { eapply validate_rejects with (name := "update_interval");
      [reflexivity | reflexivity | exact Hget | exact Hout]. }
  assert (Hre : forall entry,
            Vol.validate (reconfigure_data_schema entry) input = Raise Invalid).
  { intro entry. eapply validate_rejects with (name := "update_interval");
      [reflexivity | reflexivity | exact Hget | exact Hout]. }
  split; [exact Huser|]. split; [exact Hre|]. split; [|split; [|split]].
  - intro errors. unfold async_configure, bind, lift. now rewrite Huser.
  - intros entry errors. unfold async_configure, bind, lift. now rewrite Hre.
  - intros accepted out H. unfold Vol.validate in H.
    destruct accepted as [| | | | | |items]; try discriminate.
    exists items. split; [reflexivity|].
    destruct (forallb _ user_data_schema); [|discriminate].
    destruct (Vol.validate_items user_data_schema _) as [o|e] eqn:E;
      [|discriminate].
    injection H as <-. now rewrite (validate_items_ok _ _ _ E).
  - intros accepted errors title data h' H.
    unfold async_configure, bind, lift in H.
    destruct (Vol.validate user_data_schema accepted) as [validated|e] eqn:Ev;
      [|discriminate].
    apply step_user_created in H as (token & v & _ & Hv & ->).
    exists v. split; [reflexivity|].
    unfold outside_allow_list. apply negb_false_iff.
    change (in_ints v UPDATE_INTERVAL_OPTIONS = true).
    eapply validate_accepts_in with (s := user_data_schema)
      (name := "update_interval") (input := accepted) (out := validated);
      [reflexivity | reflexivity | exact Ev | exact Hv].
Qed.

End IntervalClaims.

Section IntervalExamples.

Import HomeAssistant Init NatureRemoConfigFlow Spec Examples.

(** Seven seconds is not an option: the submission raises and the step is
    not run (no request is sent). *)
Example submit_7 :
  async_configure user_form async_step_user (Some (user_input (PyInt 7)))
                  (hass_with cloud) =
    (Raise Invalid, hass_with cloud).
Proof. reflexivity. Qed.

(** Thirty seconds is: the step runs and creates the entry with 30. *)
Example submit_30 :
  fst (async_configure user_form async_step_user
                       (Some (user_input (PyInt 30))) (hass_with cloud)) =
    Ok (async_create_entry "Nature Remo"
          [(PyStr "access_token", PyStr "secret");
           (PyStr "update_interval", PyInt 30)]).
Proof. reflexivity. Qed.

(** Without an interval the default of 60 is filled in. *)
Example submit_default :
  fst (async_configure user_form async_step_user
                       (Some (obj [("access_token", PyStr "secret")]))
                       (hass_with cloud)) =
    Ok (async_create_entry "Nature Remo"
          [(PyStr "access_token", PyStr "secret");
           (PyStr "update_interval", PyInt 60)]).
Proof. reflexivity. Qed.

Lemma interval_outside_allow_list_is_rejected_witness :
  Vol.validate user_data_schema (user_input (PyInt 7)) = Raise Invalid /\
  (forall entry,
     Vol.validate (reconfigure_data_schema entry) (user_input (PyInt 7)) =
     Raise Invalid) /\
  (forall errors,
     async_configure
       (async_show_form "user" user_data_schema errors description_placeholders)
       async_step_user (Some (user_input (PyInt 7))) (hass_with cloud) =
     (Raise Invalid, hass_with cloud)) /\
  (forall entry errors,
     async_configure
       (async_show_form "reconfigure" (reconfigure_data_schema entry) errors
                        description_placeholders)
       (async_step_reconfigure (ConfigEntry.entry_id entry))
       (Some (user_input (PyInt 7))) (hass_with cloud) =
     (Raise Invalid, hass_with cloud)) /\
  (forall accepted out,
     Vol.validate user_data_schema accepted = Ok out ->
     exists items,
       accepted = PyDict items /\
       out = PyDict (Vol.add_defaults user_data_schema items)) /\
  (forall accepted errors title data h',
     async_configure
       (async_show_form "user" user_data_schema errors description_placeholders)
       async_step_user (Some accepted) (hass_with cloud) =
     (Ok (async_create_entry title data), h') ->
     exists v,
       dict_find (KStr "update_interval") data = Some v /\
       outside_allow_list v = false).
Proof.
  apply (interval_outside_allow_list_is_rejected (user_input (PyInt 7))
           (PyInt 7) (hass_with cloud)); reflexivity.
Defined.

End IntervalExamples.

(** ** More on the API client *)

Section ApiCoverage.

Import HomeAssistant Init Spec ApiSpec.

Lemma by_id_app (pre post : list value) : forall acc,
  NatureRemoAPI.by_id (pre ++ post) acc =
    match NatureRemoAPI.by_id pre acc with
    | Ok acc' => NatureRemoAPI.by_id post acc'
    | Raise e => Raise e
    end.
Proof.
  induction pre as [|x pre IH]; intro acc; simpl; [reflexivity|].
  destruct (getitem x (PyStr "id")) as [k|e]; [|reflexivity].
  destruct (setitem acc k x) as [acc'|e]; [|reflexivity].
  apply IH.
Qed.

Lemma by_id_ok (xs : list value) : forall acc,
  forallb has_id_key xs = true ->
  exists d, NatureRemoAPI.by_id xs acc = Ok d.
Proof.
  induction xs as [|x xs IH]; intros acc H; simpl.
  - now exists acc.
  - simpl in H. apply andb_true_iff in H as [Hx Hxs].
    unfold has_id_key, id_key in Hx.
    destruct (getitem x (PyStr "id")) as [k|e]; [|discriminate].
    unfold setitem. destruct (hash_key k); [|discriminate].
    now apply IH.
Qed.

(** X1: the comprehension over an array succeeds exactly when every element
    has an id usable as a key, and otherwise raises what the first element
    without one raises ([KeyError] for a dict without "id"). *)
Theorem dict_by_id_needs_every_id (xs : list value) :
  is_ok (NatureRemoAPI.dict_by_id (PyList xs)) = forallb has_id_key xs /\
  (forall pre x post,
     xs = pre ++ x :: post ->
     forallb has_id_key pre = true ->
     has_id_key x = false ->
     NatureRemoAPI.dict_by_id (PyList xs) = Raise (id_error x)).
Proof.
  assert (Hfail : forall pre x post,
            xs = pre ++ x :: post ->
            forallb has_id_key pre = true ->
            has_id_key x = false ->
            NatureRemoAPI.dict_by_id (PyList xs) = Raise (id_error x)).
  { intros pre x post -> Hpre Hx.
    unfold NatureRemoAPI.dict_by_id. simpl. rewrite by_id_app.
    destruct (by_id_ok pre [] Hpre) as [d ->]. simpl.
    unfold has_id_key, id_key, id_error in *.
    destruct (getitem x (PyStr "id")) as [k|e]; [|reflexivity].
    unfold setitem. now destruct (hash_key k). }
  split; [|exact Hfail].
  destruct (forallb has_id_key xs) eqn:E.
  - unfold NatureRemoAPI.dict_by_id. simpl.
    now destruct (by_id_ok xs [] E) as [d ->].
  - assert (Hsplit : exists pre x post,
              xs = pre ++ x :: post /\ forallb has_id_key pre = true /\
              has_id_key x = false).
    { clear Hfail. induction xs as [|x xs IH]; [discriminate|].
      simpl in E. destruct (has_id_key x) eqn:Ex.
      - destruct (IH E) as (pre & y & post & -> & Hpre & Hy).
        exists (x :: pre), y, post. simpl. now rewrite Ex, Hpre.
      - now exists [], x, xs. }
    destruct Hsplit as (pre & x & post & Hxs & Hpre & Hx).
    now rewrite (Hfail pre x post Hxs Hpre Hx).
Qed.

Lemma in_dict_set (k : key) (kv' v : value) (d : dict) (kv x : value) :
  hash_key kv' = Some k ->
  List.In (kv, x) (dict_set k kv' v d) ->
  List.In (kv, x) d \/ (x = v /\ hash_key kv = Some k).
Proof.
  intro Hk. induction d as [|item rest IH]; simpl.
  - intros [H|[]]. injection H as <- <-. now right.
  - destruct (has_key k item) eqn:E; simpl.
    + intros [H|H]; [|now left; right].
      injection H as <- <-. right. split; [reflexivity|].
      now apply has_key_true in E.
    + intros [H|H]; [now left; left|].
      destruct (IH H) as [H'|H']; [now left; right | now right].
Qed.

(** The key an element is stored under is its own id, as hashed. *)
Lemma by_id_own_key (xs : list value) : forall acc d,
  NatureRemoAPI.by_id xs acc = Ok d ->
  (forall kv x, List.In (kv, x) acc ->
     exists i, getitem x (PyStr "id") = Ok i /\ hash_key i = hash_key kv) ->
  forall kv x, List.In (kv, x) d ->
     exists i, getitem x (PyStr "id") = Ok i /\ hash_key i = hash_key kv.
Proof.
  induction xs as [|y rest IH]; simpl; intros acc d H Hacc.
  - now injection H as <-.
  - destruct (getitem y (PyStr "id")) as [i|e] eqn:Ei; [|discriminate].
    unfold setitem in H.
    destruct (hash_key i) as [k|] eqn:Hi; [|discriminate].
    apply (IH _ _ H). intros kv x Hin.
    destruct (in_dict_set k i y acc kv x Hi Hin) as [Hold|[-> Hkv]].
    + now apply Hacc.
    + exists i. split; [exact Ei | congruence].
Qed.

Lemma dict_by_id_found (body : value) (d : dict) :
  NatureRemoAPI.dict_by_id body = Ok d ->
  found_under_own_id d.
Proof.
  unfold NatureRemoAPI.dict_by_id. intro H.
  destruct (iter body) as [xs|e]; [|discriminate].
  assert (Hd : distinct_keys d).
  { apply (by_id_distinct xs _ _ H). split; constructor. }
  destruct Hd as [Hnd Hall].
  intros kv x Hin.
  destruct (by_id_own_key xs [] d H (fun _ _ F => match F with end) kv x Hin)
    as (i & Hi & Hhash).
  exists i. split; [exact Hi|].
  assert (Hsome : hash_key kv <> None).
  { rewrite Forall_forall in Hall. apply Hall.
    change (hash_key kv) with ((fun it => hash_key (fst it)) (kv, x)).
    now apply in_map. }
  destruct (hash_key kv) as [k|] eqn:Hk; [|contradiction].
  simpl. rewrite Hhash.
  now rewrite (dict_find_item k kv x d Hnd Hin Hk).
Qed.

(** X2: in the snapshot a successful [get] returns, every stored appliance
    and every stored device is found again under its own id: indexing the
    mapping with the element's ["id"] gives that element. *)
Theorem get_stores_each_element_under_its_id
    (api : NatureRemoAPI.t) (h h' : HomeAssistant.t) (snap : value) :
  NatureRemoAPI.get api h = (Ok snap, h') ->
  exists appliances devices,
    snap = snapshot appliances devices /\
    found_under_own_id appliances /\
    found_under_own_id devices.
Proof.
  intro H. rewrite get_eq in H. cbv zeta in H.
  destruct (fetched h (appliances_request api)) as [A|e] eqn:EA;
    [|discriminate].
  destruct (fetched (after_request h (appliances_request api))
                    (devices_request api)) as [D|e] eqn:ED; [|discriminate].
  injection H as <- _. exists A, D. split; [reflexivity|].
  unfold fetched in EA, ED.
  split.
  - destruct (respond h (sent h) (appliances_request api)) as [r|e];
      [|discriminate].
    destruct (bad_status (status r)); [discriminate|].
    destruct (json r) as [body|e]; [|discriminate].
    now apply dict_by_id_found with (body := body).
  - destruct (respond _ _ (devices_request api)) as [r|e]; [|discriminate].
    destruct (bad_status (status r)); [discriminate|].
    destruct (json r) as [body|e]; [|discriminate].
    now apply dict_by_id_found with (body := body).
Qed.

(** The state a [get] leaves: the log grown by its requests, nothing else
    touched. *)
Lemma get_state (api : NatureRemoAPI.t) (h : HomeAssistant.t) :
  snd (NatureRemoAPI.get api h) =
    with_sent h (sent h ++ requests_of_get api h).
Proof.
  rewrite get_eq. cbv zeta. unfold requests_of_get, after_request.
  destruct (fetched h (appliances_request api)) as [A|e]; simpl.
  - destruct (fetched _ (devices_request api)) as [D|e]; simpl;
      unfold with_sent; simpl; now rewrite <- app_assoc.
  - reflexivity.
Qed.

(** X3: a [get] first requests the appliances and requests the devices only
    if the appliances block went through (request, status, decoding and
    keying); both requests carry the client's token; it sends nothing else
    and leaves the stored config entries alone. *)
Theorem get_requests_devices_only_after_appliances
    (api : NatureRemoAPI.t) (h : HomeAssistant.t) :
  sent (snd (NatureRemoAPI.get api h)) =
    sent h ++
    appliances_request api ::
    (if is_ok (fetched h (appliances_request api))
     then [devices_request api] else []) /\
  Forall (fun req => bearer req = NatureRemoAPI._access_token api)
         (requests_of_get api h) /\
  config_entries (snd (NatureRemoAPI.get api h)) = config_entries h.
Proof.
  rewrite get_state. simpl. repeat split.
  unfold requests_of_get.
  destruct (is_ok (fetched h (appliances_request api)));
    repeat constructor.
Qed.

(** X4: a decoded body that is not an array never yields entries: a scalar
    ([None], a boolean, a number), a non-empty string or a non-empty object
    makes the comprehension raise [TypeError]; only the empty string and
    the empty object pass, as the empty mapping. *)
Theorem dict_by_id_of_non_array (body : value) :
  not_array body = true ->
  NatureRemoAPI.dict_by_id body =
    if empty_body body then Ok [] else Raise TypeError.
Proof.
  unfold NatureRemoAPI.dict_by_id.
  destruct body as [|b|n|f|s|xs|items]; simpl; intro H;
    try reflexivity; try discriminate.
  - destruct s as [|c s']; reflexivity.
  - destruct items as [|[k v] rest]; [reflexivity|].
    simpl in H. apply andb_true_iff in H as [Hk _].
    destruct k; try discriminate. reflexivity.
Qed.

End ApiCoverage.

Section ApiCoverageExamples.

Import HomeAssistant Init Spec ApiSpec Examples.

Lemma dict_by_id_needs_every_id_witness :
  is_ok (NatureRemoAPI.dict_by_id
           (PyList [meter 450; obj [("nickname", PyStr "Fan")]; aircon])) =
    false /\
  NatureRemoAPI.dict_by_id
    (PyList [meter 450; obj [("nickname", PyStr "Fan")]; aircon]) =
    Raise (KeyError (PyStr "id")).
Proof.
  pose proof (dict_by_id_needs_every_id
                [meter 450; obj [("nickname", PyStr "Fan")]; aircon])
    as [Hok Hfail].
  split; [exact Hok|].
  apply (Hfail [meter 450] (obj [("nickname", PyStr "Fan")]) [aircon]);
    reflexivity.
Defined.

Lemma get_stores_each_element_under_its_id_witness :
  exists appliances devices,
    PyDict [(PyStr "appliances",
             PyDict [(PyStr "a1", meter 450); (PyStr "a2", aircon)]);
            (PyStr "devices", PyDict [(PyStr "d1", remo)])] =
    snapshot appliances devices /\
    found_under_own_id appliances /\
    found_under_own_id devices.
Proof.
  eapply (get_stores_each_element_under_its_id api (hass_with cloud)).
  reflexivity.
Defined.

Lemma dict_by_id_of_non_array_witness :
  NatureRemoAPI.dict_by_id
    (obj [("code", PyInt 401001); ("message", PyStr "Unauthorized")]) =
    Raise TypeError /\
  NatureRemoAPI.dict_by_id PyNone = Raise TypeError /\
  NatureRemoAPI.dict_by_id (obj []) = Ok [].
Proof.
  split; [|split].
  - apply (dict_by_id_of_non_array
             (obj [("code", PyInt 401001); ("message", PyStr "Unauthorized")])).
    reflexivity.
  - apply (dict_by_id_of_non_array PyNone). reflexivity.
  - apply (dict_by_id_of_non_array (obj [])). reflexivity.
Defined.

End ApiCoverageExamples.

(** ** More on the config flow *)

Section FlowCoverage.

Import HomeAssistant Init NatureRemoConfigFlow Spec ApiSpec FlowSpec.

Lemma validate_token_eq (token : value) (h : HomeAssistant.t) :
  _validate_token token h =
    (match fst (NatureRemoAPI.get (client token) h) with
     | Ok _ => Ok tt
     | Raise e => Raise (InvalidAuth e)
     end,
     snd (NatureRemoAPI.get (client token) h)).
Proof.
  unfold _validate_token, try_except, bind, ret, raise, client.
  now destruct (NatureRemoAPI.get _ h) as [[v|e] h'].
Qed.

(** Removing a stored entry succeeds and takes out the entries of its id. *)
Lemma async_remove_stored (e : ConfigEntry.t) (h : HomeAssistant.t) :
  List.In e (config_entries h) ->
  async_remove (ConfigEntry.entry_id e) h =
    (Ok tt, removing (ConfigEntry.entry_id e) h).
Proof.
  intro Hin. unfold async_remove.
  assert (H : existsb (fun e' => String.eqb (ConfigEntry.entry_id e')
                                            (ConfigEntry.entry_id e))
                      (config_entries h) = true).
  { apply existsb_exists. exists e. split; [exact Hin|].
    apply String.eqb_refl. }
  now rewrite H.
Qed.

(** The part of the user step after the stored entries. *)
Lemma user_try_eq (input : option value) (h : HomeAssistant.t) :
  bind
    (match input with
     | Some user_input =>
         try_except
           (bind (lift (getitem user_input (PyStr CONF_ACCESS_TOKEN)))
              (fun token =>
               bind (_validate_token token)
                 (fun _ =>
                  bind (lift (getitem user_input (PyStr CONF_ACCESS_TOKEN)))
                    (fun token' =>
                     bind (lift (getitem user_input
                                   (PyStr _CONF_UPDATE_INTERVAL)))
                       (fun interval =>
                        ret (inl (async_create_entry "Nature Remo"
                                    [(PyStr CONF_ACCESS_TOKEN, token');
                                     (PyStr _CONF_UPDATE_INTERVAL,
                                      interval)])))))))
           (fun err => ret (inr (base_error err)))
     | None => ret (inr [])
     end)
    (fun outcome =>
       match outcome with
       | inl created => ret created
       | inr errors =>
           ret (async_show_form "user" user_data_schema errors
                                description_placeholders)
       end) h =
  user_submit input h.
Proof.
  unfold user_submit, bind, try_except, lift, ret, user_form_with, entry_data,
    CONF_ACCESS_TOKEN, _CONF_UPDATE_INTERVAL.
  destruct input as [user_input|]; [|reflexivity].
  destruct (getitem user_input (PyStr "access_token")) as [token|e];
    [|reflexivity].
  rewrite validate_token_eq.
  destruct (NatureRemoAPI.get (client token) h) as [[v|e] h1]; simpl;
    [|reflexivity].
  now destruct (getitem user_input (PyStr "update_interval")).
Qed.

(** The user step, case by case: stopped by a configured entry, or run on
    the store as it is once the first entry in an error state is removed. *)
Lemma async_step_user_eq (input : option value) (h : HomeAssistant.t) :
  async_step_user input h =
    match find ConfigEntry.in_error_state (config_entries h) with
    | Some e => user_submit input (removing (ConfigEntry.entry_id e) h)
    | None =>
        match config_entries h with
        | [] => user_submit input h
        | _ :: _ => (Ok (async_abort "already_configured"), h)
        end
    end.
Proof.
  unfold async_step_user.
  unfold bind at 1. unfold gets at 1. cbv beta iota.
  destruct (find ConfigEntry.in_error_state (config_entries h)) as [e|] eqn:Ef.
  - pose proof (find_some _ _ Ef) as [Hin _].
    destruct (config_entries h) as [|e0 es] eqn:Eh; [discriminate|].
    rewrite <- Eh in *.
    unfold bind at 1. unfold bind at 1. unfold try_except at 1.
    rewrite (async_remove_stored e h Hin). unfold ret at 1 2. cbv beta iota.
    change (negb true) with false. cbv iota.
    apply user_try_eq.
  - destruct (config_entries h) as [|e0 es] eqn:Eh.
    + unfold bind at 1. unfold ret at 1. simpl. apply user_try_eq.
    + reflexivity.
Qed.

Lemma async_step_reconfigure_eq (id : string) (input : option value)
    (h : HomeAssistant.t) :
  async_step_reconfigure id input h =
    match entry_with_id id h with
    | None => (Ok (async_abort "not_found"), h)
    | Some entry =>
        if ConfigEntry.in_error_state entry
        then async_step_user input (removing (ConfigEntry.entry_id entry) h)
        else reconfigure_submit entry input h
    end.
Proof.
  unfold async_step_reconfigure, entry_with_id, async_get_entry.
  unfold bind at 1. unfold gets at 1. cbv beta iota.
  destruct (find _ (config_entries h)) as [entry|] eqn:Ef; [|reflexivity].
  pose proof (find_some _ _ Ef) as [Hin _].
  destruct (ConfigEntry.in_error_state entry).
  - unfold bind at 1. unfold try_except at 1.
    now rewrite (async_remove_stored entry h Hin).
  - unfold reconfigure_submit, bind, try_except, lift, ret,
      reconfigure_form_with, entry_data, async_update_entry,
      modify, with_data, CONF_ACCESS_TOKEN, _CONF_UPDATE_INTERVAL.
    destruct input as [user_input|]; [|reflexivity].
    destruct (getitem user_input (PyStr "access_token")) as [token|e];
      [|reflexivity].
    rewrite validate_token_eq.
    destruct (NatureRemoAPI.get (client token) h) as [[v|e] h1]; simpl;
      [|reflexivity].
    destruct (getitem user_input (PyStr "update_interval")) as [interval|e];
      [|reflexivity].
    cbv beta iota.
    now destruct (async_reload (ConfigEntry.entry_id entry) _) as [[[]|e] h2].
Qed.

Lemma async_step_import_eq (import_info : value) (h : HomeAssistant.t) :
  async_step_import import_info h =
    match config_entries h with
    | _ :: _ => (Ok (async_abort "already_configured"), h)
    | [] =>
        match Py.get import_info (PyStr "access_token") PyNone with
        | Raise e => (Raise e, h)
        | Ok token =>
            if truthy token then
              match NatureRemoAPI.get (client token) h with
              | (Ok _, h1) =>
                  (Ok (async_create_entry "Nature Remo"
                         (entry_data token (PyInt 60))), h1)
              | (Raise _, h1) => (Ok (async_abort "invalid_auth"), h1)
              end
            else (Ok (async_abort "invalid_yaml_config"), h)
        end
    end.
Proof.
  unfold async_step_import, bind, gets, lift, try_except, ret,
    CONF_ACCESS_TOKEN, _CONF_UPDATE_INTERVAL, entry_data.
  destruct (config_entries h); [|reflexivity].
  destruct (Py.get import_info (PyStr "access_token") PyNone) as [token|e];
    [|reflexivity].
  destruct (truthy token); [|reflexivity]. simpl.
  rewrite validate_token_eq.
  now destruct (NatureRemoAPI.get (client token) h) as [[v|e] h1].
Qed.


Lemma get_entries (api : NatureRemoAPI.t) (h : HomeAssistant.t) :
  config_entries (snd (NatureRemoAPI.get api h)) = config_entries h.
Proof. now rewrite get_state. Qed.

Lemma user_submit_ok (input : option value) (h : HomeAssistant.t) :
  exists r, fst (user_submit input h) = Ok r.
Proof.
  unfold user_submit. destruct input as [ui|]; [|now eexists].
  destruct (getitem ui (PyStr "access_token")) as [token|e]; [|now eexists].
  destruct (NatureRemoAPI.get (client token) h) as [[v|e] h1]; [|now eexists].
  destruct (getitem ui (PyStr "update_interval")); now eexists.
Qed.

Lemma user_submit_entries (input : option value) (h : HomeAssistant.t) :
  config_entries (snd (user_submit input h)) = config_entries h.
Proof.
  unfold user_submit. destruct input as [ui|]; [|reflexivity].
  destruct (getitem ui (PyStr "access_token")) as [token|e]; [|reflexivity].
  pose proof (get_entries (client token) h) as Hg.
  destruct (NatureRemoAPI.get (client token) h) as [[v|e] h1]; simpl in Hg;
    [|exact Hg].
  now destruct (getitem ui (PyStr "update_interval")).
Qed.

Lemma user_submit_no_abort (input : option value) (h : HomeAssistant.t)
    (reason : string) :
  fst (user_submit input h) <> Ok (async_abort reason).
Proof.
  unfold user_submit. destruct input as [ui|]; [|discriminate].
  destruct (getitem ui (PyStr "access_token")) as [token|e]; [|discriminate].
  destruct (NatureRemoAPI.get (client token) h) as [[v|e] h1]; [|discriminate].
  destruct (getitem ui (PyStr "update_interval")); discriminate.
Qed.

Lemma async_step_user_ok (input : option value) (h : HomeAssistant.t) :
  exists r, fst (async_step_user input h) = Ok r.
Proof.
  rewrite async_step_user_eq.
  destruct (find _ (config_entries h)); [apply user_submit_ok|].
  destruct (config_entries h); [apply user_submit_ok | now eexists].
Qed.

Lemma reconfigure_submit_ok (entry : ConfigEntry.t) (input : option value)
    (h : HomeAssistant.t) :
  exists r, fst (reconfigure_submit entry input h) = Ok r.
Proof.
  unfold reconfigure_submit. destruct input as [ui|]; [|now eexists].
  destruct (getitem ui (PyStr "access_token")) as [token|e]; [|now eexists].
  destruct (NatureRemoAPI.get (client token) h) as [[v|e] h1]; [|now eexists].
  destruct (getitem ui (PyStr "update_interval")); [|now eexists].
  destruct (async_reload _ _) as [[[]|e] h2]; now eexists.
Qed.

(** X5: the user step and the reconfigure step never raise: whatever the
    input, the stored entries and the cloud do, they end with a result (an
    abort, a form, possibly with a base error, or a created entry). *)
Theorem user_and_reconfigure_steps_never_raise
    (input : option value) (h : HomeAssistant.t) :
  (exists r, fst (async_step_user input h) = Ok r) /\
  (forall id, exists r, fst (async_step_reconfigure id input h) = Ok r).
Proof.
  split; [apply async_step_user_ok|].
  intro id. rewrite async_step_reconfigure_eq.
  destruct (entry_with_id id h) as [entry|]; [|now eexists].
  destruct (ConfigEntry.in_error_state entry);
    [apply async_step_user_ok | apply reconfigure_submit_ok].
Qed.

(** X6: when entries are stored and none is in an error state, the user
    step aborts with "already_configured" whatever was submitted: it sends
    no request and leaves the store as it is. *)
Theorem user_step_stops_when_configured
    (input : option value) (h : HomeAssistant.t) :
  config_entries h <> [] ->
  forallb (fun e => negb (ConfigEntry.in_error_state e)) (config_entries h) = true ->
  async_step_user input h = (Ok (async_abort "already_configured"), h).
Proof.
  intros Hne Hall. rewrite async_step_user_eq.
  destruct (find ConfigEntry.in_error_state (config_entries h)) as [e|] eqn:Ef.
  - apply find_some in Ef as [Hin He].
    rewrite forallb_forall in Hall. specialize (Hall e Hin).
    rewrite He in Hall. discriminate.
  - destruct (config_entries h); [contradiction | reflexivity].
Qed.

(** X7: when a stored entry is in an error state, the user step removes
    the first such entry (the entries of its id) and goes on as on the
    remaining store; it never aborts then, also when other entries are
    configured. *)
Theorem user_step_removes_first_failed_entry
    (input : option value) (h : HomeAssistant.t) (e : ConfigEntry.t) :
  find ConfigEntry.in_error_state (config_entries h) = Some e ->
  config_entries (snd (async_step_user input h)) =
    without (ConfigEntry.entry_id e) (config_entries h) /\
  (forall reason, fst (async_step_user input h) <> Ok (async_abort reason)) /\
  async_step_user input h =
    user_submit input (removing (ConfigEntry.entry_id e) h).
Proof.
  intro Hf. rewrite async_step_user_eq, Hf.
  split; [now rewrite user_submit_entries|].
  split; [intro reason; apply user_submit_no_abort | reflexivity].
Qed.

(** X8: with nothing stored, the user step creates an entry exactly when
    the input has an access token and an update interval and the fetch with
    that token succeeds; the entry is titled "Nature Remo" and its data are
    those two values, nothing else of the input. *)
Theorem user_step_creates_entry_iff
    (input : value) (h : HomeAssistant.t) (title : string) (data : dict) :
  config_entries h = [] ->
  (fst (async_step_user (Some input) h) = Ok (async_create_entry title data) <->
   title = "Nature Remo" /\
   exists token interval,
     getitem input (PyStr "access_token") = Ok token /\
     getitem input (PyStr "update_interval") = Ok interval /\
     is_ok (fst (NatureRemoAPI.get (client token) h)) = true /\
     data = [(PyStr "access_token", token); (PyStr "update_interval", interval)]).
Proof.
  intro Hnone. rewrite async_step_user_eq, Hnone. simpl.
  unfold user_submit, user_form_with, entry_data.
  split.
  - destruct (getitem input (PyStr "access_token")) as [token|e]; [|discriminate].
    destruct (NatureRemoAPI.get (client token) h) as [[v|e] h1] eqn:Eg;
      [|discriminate].
    destruct (getitem input (PyStr "update_interval")) as [interval|e];
      [|discriminate].
    simpl. intro H. injection H as <- <-. split; [reflexivity|].
    exists token, interval. now rewrite Eg.
  - intros (-> & token & interval & Ht & Hi & Hok & ->).
    rewrite Ht, Hi.
    destruct (NatureRemoAPI.get (client token) h) as [[v|e] h1];
      [reflexivity | discriminate].
Qed.


(** X9: the import step aborts before any request when an entry is stored
    (in an error state or not) or when the YAML has no token or a falsy
    one: the state is left as it was. *)
Theorem import_step_stops_before_any_request
    (import_info : value) (h : HomeAssistant.t) :
  config_entries h <> [] \/
  (exists token,
     Py.get import_info (PyStr "access_token") PyNone = Ok token /\
     truthy token = false) ->
  exists reason,
    async_step_import import_info h = (Ok (async_abort reason), h) /\
    (reason = "already_configured" \/ reason = "invalid_yaml_config").
Proof.
  rewrite async_step_import_eq. intros [Hne|(token & Ht & Hf)].
  - destruct (config_entries h); [contradiction|]. eexists. split; eauto.
  - destruct (config_entries h); [|eexists; split; eauto].
    rewrite Ht, Hf. eexists. split; eauto.
Qed.

(** X10: with nothing stored, a truthy token and a successful fetch, the
    import step creates the entry with the interval 60, a value of the
    allow-list, whatever else the YAML section holds. *)
Theorem import_step_stores_the_default_interval
    (import_info token payload : value) (h : HomeAssistant.t) :
  config_entries h = [] ->
  Py.get import_info (PyStr "access_token") PyNone = Ok token ->
  truthy token = true ->
  fst (NatureRemoAPI.get (client token) h) = Ok payload ->
  fst (async_step_import import_info h) =
    Ok (async_create_entry "Nature Remo"
          [(PyStr "access_token", token); (PyStr "update_interval", PyInt 60)]) /\
  outside_allow_list (PyInt 60) = false.
Proof.
  intros Hnone Ht Htruthy Hget. rewrite async_step_import_eq, Hnone, Ht, Htruthy.
  destruct (NatureRemoAPI.get (client token) h) as [[v|e] h1];
    [split; reflexivity | discriminate].
Qed.





Lemma reconfigure_submit_entries (entry : ConfigEntry.t) (input : option value)
    (h : HomeAssistant.t) :
  config_entries (snd (reconfigure_submit entry input h)) = config_entries h \/
  exists user_input token interval,
    input = Some user_input /\
    getitem user_input (PyStr "access_token") = Ok token /\
    getitem user_input (PyStr "update_interval") = Ok interval /\
    is_ok (fst (NatureRemoAPI.get (client token) h)) = true.
Proof.
  unfold reconfigure_submit. destruct input as [ui|]; [|now left].
  destruct (getitem ui (PyStr "access_token")) as [token|e] eqn:Et; [|now left].
  pose proof (get_entries (client token) h) as Hg.
  destruct (NatureRemoAPI.get (client token) h) as [[v|e] h1] eqn:Eg;
    simpl in Hg; [|now left].
  destruct (getitem ui (PyStr "update_interval")) as [interval|e] eqn:Ei;
    [|now left].
  right. exists ui, token, interval. rewrite Eg. auto.
Qed.

(** X11: the reconfigure step changes the stored entries only when the
    entry it is about is in an error state (it is removed) or once the
    input gave a token and an interval and the fetch with that token went
    through; an unknown entry, a missing input, a missing key or a failed
    fetch leave the store as it was. *)
Theorem reconfigure_step_changes_the_store_only_after_validation
    (id : string) (input : option value) (h : HomeAssistant.t) :
  config_entries (snd (async_step_reconfigure id input h)) = config_entries h \/
  exists entry,
    entry_with_id id h = Some entry /\
    (ConfigEntry.in_error_state entry = true \/
     exists user_input token interval,
       input = Some user_input /\
       getitem user_input (PyStr "access_token") = Ok token /\
       getitem user_input (PyStr "update_interval") = Ok interval /\
       is_ok (fst (NatureRemoAPI.get (client token) h)) = true).
Proof.
  rewrite async_step_reconfigure_eq.
  destruct (entry_with_id id h) as [entry|]; [|now left].
  destruct (ConfigEntry.in_error_state entry) eqn:E.
  - right. exists entry. auto.
  - destruct (reconfigure_submit_entries entry input h) as [H|H];
      [now left | right; exists entry; auto].
Qed.






Lemma validate_items_user (items : dict) :
  Vol.validate_items user_data_schema items =
    if forallb allowed_item items then Ok items else Raise Invalid.
Proof.
  induction items as [|[k v] rest IH]; [reflexivity|].
  cbn [Vol.validate_items forallb]. rewrite IH.
  destruct (forallb allowed_item rest);
    unfold Vol.field_for, allowed_item, user_data_schema,
      CONF_ACCESS_TOKEN, _CONF_UPDATE_INTERVAL; simpl;
    (destruct (eq_str k "access_token");
     [destruct v; reflexivity|]);
    (destruct (eq_str k "update_interval"); [|reflexivity]);
    simpl;
    match goal with
    | |- context [if ?b then Ok v else Raise Invalid] => now destruct b
    end.
Qed.

Lemma present_app (name : string) (items more : dict) :
  Vol.present name (items ++ more) = Vol.present name items || Vol.present name more.
Proof.
  unfold Vol.present, dict_find. rewrite find_app.
  destruct (find (has_key (KStr name)) items); simpl; [reflexivity|].
  now destruct (find (has_key (KStr name)) more).
Qed.

(** X16: the user form's schema accepts exactly the dicts that hold an
    access token and whose every item is the token with a string or the
    interval with a value of the allow-list; it returns them unchanged,
    with the interval 60 appended when none was given, and raises [Invalid]
    for everything else. *)
Theorem user_form_accepts_exactly (input : value) :
  Vol.validate user_data_schema input =
    match input with
    | PyDict items =>
        if Vol.present "access_token" items && forallb allowed_item items
        then Ok (PyDict (if Vol.present "update_interval" items then items
                         else items ++ [(PyStr "update_interval", PyInt 60)]))
        else Raise Invalid
    | _ => Raise Invalid
    end.
Proof.
  destruct input as [| | | | | |items]; try reflexivity.
  unfold Vol.validate.
  assert (Hd : Vol.add_defaults user_data_schema items =
               if Vol.present "update_interval" items then items
               else items ++ [(PyStr "update_interval", PyInt 60)]).
  { unfold user_data_schema, CONF_ACCESS_TOKEN, _CONF_UPDATE_INTERVAL.
    cbn [Vol.add_defaults Vol.default Vol.key_name].
    now destruct (Vol.present "update_interval" items). }
  rewrite Hd, validate_items_user.
  unfold user_data_schema at 1. unfold CONF_ACCESS_TOKEN, _CONF_UPDATE_INTERVAL.
  cbn [forallb Vol.key_name].
  destruct (Vol.present "update_interval" items) eqn:Ep.
  - rewrite Ep, !andb_true_r.
    destruct (Vol.present "access_token" items); simpl; [|reflexivity].
    now destruct (forallb allowed_item items).
  - rewrite !present_app, forallb_app.
    replace (Vol.present "update_interval"
               [(PyStr "update_interval", PyInt 60)]) with true by reflexivity.
    replace (Vol.present "access_token"
               [(PyStr "update_interval", PyInt 60)]) with false by reflexivity.
    replace (forallb allowed_item [(PyStr "update_interval", PyInt 60)])
      with true by reflexivity.
    rewrite !orb_false_r, !orb_true_r, !andb_true_r.
    destruct (Vol.present "access_token" items); simpl; [|reflexivity].
    now destruct (forallb allowed_item items).
Qed.

End FlowCoverage.

Section FlowCoverageExamples.

Import HomeAssistant Init NatureRemoConfigFlow Spec ApiSpec FlowSpec.
Import Examples FlowExamples.

Lemma user_step_stops_when_configured_witness :
  async_step_user (Some (user_input (PyInt 60))) (hass_storing [entry_v2]) =
    (Ok (async_abort "already_configured"), hass_storing [entry_v2]).
Proof.
  apply (user_step_stops_when_configured (Some (user_input (PyInt 60)))
           (hass_storing [entry_v2])).
  - discriminate.
  - reflexivity.
Defined.

Lemma user_step_removes_first_failed_entry_witness :
  config_entries
    (snd (async_step_user (Some (user_input (PyInt 60)))
            (hass_storing [entry_v2; entry_failed; entry_v1]))) =
    without "01J2" [entry_v2; entry_failed; entry_v1] /\
  (forall reason,
     fst (async_step_user (Some (user_input (PyInt 60)))
            (hass_storing [entry_v2; entry_failed; entry_v1])) <>
     Ok (async_abort reason)) /\
  async_step_user (Some (user_input (PyInt 60)))
    (hass_storing [entry_v2; entry_failed; entry_v1]) =
    user_submit (Some (user_input (PyInt 60)))
      (removing "01J2" (hass_storing [entry_v2; entry_failed; entry_v1])).
Proof.
  apply (user_step_removes_first_failed_entry (Some (user_input (PyInt 60)))
           (hass_storing [entry_v2; entry_failed; entry_v1]) entry_failed).
  reflexivity.
Defined.

(** Beside the configured entry a second one is created. *)
Example user_step_second_entry :
  fst (async_step_user (Some (user_input (PyInt 60)))
         (hass_storing [entry_v2; entry_failed])) =
    Ok (async_create_entry "Nature Remo"
          [(PyStr "access_token", PyStr "secret");
           (PyStr "update_interval", PyInt 60)]).
Proof. reflexivity. Qed.

Lemma user_step_creates_entry_iff_witness :
  fst (async_step_user (Some (user_input (PyInt 30))) (hass_with cloud)) =
    Ok (async_create_entry "Nature Remo"
          [(PyStr "access_token", PyStr "secret");
           (PyStr "update_interval", PyInt 30)]) <->
  "Nature Remo" = "Nature Remo" /\
  exists token interval,
    getitem (user_input (PyInt 30)) (PyStr "access_token") = Ok token /\
    getitem (user_input (PyInt 30)) (PyStr "update_interval") = Ok interval /\
    is_ok (fst (NatureRemoAPI.get (client token) (hass_with cloud))) = true /\
    [(PyStr "access_token", PyStr "secret");
     (PyStr "update_interval", PyInt 30)] =
    [(PyStr "access_token", token); (PyStr "update_interval", interval)].
Proof.
  apply (user_step_creates_entry_iff (user_input (PyInt 30)) (hass_with cloud)).
  reflexivity.
Defined.

Lemma import_step_stops_before_any_request_witness :
  (exists reason,
     async_step_import yaml (hass_storing [entry_failed]) =
       (Ok (async_abort reason), hass_storing [entry_failed]) /\
     (reason = "already_configured" \/ reason = "invalid_yaml_config")) /\
  (exists reason,
     async_step_import yaml_empty_token (hass_with cloud) =
       (Ok (async_abort reason), hass_with cloud) /\
     (reason = "already_configured" \/ reason = "invalid_yaml_config")).
Proof.
  split.
  - apply (import_step_stops_before_any_request yaml
             (hass_storing [entry_failed])).
    left. discriminate.
  - apply (import_step_stops_before_any_request yaml_empty_token
             (hass_with cloud)).
    right. exists (PyStr ""). split; reflexivity.
Defined.

Lemma import_step_stores_the_default_interval_witness :
  fst (async_step_import yaml (hass_with cloud)) =
    Ok (async_create_entry "Nature Remo"
          [(PyStr "access_token", PyStr "secret");
           (PyStr "update_interval", PyInt 60)]) /\
  outside_allow_list (PyInt 60) = false.
Proof.
  eapply (import_step_stores_the_default_interval yaml (PyStr "secret") _
            (hass_with cloud)); reflexivity.
Defined.


(** An entry the host cannot unload: the reload is refused, the step shows
    the form with the base error "unknown", and the submitted data are
    stored all the same. *)
Example reconfigure_when_the_reload_is_refused :
  fst (async_step_reconfigure "01J3" (Some (user_input (PyInt 90)))
         (hass_storing [entry_stuck])) =
    Ok (reconfigure_form_with entry_stuck [("base", "unknown")]) /\
  config_entries
    (snd (async_step_reconfigure "01J3" (Some (user_input (PyInt 90)))
            (hass_storing [entry_stuck]))) =
    [ {| ConfigEntry.entry_id := "01J3";
         ConfigEntry.version := 2;
         ConfigEntry.state := ConfigEntry.FAILED_UNLOAD;
         ConfigEntry.data := [(PyStr "access_token", PyStr "secret");
                              (PyStr "update_interval", PyInt 90)] |} ].
Proof. split; reflexivity. Qed.


(** Seven seconds do not get into a stored entry that way. *)
Example reconfigure_submit_7 :
  async_configure reconfigure_form (async_step_reconfigure "01J1")
    (Some (user_input (PyInt 7))) (hass_storing [entry_v1; entry_v2]) =
    (Raise Invalid, hass_storing [entry_v1; entry_v2]).
Proof. reflexivity. Qed.

(** An input with a key of its own, or with a number for the token, is
    refused; so is everything that is not a dict. *)
Example user_form_refuses :
  Vol.validate user_data_schema
    (obj [("access_token", PyStr "secret"); ("label", PyStr "home")]) =
    Raise Invalid /\
  Vol.validate user_data_schema (obj [("access_token", PyInt 1234)]) =
    Raise Invalid /\
  Vol.validate user_data_schema (obj [("update_interval", PyInt 60)]) =
    Raise Invalid /\
  Vol.validate user_data_schema (PyList []) = Raise Invalid.
Proof. repeat split. Qed.

End FlowCoverageExamples.

(** ** More on the entities *)

Section EntityCoverage.

Import HomeAssistant Init Sensor Spec ApiSpec EntitySpec.

(** X17: when the snapshot no longer holds the appliance or device an
    entity is bound to, reading the entity's [state] raises [KeyError] with
    the id it looked up. *)
Theorem state_of_a_vanished_entity_raises
    (c : DataUpdateCoordinator.t) (appliances devices : dict)
    (x : entity) (id : value) (k : key) :
  DataUpdateCoordinator.data c = snapshot appliances devices ->
  bound_id x = Ok id ->
  hash_key id = Some k ->
  dict_find k (mapping_of x appliances devices) = None ->
  Sensor.state c x = Raise (KeyError id).
Proof.
  intros Hdata Hid Hk Hnone.
  destruct x as [e|e|e|e]; simpl in *.
  - injection Hid as <-. unfold NatureRemoE.state. rewrite Hdata. simpl.
    now rewrite Hk, Hnone.
  - unfold NatureRemoTemperatureSensor.state, newest_event_val.
    rewrite Hdata, Hid. simpl. now rewrite Hk, Hnone.
  - unfold NatureRemoHumiditySensor.state, newest_event_val.
    rewrite Hdata, Hid. simpl. now rewrite Hk, Hnone.
  - unfold NatureRemoIlluminanceSensor.state, newest_event_val.
    rewrite Hdata, Hid. simpl. now rewrite Hk, Hnone.
Qed.

Lemma smart_meters_broken (appliances : list value) (a : value) :
  List.In a appliances ->
  broken_appliance a = true ->
  exists e, smart_meters appliances = Raise e.
Proof.
  intros Hin Hb. induction appliances as [|a0 rest IH]; [contradiction|].
  simpl. destruct Hin as [->|Hin].
  - unfold broken_appliance, has_field in Hb.
    destruct (getitem a (PyStr "type")) as [t|e]; [discriminate|].
    now exists e.
  - destruct (IH Hin) as [e He]. rewrite He.
    destruct (getitem a0 (PyStr "type")) as [t|e0]; [|now exists e0].
    destruct (eq_str t "EL_SMART_METER"); [|now exists e].
    destruct (NatureRemoE.__init__ a0) as [x|e0]; [now exists e | now exists e0].
Qed.

Lemma all_device_sensors_broken (devices : list value) (d : value) :
  List.In d devices ->
  broken_device d = true ->
  forall entities, exists e, all_device_sensors devices entities = Raise e.
Proof.
  intros Hin Hb. induction devices as [|d0 rest IH]; [contradiction|].
  intro entities. simpl. destruct Hin as [->|Hin].
  - unfold broken_device, has_field in Hb.
    destruct (getitem d (PyStr "name")) as [n|e]; [|now exists e].
    destruct (getitem d (PyStr "newest_events")) as [ev|e]; [discriminate|].
    now exists e.
  - destruct (getitem d0 (PyStr "name")) as [n|e]; [|now exists e].
    destruct (getitem d0 (PyStr "newest_events")) as [ev|e]; [|now exists e].
    destruct (keys ev) as [ks|e]; [|now exists e].
    destruct (device_sensors d0 ks entities) as [out|e]; [|now exists e].
    apply (IH Hin).
Qed.

(** X20: one appliance without a "type", or one device without a "name"
    or without "newest_events", makes the whole sensor setup raise: no
    entity is handed over, not those of the sound elements either. *)
Theorem setup_adds_nothing_when_one_element_is_broken
    (c : DataUpdateCoordinator.t) (appliances devices : dict) :
  DataUpdateCoordinator.data c = snapshot appliances devices ->
  existsb broken_appliance (map snd appliances) ||
  existsb broken_device (map snd devices) = true ->
  exists e, Sensor.async_setup_entry c = Raise e.
Proof.
  intros Hdata Hb. unfold Sensor.async_setup_entry. rewrite Hdata. simpl.
  apply orb_true_iff in Hb as [Hb|Hb]; apply existsb_exists in Hb as (y & Hin & Hy).
  - destruct (smart_meters_broken _ y Hin Hy) as [e ->]. now exists e.
  - destruct (smart_meters (map snd appliances)) as [es|e]; [|now exists e].
    apply (all_device_sensors_broken _ y Hin Hy).
Qed.


Lemma fetched_found (h : HomeAssistant.t) (req : request) (d : dict) :
  fetched h req = Ok d -> found_under_own_id d.
Proof.
  unfold fetched.
  destruct (respond h (sent h) req) as [r|e]; [|discriminate].
  destruct (bad_status (status r)); [discriminate|].
  destruct (json r) as [body|e]; [|discriminate].
  apply dict_by_id_found.
Qed.

Lemma eq_str_true (v : value) (s : string) : eq_str v s = true -> v = PyStr s.
Proof.
  destruct v; simpl; try discriminate.
  intro H. apply String.eqb_eq in H. now subst.
Qed.

Lemma init_renamed_device (suffix : string) (d : value) (e : NatureRemoDeviceBase.t) :
  init_renamed suffix d = Ok e -> NatureRemoDeviceBase._device e = d.
Proof.
  unfold init_renamed, NatureRemoDeviceBase.__init__.
  destruct (getitem d (PyStr "name")); [|discriminate].
  destruct (getitem d (PyStr "id")); [|discriminate].
  intro H. now injection H as <-.
Qed.

Lemma device_sensors_in (d : value) (ks : list value) (x : entity) :
  forall acc out,
  device_sensors d ks acc = Ok out ->
  List.In x out ->
  List.In x acc \/ made_of d ks x.
Proof.
  induction ks as [|k rest IH]; simpl; intros acc out H Hin.
  - injection H as <-. now left.
  - assert (Hmono : made_of d rest x -> made_of d (k :: rest) x).
    { intros (kd & Hk & Hr & Hd). exists kd. simpl. auto. }
    destruct (eq_str k "te") eqn:Ete.
    { destruct (NatureRemoTemperatureSensor.__init__ d) as [e|e0] eqn:Ei;
        [|discriminate].
      destruct (IH _ _ H Hin) as [Hacc|Hm]; [|right; auto].
      apply in_app_or in Hacc as [Hacc|[<-|[]]]; [now left|].
      right. exists "te". simpl. apply eq_str_true in Ete.
      repeat split; [now left|]. now apply init_renamed_device in Ei. }
    destruct (eq_str k "hu") eqn:Ehu.
    { destruct (NatureRemoHumiditySensor.__init__ d) as [e|e0] eqn:Ei;
        [|discriminate].
      destruct (IH _ _ H Hin) as [Hacc|Hm]; [|right; auto].
      apply in_app_or in Hacc as [Hacc|[<-|[]]]; [now left|].
      right. exists "hu". simpl. apply eq_str_true in Ehu.
      repeat split; [now left|]. now apply init_renamed_device in Ei. }
    destruct (eq_str k "il") eqn:Eil.
    { destruct (NatureRemoIlluminanceSensor.__init__ d) as [e|e0] eqn:Ei;
        [|discriminate].
      destruct (IH _ _ H Hin) as [Hacc|Hm]; [|right; auto].
      apply in_app_or in Hacc as [Hacc|[<-|[]]]; [now left|].
      right. exists "il". simpl. apply eq_str_true in Eil.
      repeat split; [now left|]. now apply init_renamed_device in Ei. }
    destruct (IH _ _ H Hin) as [Hacc|Hm]; [now left | right; auto].
Qed.

Lemma all_device_sensors_in (devices : list value) (x : entity) :
  forall acc out,
  all_device_sensors devices acc = Ok out ->
  List.In x out ->
  List.In x acc \/
  exists d events ks,
    List.In d devices /\
    getitem d (PyStr "newest_events") = Ok events /\
    keys events = Ok ks /\ made_of d ks x.
Proof.
  induction devices as [|d rest IH]; simpl; intros acc out H Hin.
  - injection H as <-. now left.
  - destruct (getitem d (PyStr "name")); [|discriminate].
    destruct (getitem d (PyStr "newest_events")) as [ev|] eqn:Eev;
      [|discriminate].
    destruct (keys ev) as [ks|] eqn:Ek; [|discriminate].
    destruct (device_sensors d ks acc) as [mid|] eqn:Ed; [|discriminate].
    destruct (IH _ _ H Hin) as [Hmid|(d' & ev' & ks' & Hd' & Hrest)].
    + destruct (device_sensors_in d ks x _ _ Ed Hmid) as [Hacc|Hm];
        [now left|].
      right. exists d, ev, ks. auto.
    + right. exists d', ev', ks'. auto.
Qed.

Lemma smart_meters_only_energy (appliances : list value) :
  forall es x,
  smart_meters appliances = Ok es -> List.In x es -> kind_key x = None.
Proof.
  induction appliances as [|a rest IH]; simpl; intros es x H Hin.
  - injection H as <-. contradiction.
  - destruct (getitem a (PyStr "type")) as [t|]; [|discriminate].
    destruct (eq_str t "EL_SMART_METER"); [|now apply (IH es)].
    destruct (NatureRemoE.__init__ a); [|discriminate].
    destruct (smart_meters rest) as [xs|]; [|discriminate].
    injection H as <-. destruct Hin as [<-|Hin]; [reflexivity|].
    now apply (IH xs).
Qed.

Lemma key_listed_is_found (items : dict) (k : string) :
  List.In (PyStr k) (map fst items) ->
  exists v, dict_find (KStr k) items = Some v.
Proof.
  unfold dict_find. induction items as [|[k0 v0] rest IH]; simpl; [contradiction|].
  intros [->|Hin].
  - unfold has_key. simpl. rewrite String.eqb_refl. now exists v0.
  - destruct (has_key (KStr k) (k0, v0)); [now exists v0|]. now apply IH.
Qed.

Lemma sensor_state_eq (c : DataUpdateCoordinator.t) (x : entity) (kd : string) :
  kind_key x = Some kd ->
  exists self,
    NatureRemoDeviceBase._device self = device_dict x /\
    Sensor.state c x = newest_event_val kd c self.
Proof.
  destruct x as [e|e|e|e]; simpl; intro H; try discriminate;
    injection H as <-; now exists e.
Qed.

(** X18: on the snapshot a [get] returned, every temperature, humidity or
    illuminance entity the setup creates finds its own device and the event
    of its kind: its [state] is the ["val"] lookup of that event, so it
    cannot fail for a missing device, "newest_events" or kind key there. *)
Theorem sensors_set_up_read_their_own_device
    (api : NatureRemoAPI.t) (h h' : HomeAssistant.t)
    (c : DataUpdateCoordinator.t) (entities : list entity)
    (x : entity) (kind : string) :
  NatureRemoAPI.get api h = (Ok (DataUpdateCoordinator.data c), h') ->
  Sensor.async_setup_entry c = Ok entities ->
  List.In x entities ->
  kind_key x = Some kind ->
  exists events event,
    getitem (device_dict x) (PyStr "newest_events") = Ok events /\
    getitem events (PyStr kind) = Ok event /\
    Sensor.state c x = getitem event (PyStr "val").
Proof.
  intros Hget Hsetup Hin Hkind.
  rewrite get_eq in Hget. cbv zeta in Hget.
  destruct (fetched h (appliances_request api)) as [A|] eqn:EA; [|discriminate].
  destruct (fetched _ (devices_request api)) as [D|] eqn:ED; [|discriminate].
  injection Hget as Hdata _. symmetry in Hdata.
  apply fetched_found in ED.
  unfold Sensor.async_setup_entry in Hsetup. rewrite Hdata in Hsetup.
  simpl in Hsetup.
  destruct (smart_meters (map snd A)) as [es|] eqn:Ees; [|discriminate].
  destruct (all_device_sensors_in _ x _ _ Hsetup Hin)
    as [Hes|(d & events & ks & Hd & Hev & Hks & kd & Hkd & Hk & Hdev)].
  { rewrite (smart_meters_only_energy _ _ _ Ees Hes) in Hkind. discriminate. }
  rewrite Hkind in Hkd. injection Hkd as <-.
  destruct events as [| | | | | |items]; try discriminate.
  injection Hks as <-.
  destruct (key_listed_is_found items kind Hk) as [event Hevent].
  exists (PyDict items), event. rewrite Hdev.
  split; [exact Hev|]. split; [simpl; now rewrite Hevent|].
  destruct (sensor_state_eq c x kind Hkind) as (self & Hself & ->).
  rewrite newest_event_val_eq.
  apply in_map_iff in Hd as ([kv d'] & Hsnd & Hitem). simpl in Hsnd. subst d'.
  destruct (ED kv d Hitem) as (i & Hi & Hfound).
  unfold device_of. rewrite Hdata. simpl.
  rewrite Hself, Hdev, Hi. simpl in Hfound. rewrite Hfound, Hev.
  simpl. now rewrite Hevent.
Qed.


Lemma list_of_append (a b : string) :
  list_ascii_of_string (a ++ b)%string =
    list_ascii_of_string a ++ list_ascii_of_string b.
Proof. induction a as [|c a IH]; simpl; [reflexivity | now rewrite IH]. Qed.

Lemma list_of_string_inj (a b : string) :
  list_ascii_of_string a = list_ascii_of_string b -> a = b.
Proof.
  intro H. rewrite <- (string_of_list_ascii_of_string a),
    <- (string_of_list_ascii_of_string b). now rewrite H.
Qed.

Lemma append_same_suffix (a b s : string) :
  (a ++ s)%string = (b ++ s)%string -> a = b.
Proof.
  intro H. apply list_of_string_inj.
  apply (f_equal list_ascii_of_string) in H.
  rewrite !list_of_append in H. now apply app_inv_tail in H.
Qed.

Lemma append_other_last (a b p q : string) (x y : ascii) :
  x <> y ->
  (a ++ (p ++ String x ""))%string <> (b ++ (q ++ String y ""))%string.
Proof.
  intros Hxy H. apply (f_equal list_ascii_of_string) in H.
  rewrite !list_of_append in H. simpl in H.
  rewrite !app_assoc in H. apply app_inj_tail in H as [_ H]. contradiction.
Qed.

Lemma unique_id_of (x : entity) (kind : string) (s : string) :
  kind_key x = Some kind ->
  getitem (device_dict x) (PyStr "id") = Ok (PyStr s) ->
  sensor_unique_id x = Ok (PyStr (s ++ ("-" ++ kind))%string).
Proof.
  destruct x as [e|e|e|e]; simpl; intros Hk Hid; try discriminate;
    injection Hk as <-;
    unfold NatureRemoTemperatureSensor.unique_id,
      NatureRemoHumiditySensor.unique_id,
      NatureRemoIlluminanceSensor.unique_id;
    now rewrite Hid.
Qed.

(** X19: for devices with string ids, two device sensors have the same
    [unique_id] only if they are of the same kind and of devices with the
    same id. *)
Theorem sensor_unique_ids_are_unique
    (x y : entity) (kx ky sx sy : string) :
  kind_key x = Some kx ->
  kind_key y = Some ky ->
  getitem (device_dict x) (PyStr "id") = Ok (PyStr sx) ->
  getitem (device_dict y) (PyStr "id") = Ok (PyStr sy) ->
  sensor_unique_id x = sensor_unique_id y ->
  kx = ky /\ sx = sy.
Proof.
  intros Hkx Hky Hsx Hsy H.
  rewrite (unique_id_of x kx sx Hkx Hsx), (unique_id_of y ky sy Hky Hsy) in H.
  injection H as H.
  assert (Hkinds : forall z k, kind_key z = Some k ->
            k = "te" \/ k = "hu" \/ k = "il").
  { intros z k Hz. destruct z; simpl in Hz; try discriminate;
      injection Hz as <-; auto. }
  destruct (Hkinds x kx Hkx) as [-> | [-> | ->]];
    destruct (Hkinds y ky Hky) as [-> | [-> | ->]];
    try (split; [reflexivity | now apply append_same_suffix in H]);
    exfalso.
  - apply (append_other_last sx sy "-t" "-h" "e" "u"); [discriminate | exact H].
  - apply (append_other_last sx sy "-t" "-i" "e" "l"); [discriminate | exact H].
  - apply (append_other_last sx sy "-h" "-t" "u" "e"); [discriminate | exact H].
  - apply (append_other_last sx sy "-h" "-i" "u" "l"); [discriminate | exact H].
  - apply (append_other_last sx sy "-i" "-t" "l" "e"); [discriminate | exact H].
  - apply (append_other_last sx sy "-i" "-h" "l" "u"); [discriminate | exact H].
Qed.

End EntityCoverage.

Section EntityCoverageExamples.

Import HomeAssistant Init Sensor Spec ApiSpec EntitySpec.
Import Examples EntityExamples.

Lemma state_of_a_vanished_entity_raises_witness :
  Sensor.state (coordinator_with home_without_meter) (E meter_entity) =
    Raise (KeyError (PyStr "a1")).
Proof.
  apply (state_of_a_vanished_entity_raises
           (coordinator_with home_without_meter)
           [(PyStr "a2", aircon)] [(PyStr "d1", remo)]
           (E meter_entity) (PyStr "a1") (KStr "a1"));
    reflexivity.
Defined.

Lemma setup_adds_nothing_when_one_element_is_broken_witness :
  exists e,
    Sensor.async_setup_entry (coordinator_with home_with_untyped) = Raise e.
Proof.
  eapply (setup_adds_nothing_when_one_element_is_broken
            (coordinator_with home_with_untyped)); reflexivity.
Defined.

Example setup_home_with_untyped :
  Sensor.async_setup_entry (coordinator_with home_with_untyped) =
    Raise (KeyError (PyStr "type")).
Proof. reflexivity. Qed.

Lemma sensors_set_up_read_their_own_device_witness :
  exists events event,
    getitem remo (PyStr "newest_events") = Ok events /\
    getitem events (PyStr "hu") = Ok event /\
    Sensor.state (coordinator_with home) (Humidity (remo_entity " Humidity")) =
      getitem event (PyStr "val").
Proof.
  eapply (sensors_set_up_read_their_own_device api (hass_with cloud) _
            (coordinator_with home) _ (Humidity (remo_entity " Humidity")) "hu").
  - reflexivity.
  - reflexivity.
  - simpl. right. right. now left.
  - reflexivity.
Defined.

Lemma sensor_unique_ids_are_unique_witness :
  "te" = "te" /\ "d1" = "d1".
Proof.
  apply (sensor_unique_ids_are_unique
           (Temperature (remo_entity " Temperature"))
           (Temperature (remo_entity " Temperature")) "te" "te" "d1" "d1");
    reflexivity.
Defined.

Example unique_ids_of_the_remo :
  sensor_unique_id (Temperature (remo_entity " Temperature")) =
    Ok (PyStr "d1-te") /\
  sensor_unique_id (Humidity (remo_entity " Humidity")) = Ok (PyStr "d1-hu") /\
  sensor_unique_id (Illuminance (remo_entity " Illuminance")) =
    Ok (PyStr "d1-il").
Proof. repeat split. Qed.

End EntityCoverageExamples.

(* ------------------------------------------------------------------ *)

Section NoticeCoverage.

Import InitSetup.

(** [async_setup], by what the file holds. *)
Lemma async_setup_eq (config : dict) (w : world) :
  async_setup config w =
    match dict_find (KStr "nature_remo") config with
    | None => (Ok true, w)
    | Some section =>
        if acknowledged_in (file w)
        then (Ok true,
              {| file := file w; on_write := on_write w;
                 service_error := service_error w;
                 done := done w ++ [StartImportFlow section] |})
        else match service_error w with
             | Some e => (Raise e, w)
             | None =>
                 (Ok true,
                  {| file := file w; on_write := on_write w;
                     service_error := service_error w;
                     done := done w ++
                             [CreateNotification notification_id;
                              ListenToAllEvents; KeepRemoveListener;
                              StartAutoAcknowledge; StartImportFlow section] |})
             end
    end.
Proof.
  destruct w as [f o s d].
  unfold async_setup, acknowledged_in, bind, try_except, read_file, lift, ret,
    doing, DOMAIN.
  assert (Happ : forall section : value,
             ((((d ++ [CreateNotification notification_id]) ++
                [ListenToAllEvents]) ++ [KeepRemoveListener]) ++
              [StartAutoAcknowledge]) ++ [StartImportFlow section] =
             d ++ [CreateNotification notification_id; ListenToAllEvents;
                   KeepRemoveListener; StartAutoAcknowledge;
                   StartImportFlow section]).
  { intro section. now rewrite <- !app_assoc. }
  destruct f as [|e|data]; simpl.
  - destruct (dict_find (KStr "nature_remo") config); [|reflexivity].
    destruct s; [reflexivity|]. simpl. now rewrite Happ.
  - destruct (dict_find (KStr "nature_remo") config); [|reflexivity].
    destruct s; [reflexivity|]. simpl. now rewrite Happ.
  - destruct (Py.get data (PyStr "acknowledged") (PyBool false)) as [flag|e];
      simpl.
    + destruct (dict_find (KStr "nature_remo") config); [|reflexivity].
      destruct (truthy flag); simpl; [reflexivity|].
      destruct s; [reflexivity|]. simpl. now rewrite Happ.
    + destruct (dict_find (KStr "nature_remo") config); [|reflexivity].
      destruct s; [reflexivity|]. simpl. now rewrite Happ.
Qed.

(** Once the flag is in the file, a setup asks for the import only. *)
Lemma setup_when_acknowledged (config : dict) (w : world) :
  acknowledged_in (file w) = true ->
  fst (async_setup config w) = Ok true /\
  done (snd (async_setup config w)) = done w ++ import_of config.
Proof.
  intro H. rewrite async_setup_eq. unfold import_of.
  destruct (dict_find (KStr "nature_remo") config); simpl.
  - rewrite H. simpl. auto.
  - rewrite app_nil_r. auto.
Qed.

(** What [auto_acknowledge] leaves, by what the file holds. *)
Lemma auto_acknowledge_eq (w : world) :
  corrupt (file w) = false ->
  on_write w = Written ->
  snd (auto_acknowledge w) =
    if acknowledged_in (file w) then w else with_file w (Holds acknowledged).
Proof.
  intros Hc Hw.
  unfold auto_acknowledge, acknowledged_in, bind, try_except, read_file,
    lift, ret, write_acknowledged.
  destruct (file w) as [|e|data]; simpl in *; try discriminate.
  - now rewrite Hw.
  - destruct data; try discriminate. simpl.
    destruct (dict_find (KStr "acknowledged") items) as [flag|]; simpl.
    + destruct (truthy flag); simpl; [reflexivity | now rewrite Hw].
    + now rewrite Hw.
Qed.

(** X21: when [log_all_events] sees an event whose type, in lower case,
    contains "notification" and whose data mention the notification id, and
    the file can be written, the file holds the acknowledged flag afterwards;
    the next [async_setup] then returns [True], creates no notification and
    registers nothing, and only starts the import flow for the YAML section,
    if there is one. *)
Theorem dismissed_notice_is_not_shown_again
    (ev : event) (w : world) (config : dict) :
  contains "notification" (lower (event_type ev)) = true ->
  contains notification_id (data_str ev) = true ->
  on_write w = Written ->
  file (snd (log_all_events ev w)) = Holds acknowledged /\
  fst (async_setup config (snd (log_all_events ev w))) = Ok true /\
  done (snd (async_setup config (snd (log_all_events ev w)))) =
    done w ++ import_of config.
Proof.
  intros Ht Hd Hw.
  assert (Hw' : snd (log_all_events ev w) = with_file w (Holds acknowledged)).
  { unfold log_all_events. rewrite Ht, Hd.
    unfold try_except, write_acknowledged. now rewrite Hw. }
  rewrite Hw'. split; [reflexivity|].
  now apply (setup_when_acknowledged config (with_file w (Holds acknowledged))).
Qed.

(** X22: when the state file is missing or holds a JSON object, and the file
    can be written, the file holds a truthy acknowledged flag after
    [auto_acknowledge]; a file that already held one is left as it was; and
    the next [async_setup] returns [True] and adds nothing but the import
    flow of the YAML section. *)
Theorem auto_acknowledge_silences_the_next_setup
    (w : world) (config : dict) :
  corrupt (file w) = false ->
  on_write w = Written ->
  acknowledged_in (file (snd (auto_acknowledge w))) = true /\
  (if acknowledged_in (file w)
   then snd (auto_acknowledge w) = w
   else file (snd (auto_acknowledge w)) = Holds acknowledged) /\
  fst (async_setup config (snd (auto_acknowledge w))) = Ok true /\
  done (snd (async_setup config (snd (auto_acknowledge w)))) =
    done w ++ import_of config.
Proof.
  intros Hc Hw. rewrite (auto_acknowledge_eq w Hc Hw).
  destruct (acknowledged_in (file w)) eqn:Ea.
  - split; [exact Ea|]. split; [reflexivity|].
    now apply setup_when_acknowledged.
  - split; [reflexivity|]. split; [reflexivity|].
    now apply (setup_when_acknowledged config
                 (with_file w (Holds acknowledged))).
Qed.


(** X24: [log_all_events] and [auto_acknowledge] never raise, whatever the
    file holds and however the write goes, and they ask nothing of the host;
    [log_all_events] leaves the file alone unless the event type contains
    "notification" and the event data contain the notification id. *)
Theorem acknowledging_never_raises (ev : event) (w : world) :
  fst (log_all_events ev w) = Ok tt /\
  done (snd (log_all_events ev w)) = done w /\
  (file (snd (log_all_events ev w)) = file w \/
   contains "notification" (lower (event_type ev)) = true /\
   contains notification_id (data_str ev) = true) /\
  fst (auto_acknowledge w) = Ok tt /\
  done (snd (auto_acknowledge w)) = done w.
Proof.
  split; [|split; [|split]].
  - unfold log_all_events, try_except, write_acknowledged, ret.
    destruct (contains "notification" (lower (event_type ev)));
      [|reflexivity].
    destruct (contains notification_id (data_str ev)); [|reflexivity].
    now destruct (on_write w).
  - unfold log_all_events, try_except, write_acknowledged, ret.
    destruct (contains "notification" (lower (event_type ev)));
      [|reflexivity].
    destruct (contains notification_id (data_str ev)); [|reflexivity].
    now destruct (on_write w).
  - unfold log_all_events.
    destruct (contains "notification" (lower (event_type ev)));
      [|now left].
    destruct (contains notification_id (data_str ev)); [now right | now left].
  - unfold auto_acknowledge, bind, try_except, read_file, lift, ret,
      write_acknowledged.
    destruct (file w) as [|e|data]; simpl.
    + destruct (on_write w); simpl; auto.
    + auto.
    + destruct (Py.get data (PyStr "acknowledged") (PyBool false)) as [flag|e];
        simpl; [|auto].
      destruct (truthy flag); simpl; [auto|].
      destruct (on_write w); simpl; auto.
Qed.

(** X25: [async_setup] never writes the state file, and it returns [True]
    unless the [persistent_notification.create] call raises; that call is
    made only when the YAML section is present and no truthy flag is read
    from the file, and when it raises the exception leaves [async_setup]
    before the import flow is started, so nothing was asked of the host. *)
Theorem setup_raises_only_from_the_notification_call
    (config : dict) (w : world) :
  file (snd (async_setup config w)) = file w /\
  (fst (async_setup config w) = Ok true \/
   exists e section,
     service_error w = Some e /\
     dict_find (KStr DOMAIN) config = Some section /\
     acknowledged_in (file w) = false /\
     async_setup config w = (Raise e, w)).
Proof.
  rewrite async_setup_eq. unfold DOMAIN.
  destruct (dict_find (KStr "nature_remo") config) as [section|];
    [|now split; [|left]].
  destruct (acknowledged_in (file w)); [now split; [|left]|].
  destruct (service_error w) as [e|]; [|now split; [|left]].
  split; [reflexivity|]. right. now exists e, section.
Qed.

End NoticeCoverage.

Section NoticeCoverageExamples.

Import InitSetup.
Import NoticeExamples.

(** The notification was shown once and is dismissed: the flag is written,
    and the next setup only starts the import again. *)
Lemma dismissed_notice_is_not_shown_again_witness :
  file (snd (log_all_events dismissed shown_once)) = Holds acknowledged /\
  fst (async_setup configured (snd (log_all_events dismissed shown_once))) =
    Ok true /\
  done (snd (async_setup configured
               (snd (log_all_events dismissed shown_once)))) =
    done shown_once ++ import_of configured.
Proof.
  apply (dismissed_notice_is_not_shown_again dismissed shown_once configured);
    reflexivity.
Defined.

(** A file with the flag still false is rewritten by the timer. *)
Lemma auto_acknowledge_silences_the_next_setup_witness :
  acknowledged_in (file (snd (auto_acknowledge not_yet))) = true /\
  (if acknowledged_in (file not_yet)
   then snd (auto_acknowledge not_yet) = not_yet
   else file (snd (auto_acknowledge not_yet)) = Holds acknowledged) /\
  fst (async_setup configured (snd (auto_acknowledge not_yet))) = Ok true /\
  done (snd (async_setup configured (snd (auto_acknowledge not_yet)))) =
    done not_yet ++ import_of configured.
Proof.
  apply (auto_acknowledge_silences_the_next_setup not_yet configured);
    reflexivity.
Defined.


End NoticeCoverageExamples.
